(** * libadblockplus: value handles, executor contract and module bootstrap

    A shallow embedding of [src/JsValue.cpp] over a model of the part of the
    V8 API that file calls, together with models of the [IExecutor] contract
    ([include/AdblockPlus/IExecutor.h]) and of the bootstrap state kept by
    [DefaultPlatform] ([src/DefaultPlatform.h]).

    Layout: the models first (modules [Executor], [Platform], [V8],
    [AdblockPlus]), then the vocabulary of the statements and a small
    sample engine, then the theorems, then the theorems at work on the
    sample.  The module [HarnessTest] embeds the statistics and the list
    helper of [test/HarnessTest.cpp]. *)

From Stdlib Require Import ZArith NArith String Ascii List Bool Lia.
From Stdlib Require Import DecimalString.
From Stdlib Require Import DecimalN DecimalPos Zpower.
From Stdlib Require Import Floats.SpecFloat.
From stdpp Require Import gmap strings list.

Open Scope string_scope.

(* ===================================================================== *)
(** * include/AdblockPlus/IExecutor.h                                     *)
(* ===================================================================== *)

Module Executor.

Section WithTask.

Variable Task : Type.

(** Modelled from the spec: IExecutor.h declares the interface only
    ([Dispatch], [Stop]) and no implementation of it is among the sources.
    An executor holds the work accepted and not yet started; [executed]
    records, in order, the tasks it has run. *)
Record t : Type := mk {
  stopped : bool;
  queue : list Task;
  executed : list Task
}.

Definition create : t := mk false [] [].

(** Modelled from the spec: [Dispatch(task)] schedules [task] for future
    execution; once stopped, the executor accepts no new work. *)
Definition Dispatch (task : Task) (e : t) : t :=
  if stopped e then e else mk false (queue e ++ [task])%list (executed e).

(** Modelled from the spec: [Stop()] stops accepting tasks, for good. *)
Definition Stop (e : t) : t := mk true (queue e) (executed e).

(** Modelled from the spec: a worker starts the next queued task, unless
    the executor is stopped: queued work that has not started is not
    started any more. *)
Definition run_next (e : t) : t :=
  if stopped e then e
  else match queue e with
       | [] => e
       | task :: rest => mk false rest (executed e ++ [task])%list
       end.

Inductive Event : Type :=
| EvDispatch (task : Task)
| EvStop
| EvWorker.

Definition step (e : t) (ev : Event) : t :=
  match ev with
  | EvDispatch task => Dispatch task e
  | EvStop => Stop e
  | EvWorker => run_next e
  end.

Definition run (evs : list Event) (e : t) : t := fold_left step evs e.

End WithTask.

Arguments mk {Task} _ _ _.
Arguments stopped {Task} _.
Arguments queue {Task} _.
Arguments executed {Task} _.
Arguments create {Task}.
Arguments Dispatch {Task} _ _.
Arguments Stop {Task} _.
Arguments run_next {Task} _.
Arguments EvDispatch {Task} _.
Arguments EvStop {Task}.
Arguments EvWorker {Task}.
Arguments step {Task} _ _.
Arguments run {Task} _ _.

End Executor.

(* ===================================================================== *)
(** * src/DefaultPlatform.h                                               *)
(* ===================================================================== *)

Module Platform.

(** Modelled from the spec: the states of the bootstrap of one platform,
    which DefaultPlatform.h does not name. *)
Inductive State : Type :=
| Uninitialized
| RuntimeReady
| ModuleConstructionTriggered
| ModuleReady
| ModuleFailed.

(** The two mutexes declared in DefaultPlatform.h. *)
Inductive Mutex : Type := modulesMutex_ | evaluatedJsSourcesMutex_.

Inductive LockOp : Type := Lock (m : Mutex) | Unlock (m : Mutex).

(** Modelled from the spec: the work the platform hands to its executor
    (DefaultPlatform.cpp is missing). *)
Inductive Task : Type := ConstructModule.

Section WithModule.

(** The module built ([IFilterEngine]), what a failed construction
    reports, the identity of a ready-callback, and whether evaluating the
    script source of a given name succeeds. *)
Variables IFilterEngine Error Callback : Type.
Variable evaluates : string -> bool.

Definition Result : Type := (IFilterEngine + Error)%type.

(** Modelled from the spec: DefaultPlatform.cpp is not among the sources;
    the header declares the members kept here ([executor],
    [modulesMutex_], [filterEngine_], [evaluatedJsSources_],
    [evaluatedJsSourcesMutex_]).  [filterEngine_] names the shared state of
    the future once one exists; [shared_states] holds what each shared
    state resolved to.  The remaining fields record what happened: the
    number of dispatches to the executor, the future every call attached
    to, the callbacks waiting and notified, the sources evaluated, and the
    mutex operations. *)
Record t : Type := mk {
  state : State;
  executor : Executor.t Task;
  filterEngine_ : option nat;
  shared_states : gmap nat (option Result);
  evaluatedJsSources_ : gset string;
  dispatches : nat;
  attached : list nat;
  waiting : list Callback;
  notified : list (Callback * Result);
  evaluations : list string;
  lock_log : list LockOp
}.

Definition create : t :=
  mk Uninitialized Executor.create None ∅ ∅ 0 [] [] [] [] [].

Definition with_lock (m : Mutex) (body : t -> t) (p : t) : t :=
  let p1 := mk (state p) (executor p) (filterEngine_ p) (shared_states p)
               (evaluatedJsSources_ p) (dispatches p) (attached p) (waiting p)
               (notified p) (evaluations p) (lock_log p ++ [Lock m])%list in
  let p2 := body p1 in
  mk (state p2) (executor p2) (filterEngine_ p2) (shared_states p2)
     (evaluatedJsSources_ p2) (dispatches p2) (attached p2) (waiting p2)
     (notified p2) (evaluations p2) (lock_log p2 ++ [Unlock m])%list.

(** Modelled from the spec: the callback returned by
    [GetEvaluateCallback].  Under [evaluatedJsSourcesMutex_] it consults
    [evaluatedJsSources_]; a source already recorded is skipped; otherwise
    the source is evaluated and, when that succeeded, recorded. *)
Definition Evaluate (source : string) : t -> t :=
  with_lock evaluatedJsSourcesMutex_ (fun p =>
    if decide (source ∈ evaluatedJsSources_ p) then p
    else
      mk (state p) (executor p) (filterEngine_ p) (shared_states p)
         (if evaluates source then {[source]} ∪ evaluatedJsSources_ p
          else evaluatedJsSources_ p)
         (dispatches p) (attached p) (waiting p) (notified p)
         (evaluations p ++ [source])%list (lock_log p)).

Definition EvaluateAll (sources : list string) (p : t) : t :=
  fold_left (fun q source => Evaluate source q) sources p.

(** Modelled from the spec: [SetUp] takes the platform from
    [Uninitialized] to [RuntimeReady] and evaluates the bootstrap scripts;
    a second call is refused and changes nothing. *)
Definition SetUp (bootstrap : list string) (p : t) : t :=
  match state p with
  | Uninitialized =>
      EvaluateAll bootstrap
        (mk RuntimeReady (executor p) (filterEngine_ p) (shared_states p)
            (evaluatedJsSources_ p) (dispatches p) (attached p) (waiting p)
            (notified p) (evaluations p) (lock_log p))
  | _ => p
  end.

(** Modelled from the spec: the first call of [CreateFilterEngineAsync]
    (DefaultPlatform.cpp is missing).  The construction work goes to the
    executor and a shared state for the future is created. *)
Definition trigger (p : t) : t :=
  let id := fresh (dom (shared_states p)) in
  mk ModuleConstructionTriggered (Executor.Dispatch ConstructModule (executor p))
     (Some id) (<[id := None]> (shared_states p)) (evaluatedJsSources_ p)
     (S (dispatches p)) (attached p) (waiting p) (notified p) (evaluations p) (lock_log p).

(** Modelled from the spec: attaching to the future [id]
    (DefaultPlatform.cpp is missing).  The callback runs at once when the
    future is already resolved, and waits otherwise. *)
Definition attach (id : nat) (onReady : option Callback) (p : t) : t :=
  let '(w, n) :=
    match onReady with
    | None => (waiting p, notified p)
    | Some cb =>
        match shared_states p !! id with
        | Some (Some r) => (waiting p, (notified p ++ [(cb, r)])%list)
        | _ => ((waiting p ++ [cb])%list, notified p)
        end
    end in
  mk (state p) (executor p) (filterEngine_ p) (shared_states p) (evaluatedJsSources_ p)
     (dispatches p) (attached p ++ [id])%list w n (evaluations p) (lock_log p).

(** Modelled from the spec: [CreateFilterEngineAsync(parameters,
    onCreated)].  Under [modulesMutex_], the first call triggers the
    construction; every call attaches to the stored future. *)
Definition CreateFilterEngineAsync (onCreated : option Callback) : t -> t :=
  with_lock modulesMutex_ (fun p =>
    let p1 := match filterEngine_ p with
              | None => trigger p
              | Some _ => p
              end in
    match filterEngine_ p1 with
    | Some id => attach id onCreated p1
    | None => p1
    end).

(** Modelled from the spec: resolving the future (DefaultPlatform.cpp is
    missing).  Every waiting callback is notified by the work that
    resolves the future, in the order of registration. *)
Definition resolve (r : Result) (p : t) : t :=
  match filterEngine_ p with
  | None => p
  | Some id =>
      mk (match r with inl _ => ModuleReady | inr _ => ModuleFailed end)
         (executor p) (filterEngine_ p) (<[id := Some r]> (shared_states p))
         (evaluatedJsSources_ p) (dispatches p) (attached p) []
         (notified p ++ map (fun cb => (cb, r)) (waiting p))%list
         (evaluations p) (lock_log p)
  end.

(** Modelled from the spec: the executor runs its next task
    (DefaultPlatform.cpp is missing).  The construction work evaluates
    [sources] through the evaluate callback and ends with [r]. *)
Definition executor_runs (sources : list string) (r : Result) (p : t) : t :=
  let e := Executor.run_next (executor p) in
  match Executor.stopped (executor p), Executor.queue (executor p) with
  | false, ConstructModule :: _ =>
      resolve r
        (EvaluateAll sources
           (mk (state p) e (filterEngine_ p) (shared_states p) (evaluatedJsSources_ p)
               (dispatches p) (attached p) (waiting p) (notified p) (evaluations p)
               (lock_log p)))
  | _, _ => p
  end.

Inductive Event : Type :=
| EvSetUp (bootstrap : list string)
| EvCreateFilterEngineAsync (onCreated : option Callback)
| EvExecutorRuns (sources : list string) (r : Result)
| EvEvaluate (source : string).

Definition step (p : t) (ev : Event) : t :=
  match ev with
  | EvSetUp bootstrap => SetUp bootstrap p
  | EvCreateFilterEngineAsync onCreated => CreateFilterEngineAsync onCreated p
  | EvExecutorRuns sources r => executor_runs sources r p
  | EvEvaluate source => Evaluate source p
  end.

Definition run (evs : list Event) (p : t) : t := fold_left step evs p.

(** The ready-callbacks supplied along a run, in order. *)
Definition supplied (evs : list Event) : list Callback :=
  omap (fun ev => match ev with
                  | EvCreateFilterEngineAsync onCreated => onCreated
                  | _ => None
                  end) evs.

Definition is_call (ev : Event) : bool :=
  match ev with EvCreateFilterEngineAsync _ => true | _ => false end.

End WithModule.

Arguments mk {IFilterEngine Error Callback} _ _ _ _ _ _ _ _ _ _ _.
Arguments state {IFilterEngine Error Callback} _.
Arguments executor {IFilterEngine Error Callback} _.
Arguments filterEngine_ {IFilterEngine Error Callback} _.
Arguments shared_states {IFilterEngine Error Callback} _.
Arguments evaluatedJsSources_ {IFilterEngine Error Callback} _.
Arguments dispatches {IFilterEngine Error Callback} _.
Arguments attached {IFilterEngine Error Callback} _.
Arguments waiting {IFilterEngine Error Callback} _.
Arguments notified {IFilterEngine Error Callback} _.
Arguments evaluations {IFilterEngine Error Callback} _.
Arguments lock_log {IFilterEngine Error Callback} _.
Arguments create {IFilterEngine Error Callback}.
Arguments with_lock {IFilterEngine Error Callback} _ _ _.
Arguments Evaluate {IFilterEngine Error Callback} _ _ _.
Arguments EvaluateAll {IFilterEngine Error Callback} _ _ _.
Arguments SetUp {IFilterEngine Error Callback} _ _ _.
Arguments trigger {IFilterEngine Error Callback} _.
Arguments attach {IFilterEngine Error Callback} _ _ _.
Arguments CreateFilterEngineAsync {IFilterEngine Error Callback} _ _.
Arguments resolve {IFilterEngine Error Callback} _ _.
Arguments executor_runs {IFilterEngine Error Callback} _ _ _ _.
Arguments EvSetUp {IFilterEngine Error Callback} _.
Arguments EvCreateFilterEngineAsync {IFilterEngine Error Callback} _.
Arguments EvExecutorRuns {IFilterEngine Error Callback} _ _.
Arguments EvEvaluate {IFilterEngine Error Callback} _.
Arguments step {IFilterEngine Error Callback} _ _ _.
Arguments run {IFilterEngine Error Callback} _ _ _.
Arguments supplied {IFilterEngine Error Callback} _.
Arguments is_call {IFilterEngine Error Callback} _.

End Platform.

(* ===================================================================== *)
(** * The embedded engine: the part of the V8 API used by JsValue.cpp     *)
(* ===================================================================== *)

(** The engine is not part of the repository.  The model covers what the
    handle code can observe of it: primitives, ordinary objects with data
    and accessor properties and a prototype chain, arrays, functions whose
    body returns or throws a value, and the String, Number and Boolean
    wrappers; persistent cells ([v8::Global]) and the stack of entered
    contexts.  Proxies, symbols and function bodies with side effects are
    left out. *)

Module V8.

(** ** Numbers: IEEE 754 binary64 *)

Definition double : Type := spec_float.

Definition double_of_Z (z : Z) : double := binary_normalize 53 1024 z 0 false.

Definition INT64_MAX : Z := 9223372036854775807.
Definition INT64_MIN : Z := -9223372036854775808.

(** Truncation of a finite double towards zero. *)
Definition double_trunc (s : bool) (m : positive) (e : Z) : Z :=
  let mag := if (0 <=? e)%Z then (Zpos m * 2 ^ e)%Z else (Zpos m / 2 ^ (- e))%Z in
  if s then (- mag)%Z else mag.

(** [NumberToInt64]: NaN is 0, values outside int64 saturate, the rest is
    truncated. *)
Definition NumberToInt64 (d : double) : Z :=
  match d with
  | S754_nan => 0%Z
  | S754_zero _ => 0%Z
  | S754_infinity false => INT64_MAX
  | S754_infinity true => INT64_MIN
  | S754_finite s m e => Z.max INT64_MIN (Z.min INT64_MAX (double_trunc s m e))
  end.

(** The exact value of a double when it is an integer in [0, 2^32 - 1]. *)
Definition uint32_of_double (d : double) : option N :=
  match d with
  | S754_zero _ => Some 0%N
  | S754_finite false m e =>
      let exact :=
        if (0 <=? e)%Z then Some (Zpos m * 2 ^ e)%Z
        else if (Zpos m mod 2 ^ (- e) =? 0)%Z then Some (Zpos m / 2 ^ (- e))%Z
        else None in
      match exact with
      | Some z => if (z <? 2 ^ 32)%Z then Some (Z.to_N z) else None
      | None => None
      end
  | _ => None
  end.

(** ** Values and heap objects *)

Inductive Value : Type :=
| VUndefined
| VNull
| VBoolean (b : bool)
| VNumber (d : double)
| VString (s : string)
| VObject (addr : nat).

(** Bodies of the functions living in the heap.  A body either returns or
    throws the value of an expression over its receiver and arguments. *)
Inductive Expr : Type :=
| Const (v : Value)
| This
| Arg (i : nat)
| PrimitiveValueOfThis.

Inductive FunctionBody : Type :=
| FnReturn (e : Expr)
| FnThrow (e : Expr).

Inductive ObjectKind : Type :=
| JSObject
| JSArray (len : N)
| JSFunction (body : FunctionBody)
| JSStringObject (s : string)
| JSNumberObject (d : double)
| JSBooleanObject (b : bool).

Inductive PropertySlot : Type :=
| DataProperty (v : Value)
| AccessorProperty (getter setter : option nat).

Record JsObject : Type := mkJsObject {
  kind : ObjectKind;
  properties : list (string * PropertySlot);
  prototype : option nat
}.

(** Result of an operation that may run script: a value, or the exception
    the script threw.  The C++ caller sees the latter as an empty
    [v8::Maybe] / [v8::MaybeLocal]; a [v8::TryCatch] in scope sees the
    exception itself. *)
Inductive Completion (A : Type) : Type :=
| Normal (a : A)
| Abrupt (exn : Value).
Arguments Normal {A} a.
Arguments Abrupt {A} exn.

Definition to_maybe {A} (c : Completion A) : option A :=
  match c with Normal a => Some a | Abrupt _ => None end.

Definition completion_map {A B} (f : A -> B) (c : Completion A) : Completion B :=
  match c with Normal a => Normal (f a) | Abrupt e => Abrupt e end.

Record Context : Type := mkContext {
  global_object : nat;
  array_prototype : option nat
}.

(** Operations on the runtime that the handle code performs and that leave
    a mark: entering and leaving a context, creating and disposing the
    storage cell of a [v8::Global]. *)
Inductive RuntimeOp : Type :=
| EnterContext (c : nat)
| ExitContext (c : nat)
| NewGlobal (cell : nat)
| DisposeGlobal (cell : nat).

Record Isolate : Type := mkIsolate {
  heap : gmap nat JsObject;
  contexts : gmap nat Context;
  global_handles : gmap nat Value;
  entered_contexts : list nat;
  trace : list RuntimeOp
}.

Definition set_heap (h : gmap nat JsObject) (iso : Isolate) : Isolate :=
  mkIsolate h (contexts iso) (global_handles iso) (entered_contexts iso) (trace iso).

(** ** Type predicates of [v8::Value] *)

Definition kind_of (h : gmap nat JsObject) (v : Value) : option ObjectKind :=
  match v with
  | VObject a => kind <$> h !! a
  | _ => None
  end.

Definition IsUndefined (v : Value) : bool :=
  match v with VUndefined => true | _ => false end.
Definition IsNull (v : Value) : bool :=
  match v with VNull => true | _ => false end.
Definition IsString (v : Value) : bool :=
  match v with VString _ => true | _ => false end.
Definition IsNumber (v : Value) : bool :=
  match v with VNumber _ => true | _ => false end.
Definition IsBoolean (v : Value) : bool :=
  match v with VBoolean _ => true | _ => false end.
Definition IsObject (v : Value) : bool :=
  match v with VObject _ => true | _ => false end.
Definition IsStringObject (h : gmap nat JsObject) (v : Value) : bool :=
  match kind_of h v with Some (JSStringObject _) => true | _ => false end.
Definition IsNumberObject (h : gmap nat JsObject) (v : Value) : bool :=
  match kind_of h v with Some (JSNumberObject _) => true | _ => false end.
Definition IsBooleanObject (h : gmap nat JsObject) (v : Value) : bool :=
  match kind_of h v with Some (JSBooleanObject _) => true | _ => false end.
Definition IsArray (h : gmap nat JsObject) (v : Value) : bool :=
  match kind_of h v with Some (JSArray _) => true | _ => false end.
Definition IsFunction (h : gmap nat JsObject) (v : Value) : bool :=
  match kind_of h v with Some (JSFunction _) => true | _ => false end.

(** ** Property keys *)

Definition key_of_index (i : N) : string := NilZero.string_of_uint (N.to_uint i).

(** A key is an array index when it is the canonical decimal text of a
    number below 2^32 - 1. *)
Definition index_of_key (key : string) : option N :=
  match NilZero.uint_of_string key with
  | Some u =>
      let n := N.of_uint u in
      if String.eqb (key_of_index n) key && (n <? 4294967295)%N then Some n else None
  | None => None
  end.

Fixpoint find_property (key : string) (ps : list (string * PropertySlot)) : option PropertySlot :=
  match ps with
  | [] => None
  | (k, p) :: rest => if String.eqb k key then Some p else find_property key rest
  end.

Definition string_at (s : string) (i : N) : option string :=
  match String.get (N.to_nat i) s with
  | Some c => Some (String c EmptyString)
  | None => None
  end.

(** Own property of an object, with the exotic [length] of arrays and the
    [length] and characters of String wrappers. *)
Definition own_property (o : JsObject) (key : string) : option PropertySlot :=
  match kind o with
  | JSArray len =>
      if String.eqb key "length"
      then Some (DataProperty (VNumber (double_of_Z (Z.of_N len))))
      else find_property key (properties o)
  | JSStringObject s =>
      if String.eqb key "length"
      then Some (DataProperty (VNumber (double_of_Z (Z.of_nat (String.length s)))))
      else match index_of_key key with
           | Some i =>
               match string_at s i with
               | Some c => Some (DataProperty (VString c))
               | None => find_property key (properties o)
               end
           | None => find_property key (properties o)
           end
  | _ => find_property key (properties o)
  end.

(** Lookup along the prototype chain.  A chain never visits more objects
    than the heap holds, so [S (size h)] steps suffice. *)
Fixpoint lookup_chain (fuel : nat) (h : gmap nat JsObject) (a : nat) (key : string)
  : option PropertySlot :=
  match fuel with
  | O => None
  | S n =>
      match h !! a with
      | None => None
      | Some o =>
          match own_property o key with
          | Some p => Some p
          | None =>
              match prototype o with
              | Some p => lookup_chain n h p key
              | None => None
              end
          end
      end
  end.

Definition lookup_property (h : gmap nat JsObject) (a : nat) (key : string)
  : option PropertySlot :=
  lookup_chain (S (size h)) h a key.

(** ** Calling functions *)

Definition primitive_value (h : gmap nat JsObject) (this : Value) : Value :=
  match kind_of h this with
  | Some (JSStringObject s) => VString s
  | Some (JSNumberObject d) => VNumber d
  | Some (JSBooleanObject b) => VBoolean b
  | _ => this
  end.

Definition eval_expr (h : gmap nat JsObject) (this : Value) (args : list Value) (e : Expr)
  : Value :=
  match e with
  | Const v => v
  | This => this
  | Arg i => nth i args VUndefined
  | PrimitiveValueOfThis => primitive_value h this
  end.

Definition not_a_function : Value := VString "TypeError: not a function".

(** [v8::Function::Call(context, recv, argc, argv)]. *)
Definition Function_Call (h : gmap nat JsObject) (f : nat) (this : Value) (args : list Value)
  : Completion Value :=
  match kind <$> h !! f with
  | Some (JSFunction (FnReturn e)) => Normal (eval_expr h this args e)
  | Some (JSFunction (FnThrow e)) => Abrupt (eval_expr h this args e)
  | _ => Abrupt not_a_function
  end.

(** [v8::Object::Get(context, key)]: a missing property reads as
    undefined; an accessor runs its getter, which may throw. *)
Definition Object_Get (h : gmap nat JsObject) (a : nat) (key : string) : Completion Value :=
  match lookup_property h a key with
  | Some (DataProperty v) => Normal v
  | Some (AccessorProperty (Some g) _) => Function_Call h g (VObject a) []
  | Some (AccessorProperty None _) => Normal VUndefined
  | None => Normal VUndefined
  end.

(** [v8::Object::Get(context, index)]. *)
Definition Object_Get_index (h : gmap nat JsObject) (a : nat) (i : N) : Completion Value :=
  Object_Get h a (key_of_index i).

(** [v8::Array::Length()]. *)
Definition Array_Length (h : gmap nat JsObject) (a : nat) : N :=
  match kind <$> h !! a with
  | Some (JSArray len) => len
  | _ => 0%N
  end.

(** ** Coercions *)

Section Coercion.

(** The engine's reading of a string as a numeric literal. *)
Variable StringToNumber : string -> double.

Definition cannot_convert : Value :=
  VString "TypeError: Cannot convert object to primitive value".

(** One step of OrdinaryToPrimitive: call the method [name] of the object
    when it is callable, and keep the result when it is a primitive. *)
Definition try_method (h : gmap nat JsObject) (a : nat) (name : string)
  : Completion (option Value) :=
  match Object_Get h a name with
  | Abrupt e => Abrupt e
  | Normal (VObject f) =>
      if IsFunction h (VObject f)
      then match Function_Call h f (VObject a) [] with
           | Abrupt e => Abrupt e
           | Normal r => if IsObject r then Normal None else Normal (Some r)
           end
      else Normal None
  | Normal _ => Normal None
  end.

(** ToPrimitive with hint number: [valueOf], then [toString]. *)
Definition ToPrimitive (h : gmap nat JsObject) (a : nat) : Completion Value :=
  match try_method h a "valueOf" with
  | Abrupt e => Abrupt e
  | Normal (Some r) => Normal r
  | Normal None =>
      match try_method h a "toString" with
      | Abrupt e => Abrupt e
      | Normal (Some r) => Normal r
      | Normal None => Abrupt cannot_convert
      end
  end.

Definition ToNumber_primitive (v : Value) : double :=
  match v with
  | VUndefined => S754_nan
  | VNull => S754_zero false
  | VBoolean b => if b then double_of_Z 1 else S754_zero false
  | VNumber d => d
  | VString s => StringToNumber s
  | VObject _ => S754_nan
  end.

Definition ToNumber (h : gmap nat JsObject) (v : Value) : Completion double :=
  match v with
  | VObject a => completion_map ToNumber_primitive (ToPrimitive h a)
  | _ => Normal (ToNumber_primitive v)
  end.

(** [v8::Value::IntegerValue(context)]. *)
Definition IntegerValue (h : gmap nat JsObject) (v : Value) : Completion Z :=
  completion_map NumberToInt64 (ToNumber h v).

(** [v8::Value::NumberValue(context)]. *)
Definition NumberValue (h : gmap nat JsObject) (v : Value) : Completion double :=
  ToNumber h v.

(** [v8::Value::BooleanValue(isolate)]; it runs no script. *)
Definition BooleanValue (v : Value) : bool :=
  match v with
  | VUndefined | VNull => false
  | VBoolean b => b
  | VNumber (S754_zero _) | VNumber S754_nan => false
  | VNumber _ => true
  | VString s => negb (String.eqb s "")
  | VObject _ => true
  end.

(** ** Writing properties *)

Fixpoint replace_property (key : string) (p : PropertySlot) (ps : list (string * PropertySlot))
  : list (string * PropertySlot) :=
  match ps with
  | [] => [(key, p)]
  | (k, q) :: rest =>
      if String.eqb k key then (k, p) :: rest else (k, q) :: replace_property key p rest
  end.

(** Create or overwrite an own data property; an array grows to hold a new
    index. *)
Definition define_data (o : JsObject) (key : string) (v : Value) : JsObject :=
  let k :=
    match kind o, index_of_key key with
    | JSArray len, Some i => JSArray (N.max len (i + 1))
    | k, _ => k
    end in
  mkJsObject k (replace_property key (DataProperty v) (properties o)) (prototype o).

Definition below (n : N) (key : string) : bool :=
  match index_of_key key with
  | Some i => (i <? n)%N
  | None => true
  end.

Definition set_length (o : JsObject) (n : N) : JsObject :=
  mkJsObject (JSArray n)
    (List.filter (fun kp => below n (fst kp)) (properties o)) (prototype o).

Definition invalid_array_length : Value := VString "RangeError: Invalid array length".

(** Is [key] one of the read-only own properties of a String wrapper? *)
Definition string_exotic_key (s : string) (key : string) : bool :=
  String.eqb key "length" ||
  match index_of_key key with
  | Some i => (i <? N.of_nat (String.length s))%N
  | None => false
  end.

Definition ordinary_set (h : gmap nat JsObject) (a : nat) (o : JsObject) (key : string)
    (v : Value) : Completion bool * gmap nat JsObject :=
  match lookup_property h a key with
  | Some (AccessorProperty _ (Some setter)) =>
      match Function_Call h setter (VObject a) [v] with
      | Normal _ => (Normal true, h)
      | Abrupt e => (Abrupt e, h)
      end
  | Some (AccessorProperty _ None) => (Normal true, h)
  | Some (DataProperty _) | None => (Normal true, <[a := define_data o key v]> h)
  end.

(** [v8::Object::Set(context, key, value)].  It reports failure only when
    script run on the way (a setter, a coercion) throws. *)
Definition Object_Set (h : gmap nat JsObject) (a : nat) (key : string) (v : Value)
  : Completion bool * gmap nat JsObject :=
  match h !! a with
  | None => (Normal true, h)
  | Some o =>
      match kind o with
      | JSArray _ =>
          if String.eqb key "length"
          then match ToNumber h v with
               | Abrupt e => (Abrupt e, h)
               | Normal d =>
                   match uint32_of_double d with
                   | Some n => (Normal true, <[a := set_length o n]> h)
                   | None => (Abrupt invalid_array_length, h)
                   end
               end
          else ordinary_set h a o key v
      | JSStringObject s =>
          if string_exotic_key s key then (Normal true, h) else ordinary_set h a o key v
      | _ => ordinary_set h a o key v
      end
  end.

End Coercion.

(** ** Enumerating own properties *)

Fixpoint insert_sorted (i : N) (l : list N) : list N :=
  match l with
  | [] => [i]
  | j :: rest => if (i <=? j)%N then i :: l else j :: insert_sorted i rest
  end.

Definition sort_indices (l : list N) : list N := foldr insert_sorted [] l.

Definition is_index_key (key : string) : bool :=
  match index_of_key key with Some _ => true | None => false end.

(** Own enumerable keys: indices in ascending order (kept as numbers), then
    the other names in insertion order. *)
Definition own_keys (o : JsObject) : list Value :=
  let ks := map fst (properties o) in
  let exotic :=
    match kind o with
    | JSStringObject s => map N.of_nat (seq 0 (String.length s))
    | _ => []
    end in
  let indices := (exotic ++ sort_indices (omap index_of_key ks))%list in
  (map (fun i => VNumber (double_of_Z (Z.of_N i))) indices
   ++ map VString (List.filter (fun k => negb (is_index_key k)) ks))%list.

Definition array_of_values (proto : option nat) (vs : list Value) : JsObject :=
  mkJsObject (JSArray (N.of_nat (List.length vs)))
    (imap (fun i v => (key_of_index (N.of_nat i), DataProperty v)) vs) proto.

Definition current_context (iso : Isolate) : option Context :=
  match entered_contexts iso with
  | c :: _ => contexts iso !! c
  | [] => None
  end.

(** [v8::Object::GetOwnPropertyNames(context)]: a fresh array of the keys. *)
Definition Object_GetOwnPropertyNames (iso : Isolate) (a : nat) : Completion Value * Isolate :=
  let keys := match heap iso !! a with Some o => own_keys o | None => [] end in
  let proto := match current_context iso with Some c => array_prototype c | None => None end in
  let addr := fresh (dom (heap iso)) in
  (Normal (VObject addr), set_heap (<[addr := array_of_values proto keys]> (heap iso)) iso).

(** ** Contexts and persistent handles *)

Definition enter (c : nat) (iso : Isolate) : Isolate :=
  mkIsolate (heap iso) (contexts iso) (global_handles iso)
    (c :: entered_contexts iso) (EnterContext c :: trace iso).

Definition exit (iso : Isolate) : Isolate :=
  match entered_contexts iso with
  | c :: rest =>
      mkIsolate (heap iso) (contexts iso) (global_handles iso) rest (ExitContext c :: trace iso)
  | [] => iso
  end.

(** Constructing a non-empty [v8::Global] takes a fresh storage cell. *)
Definition new_global (v : Value) (iso : Isolate) : nat * Isolate :=
  let cell := fresh (dom (global_handles iso)) in
  (cell, mkIsolate (heap iso) (contexts iso) (<[cell := v]> (global_handles iso))
           (entered_contexts iso) (NewGlobal cell :: trace iso)).

(** [v8::Global::Reset()] on a non-empty handle gives the cell back. *)
Definition dispose_global (cell : nat) (iso : Isolate) : Isolate :=
  mkIsolate (heap iso) (contexts iso) (delete cell (global_handles iso))
    (entered_contexts iso) (DisposeGlobal cell :: trace iso).

End V8.

(* ===================================================================== *)
(** * src/JsValue.cpp                                                     *)
(* ===================================================================== *)

Module AdblockPlus.

(** What the file uses without defining it: the build flag
    [MAKE_ISOLATE_IN_JS_VALUE_WEAK]; the type [StringBuffer] and the helpers
    of [Utils.h], of which the two that create a runtime string may come
    back empty (the file passes their result to CHECKED_TO_LOCAL); and four
    services of the engine that are kept abstract: UTF-8 string creation,
    the numeric reading of a string, the name of an object's constructor,
    and the text the engine gives for a thrown value. *)
Class Externals : Type := {
  MAKE_ISOLATE_IN_JS_VALUE_WEAK : bool;
  StringBuffer : Type;
  ToV8String : string -> option string;
  StringBufferToV8String : StringBuffer -> option string;
  FromV8String : gmap nat V8.JsObject -> V8.Value -> string;
  StringBufferFromV8String : gmap nat V8.JsObject -> V8.Value -> StringBuffer;
  NewFromUtf8 : string -> option string;
  StringToNumber : string -> V8.double;
  GetConstructorName : gmap nat V8.JsObject -> nat -> V8.Value;
  MessageText : gmap nat V8.JsObject -> V8.Value -> string
}.

(** ** Exceptions *)

(** The error kinds of the specification's taxonomy that value handles
    raise. *)
Inductive ErrorKind : Type := TypeError | ConversionError | ScriptError.

(** [runtime_error] is what JsValue.cpp throws itself, always after a
    failed check of the handle's kind.
    Modelled from the spec: JsError.h, which defines what the CHECKED_TO_*
    macros throw, is not among the sources; an empty result of the engine
    is a conversion error, and a call that threw is a script error carrying
    the engine's message text. *)
Inductive exception : Type :=
| runtime_error (what : string)
| JsError_empty_value
| JsError_script (message : string).

Definition error_kind (e : exception) : ErrorKind :=
  match e with
  | runtime_error _ => TypeError
  | JsError_empty_value => ConversionError
  | JsError_script _ => ScriptError
  end.

(** ** Native computations *)

(** A native call returns, throws a C++ exception, or has no defined
    behaviour (a null or dangling pointer is used, a dead engine is
    touched). *)
Inductive Outcome (A : Type) : Type :=
| Returns (a : A)
| Throws (e : exception)
| Undefined_behaviour.
Arguments Returns {A} a.
Arguments Throws {A} e.
Arguments Undefined_behaviour {A}.

(** What [IV8IsolateProvider::Get()] answers: the engine, or null once it
    has been torn down. *)
Definition World : Type := option V8.Isolate.

Definition M (A : Type) : Type := World -> Outcome A * World.

Definition ret {A} (a : A) : M A := fun w => (Returns a, w).
Definition throw {A} (e : exception) : M A := fun w => (Throws e, w).
Definition undefined_behaviour {A} : M A := fun w => (Undefined_behaviour, w).

Definition bind {A B} (c : M A) (k : A -> M B) : M B :=
  fun w =>
    match c w with
    | (Returns a, w') => k a w'
    | (Throws e, w') => (Throws e, w')
    | (Undefined_behaviour, w') => (Undefined_behaviour, w')
    end.

Notation "x <- c1 ;; c2" := (bind c1 (fun x => c2))
  (at level 100, c1 at next level, right associativity).
Notation "c1 ;;; c2" := (bind c1 (fun _ => c2))
  (at level 100, right associativity).

(** Stack unwinding: when [c] throws, [cleanup] (the destructors of the
    locals alive at that point) runs before the exception goes on. *)
Definition unwind {A} (c : M A) (cleanup : M unit) : M A :=
  fun w =>
    match c w with
    | (Throws e, w') =>
        match cleanup w' with
        | (Returns _, w'') => (Throws e, w'')
        | (Throws e', w'') => (Undefined_behaviour, w'')
        | (Undefined_behaviour, w'') => (Undefined_behaviour, w'')
        end
    | r => r
    end.

Fixpoint mapM {A B} (f : A -> M B) (l : list A) : M (list B) :=
  match l with
  | [] => ret []
  | x :: rest => y <- f x ;; ys <- mapM f rest ;; ret (y :: ys)
  end.

(** A computation on the live engine. *)
Definition on_isolate {A} (f : V8.Isolate -> A * V8.Isolate) : M A :=
  fun w =>
    match w with
    | Some iso => let '(a, iso') := f iso in (Returns a, Some iso')
    | None => (Undefined_behaviour, w)
    end.

Definition get_heap : M (gmap nat V8.JsObject) :=
  on_isolate (fun iso => (V8.heap iso, iso)).

(** [isolate_->Get()] tested for null. *)
Definition isolate_alive : M bool :=
  fun w => (Returns (match w with Some _ => true | None => false end), w).

(** ** JsContext *)

Inductive IV8IsolateProvider : Type := provider.

(** Modelled from the spec: JsContext.h is not among the sources.
    Constructing a context object enters the engine's execution context and
    destroying it exits, also when the scope is left by an exception.  The
    isolate pointer and the context must be valid. *)
Definition JsContext {A} (isolate : option IV8IsolateProvider) (jsContext : option nat)
    (body : M A) : M A :=
  fun w =>
    match isolate, jsContext, w with
    | Some _, Some c, Some iso =>
        match V8.contexts iso !! c with
        | Some _ =>
            match body (Some (V8.enter c iso)) with
            | (Undefined_behaviour, w') => (Undefined_behaviour, w')
            | (r, w') => (r, V8.exit <$> w')
            end
        | None => (Undefined_behaviour, w)
        end
    | _, _, _ => (Undefined_behaviour, w)
    end.

(** [context.GetV8Context()->Global()]. *)
Definition context_Global (jsContext : option nat) : M V8.Value :=
  fun w =>
    match jsContext, w with
    | Some c, Some iso =>
        match V8.contexts iso !! c with
        | Some ctx => (Returns (V8.VObject (V8.global_object ctx)), w)
        | None => (Undefined_behaviour, w)
        end
    | _, _ => (Undefined_behaviour, w)
    end.

(** ** The CHECKED_TO_* macros *)

(** Modelled from the spec: the macros of JsError.h.  An empty [v8::Maybe]
    or [v8::MaybeLocal] becomes an exception. *)
Definition CHECKED_TO_VALUE {A} (value : option A) : M A :=
  match value with
  | Some a => ret a
  | None => throw JsError_empty_value
  end.

Definition CHECKED_TO_LOCAL {A} (value : option A) : M A :=
  match value with
  | Some a => ret a
  | None => throw JsError_empty_value
  end.

(** ** v8::Global *)

(** [v8::Global<T>(isolate, local)]. *)
Definition Global_new (v : V8.Value) : M (option nat) :=
  on_isolate (fun iso => let '(cell, iso') := V8.new_global v iso in (Some cell, iso')).

(** [v8::Global<T>(isolate, persistent)]: a second cell for the same value;
    an empty handle copies to an empty handle. *)
Definition Global_copy (that : option nat) : M (option nat) :=
  match that with
  | None => ret None
  | Some cell =>
      fun w =>
        match w with
        | Some iso =>
            match V8.global_handles iso !! cell with
            | Some v => Global_new v w
            | None => (Undefined_behaviour, w)
            end
        | None => (Undefined_behaviour, w)
        end
  end.

(** [Reset()]: nothing on an empty handle, else the cell is given back to
    the engine, which must be there. *)
Definition Global_Reset (value : option nat) : M unit :=
  match value with
  | None => ret tt
  | Some cell => on_isolate (fun iso => (tt, V8.dispose_global cell iso))
  end.

(** ** JsValue *)

Record JsValue : Type := mkJsValue {
  isolate_ : option IV8IsolateProvider;
  jsContext_ : option nat;
  value_ : option nat
}.

Definition JsValueList : Type := list JsValue.

(** The handle objects of the program, by address. *)
Abbreviation Objects := (gmap nat JsValue).

(** A handle whose members are default-initialised. *)
Definition blank : JsValue := mkJsValue None None None.

Section Methods.

Context `{Externals}.

(** Modelled from the spec: the macro of JsError.h taking the
    [v8::TryCatch] in scope; the exception it caught is re-surfaced with the
    engine's message text. *)
Definition CHECKED_TO_LOCAL_WITH_TRY_CATCH (value : V8.Completion V8.Value) : M V8.Value :=
  match value with
  | V8.Normal v => ret v
  | V8.Abrupt exn => h <- get_heap ;; throw (JsError_script (MessageText h exn))
  end.

(** [JsValue(isolate, jsContext, value)] *)
Definition JsValue_ctor (isolate : option IV8IsolateProvider) (jsContext : option nat)
    (value : V8.Value) : M JsValue :=
  match isolate with
  | Some _ => cell <- Global_new value ;; ret (mkJsValue isolate jsContext cell)
  | None => undefined_behaviour
  end.

(** [~JsValue()], followed by the destructor of the member [value_]. *)
Definition JsValue_dtor (this : JsValue) : M unit :=
  value <- match isolate_ this with
           | Some _ =>
               alive <- isolate_alive ;;
               if alive
               then JsContext (isolate_ this) (jsContext_ this) (Global_Reset (value_ this)) ;;;
                    ret None
               else if MAKE_ISOLATE_IN_JS_VALUE_WEAK
                    then ret None
                    else ret (value_ this)
           | None => ret (value_ this)
           end ;;
  Global_Reset value.

Definition destroy_list (l : JsValueList) : M unit :=
  mapM JsValue_dtor l ;;; ret tt.

(** [operator=(const JsValue& src)]; the result is the new [*this]. *)
Definition assign (this src : JsValue) : M JsValue :=
  JsContext (isolate_ src) (jsContext_ src)
    (copy <- Global_copy (value_ src) ;;
     Global_Reset (value_ this) ;;;
     ret (mkJsValue (isolate_ src) (jsContext_ src) copy)).

(** [operator=(JsValue&& src)] where [*this] and [src] are two objects; the
    result is the new [*this] and what is left of [src].  For
    [x = std::move(x)], where they are one object, see [move_assign_at]. *)
Definition move_assign (this src : JsValue) : M (JsValue * JsValue) :=
  JsContext (isolate_ src) (jsContext_ src)
    (Global_Reset (value_ this) ;;;
     ret (mkJsValue (isolate_ src) (jsContext_ src) (value_ src), mkJsValue None None None)).

(** The operator above takes its two operands by reference, and nothing in
    it tells one object from two: below it is written statement by
    statement on the handle objects of the program. *)

(** A member of the object at [a]. *)
Definition member {A} (f : JsValue -> option A) (objs : Objects) (a : nat) : option A :=
  match objs !! a with
  | Some x => f x
  | None => None
  end.

Definition set_isolate_ (isolate : option IV8IsolateProvider) (x : JsValue) : JsValue :=
  mkJsValue isolate (jsContext_ x) (value_ x).

Definition set_jsContext_ (jsContext : option nat) (x : JsValue) : JsValue :=
  mkJsValue (isolate_ x) jsContext (value_ x).

Definition set_value_ (value : option nat) (x : JsValue) : JsValue :=
  mkJsValue (isolate_ x) (jsContext_ x) value.

(** [value_ = std::move(src.value_)], the move assignment of [v8::Global]
    on the members of the objects at [this] and [src]: nothing when the two
    are one object; else the destination is reset and takes the cell of the
    source, which is left empty. *)
Definition Global_move_assign (this src : nat) (objs : Objects) : M Objects :=
  if decide (this = src)
  then ret objs
  else Global_Reset (member value_ objs this) ;;;
       ret (alter (set_value_ None) src
              (alter (set_value_ (member value_ objs src)) this objs)).

(** [operator=(JsValue&& src)] on the objects at [this] and [src], which may
    be the same address; the result is the objects afterwards. *)
Definition move_assign_at (this src : nat) (objs : Objects) : M Objects :=
  match objs !! this, objs !! src with
  | Some _, Some _ =>
      JsContext (member isolate_ objs src) (member jsContext_ objs src)
        (let objs := alter (set_isolate_ (member isolate_ objs src)) this objs in
         let objs := alter (set_isolate_ None) src objs in
         let objs := alter (set_jsContext_ (member jsContext_ objs src)) this objs in
         let objs := alter (set_jsContext_ None) src objs in
         Global_move_assign this src objs)
  | _, _ => undefined_behaviour
  end.

(** [JsValue(const JsValue& src)] *)
Definition JsValue_copy (src : JsValue) : M JsValue := assign blank src.

(** [JsValue(JsValue&& src)] *)
Definition JsValue_move (src : JsValue) : M (JsValue * JsValue) := move_assign blank src.

Definition UnwrapValue (this : JsValue) : M V8.Value :=
  match isolate_ this, value_ this with
  | Some _, Some cell =>
      fun w =>
        match w with
        | Some iso =>
            match V8.global_handles iso !! cell with
            | Some v => (Returns v, w)
            | None => (Undefined_behaviour, w)
            end
        | None => (Undefined_behaviour, w)
        end
  | _, _ => undefined_behaviour
  end.

Definition IsUndefined (this : JsValue) : M bool :=
  JsContext (isolate_ this) (jsContext_ this)
    (value <- UnwrapValue this ;; ret (V8.IsUndefined value)).

Definition IsNull (this : JsValue) : M bool :=
  JsContext (isolate_ this) (jsContext_ this)
    (value <- UnwrapValue this ;; ret (V8.IsNull value)).

Definition IsString (this : JsValue) : M bool :=
  JsContext (isolate_ this) (jsContext_ this)
    (value <- UnwrapValue this ;;
     h <- get_heap ;;
     ret (V8.IsString value || V8.IsStringObject h value)).

Definition IsNumber (this : JsValue) : M bool :=
  JsContext (isolate_ this) (jsContext_ this)
    (value <- UnwrapValue this ;;
     h <- get_heap ;;
     ret (V8.IsNumber value || V8.IsNumberObject h value)).

Definition IsBool (this : JsValue) : M bool :=
  JsContext (isolate_ this) (jsContext_ this)
    (value <- UnwrapValue this ;;
     h <- get_heap ;;
     ret (V8.IsBoolean value || V8.IsBooleanObject h value)).

Definition IsObject (this : JsValue) : M bool :=
  JsContext (isolate_ this) (jsContext_ this)
    (value <- UnwrapValue this ;; ret (V8.IsObject value)).

Definition IsArray (this : JsValue) : M bool :=
  JsContext (isolate_ this) (jsContext_ this)
    (value <- UnwrapValue this ;; h <- get_heap ;; ret (V8.IsArray h value)).

Definition IsFunction (this : JsValue) : M bool :=
  JsContext (isolate_ this) (jsContext_ this)
    (value <- UnwrapValue this ;; h <- get_heap ;; ret (V8.IsFunction h value)).

Definition AsString (this : JsValue) : M string :=
  JsContext (isolate_ this) (jsContext_ this)
    (value <- UnwrapValue this ;; h <- get_heap ;; ret (FromV8String h value)).

Definition AsStringBuffer (this : JsValue) : M StringBuffer :=
  JsContext (isolate_ this) (jsContext_ this)
    (value <- UnwrapValue this ;; h <- get_heap ;; ret (StringBufferFromV8String h value)).

Definition AsInt (this : JsValue) : M Z :=
  JsContext (isolate_ this) (jsContext_ this)
    (v <- UnwrapValue this ;;
     h <- get_heap ;;
     let value := V8.to_maybe (V8.IntegerValue StringToNumber h v) in
     CHECKED_TO_VALUE value).

Definition AsBool (this : JsValue) : M bool :=
  JsContext (isolate_ this) (jsContext_ this)
    (value <- UnwrapValue this ;; ret (V8.BooleanValue value)).

Definition AsDouble (this : JsValue) : M V8.double :=
  JsContext (isolate_ this) (jsContext_ this)
    (v <- UnwrapValue this ;;
     h <- get_heap ;;
     let value := V8.to_maybe (V8.NumberValue StringToNumber h v) in
     CHECKED_TO_VALUE value).

(** The loop of [AsList]: [result] holds the handles pushed so far; when a
    read fails they are destroyed on the way out. *)
Fixpoint AsList_loop (this : JsValue) (array : nat) (indices : list N) (result : JsValueList)
  : M JsValueList :=
  match indices with
  | [] => ret result
  | i :: rest =>
      h <- get_heap ;;
      item <- unwind (CHECKED_TO_LOCAL (V8.to_maybe (V8.Object_Get_index h array i)))
                     (destroy_list result) ;;
      temporary <- JsValue_ctor (isolate_ this) (jsContext_ this) item ;;
      pushed <- JsValue_move temporary ;;
      JsValue_dtor (snd pushed) ;;;
      AsList_loop this array rest (result ++ [fst pushed])%list
  end.

Definition indices_below (length : N) : list N := map N.of_nat (seq 0 (N.to_nat length)).

Definition AsList (this : JsValue) : M JsValueList :=
  isArray <- IsArray this ;;
  if negb isArray then throw (runtime_error "Cannot convert a non-array to list")
  else
    JsContext (isolate_ this) (jsContext_ this)
      (value <- UnwrapValue this ;;
       match value with
       | V8.VObject array =>
           h <- get_heap ;;
           let length := V8.Array_Length h array in
           AsList_loop this array (indices_below length) []
       | _ => undefined_behaviour
       end).

Definition GetOwnPropertyNames (this : JsValue) : M (list string) :=
  isObject <- IsObject this ;;
  if negb isObject
  then throw (runtime_error "Attempting to get propert list for a non-object")
  else
    JsContext (isolate_ this) (jsContext_ this)
      (value <- UnwrapValue this ;;
       match value with
       | V8.VObject object =>
           names <- on_isolate (fun iso => V8.Object_GetOwnPropertyNames iso object) ;;
           propertyNames <- CHECKED_TO_LOCAL (V8.to_maybe names) ;;
           temporary <- JsValue_ctor (isolate_ this) (jsContext_ this) propertyNames ;;
           properties <- unwind (AsList temporary) (JsValue_dtor temporary) ;;
           JsValue_dtor temporary ;;;
           result <- mapM AsString properties ;;
           destroy_list properties ;;;
           ret result
       | _ => undefined_behaviour
       end).

Definition GetProperty (this : JsValue) (name : string) : M JsValue :=
  isObject <- IsObject this ;;
  if negb isObject then throw (runtime_error "Attempting to get property of a non-object")
  else
    JsContext (isolate_ this) (jsContext_ this)
      (property <- CHECKED_TO_LOCAL (ToV8String name) ;;
       value <- UnwrapValue this ;;
       match value with
       | V8.VObject obj =>
           h <- get_heap ;;
           found <- CHECKED_TO_LOCAL (V8.to_maybe (V8.Object_Get h obj property)) ;;
           JsValue_ctor (isolate_ this) (jsContext_ this) found
       | _ => undefined_behaviour
       end).

(** [SetProperty(const std::string& name, v8::Local<v8::Value> val)] *)
Definition SetProperty (this : JsValue) (name : string) (val : V8.Value) : M unit :=
  isObject <- IsObject this ;;
  if negb isObject then throw (runtime_error "Attempting to set property on a non-object")
  else
    JsContext (isolate_ this) (jsContext_ this)
      (property <- CHECKED_TO_LOCAL (ToV8String name) ;;
       value <- UnwrapValue this ;;
       match value with
       | V8.VObject obj =>
           done <- on_isolate (fun iso =>
                     let '(r, h) := V8.Object_Set StringToNumber (V8.heap iso) obj property val in
                     (r, V8.set_heap h iso)) ;;
           CHECKED_TO_VALUE (V8.to_maybe done) ;;;
           ret tt
       | _ => undefined_behaviour
       end).

(** [SetProperty(const std::string& name, const std::string& val)] *)
Definition SetProperty_string (this : JsValue) (name : string) (val : string) : M unit :=
  JsContext (isolate_ this) (jsContext_ this)
    (local <- CHECKED_TO_LOCAL (ToV8String val) ;;
     SetProperty this name (V8.VString local)).

Definition SetStringBufferProperty (this : JsValue) (name : string) (val : StringBuffer)
  : M unit :=
  JsContext (isolate_ this) (jsContext_ this)
    (local <- CHECKED_TO_LOCAL (StringBufferToV8String val) ;;
     SetProperty this name (V8.VString local)).

(** [SetProperty(const std::string& name, int64_t val)] *)
Definition SetProperty_int64 (this : JsValue) (name : string) (val : Z) : M unit :=
  JsContext (isolate_ this) (jsContext_ this)
    (SetProperty this name (V8.VNumber (V8.double_of_Z val))).

(** [SetProperty(const std::string& name, const JsValue& val)] *)
Definition SetProperty_JsValue (this : JsValue) (name : string) (val : JsValue) : M unit :=
  JsContext (isolate_ this) (jsContext_ this)
    (local <- UnwrapValue val ;; SetProperty this name local).

(** [SetProperty(const std::string& name, const char* val, size_t size)];
    [val] stands for the [size] bytes at the pointer. *)
Definition SetProperty_chars (this : JsValue) (name : string) (val : string) : M unit :=
  JsContext (isolate_ this) (jsContext_ this)
    (local <- CHECKED_TO_LOCAL (NewFromUtf8 val) ;;
     SetProperty this name (V8.VString local)).

(** [SetProperty(const std::string& name, bool val)] *)
Definition SetProperty_bool (this : JsValue) (name : string) (val : bool) : M unit :=
  JsContext (isolate_ this) (jsContext_ this)
    (SetProperty this name (V8.VBoolean val)).

Definition GetClass (this : JsValue) : M string :=
  isObject <- IsObject this ;;
  if negb isObject then throw (runtime_error "Cannot get constructor of a non-object")
  else
    JsContext (isolate_ this) (jsContext_ this)
      (value <- UnwrapValue this ;;
       match value with
       | V8.VObject obj =>
           h <- get_heap ;; ret (FromV8String h (GetConstructorName h obj))
       | _ => undefined_behaviour
       end).

(** [Call(std::vector<v8::Local<v8::Value>>& args, v8::Local<v8::Object> thisObj)].
    The receiver arrives through an unchecked cast, so it may be any
    value. *)
Definition Call (this : JsValue) (args : list V8.Value) (thisObj : V8.Value) : M JsValue :=
  isFunction <- IsFunction this ;;
  if negb isFunction then throw (runtime_error "Attempting to call a non-function")
  else if negb (V8.IsObject thisObj)
  then throw (runtime_error "`this` pointer has to be an object")
  else
    JsContext (isolate_ this) (jsContext_ this)
      (value <- UnwrapValue this ;;
       match value with
       | V8.VObject func =>
           h <- get_heap ;;
           result <- CHECKED_TO_LOCAL_WITH_TRY_CATCH (V8.Function_Call h func thisObj args) ;;
           JsValue_ctor (isolate_ this) (jsContext_ this) result
       | _ => undefined_behaviour
       end).

(** [Call(const JsValueList& params)] *)
Definition Call_params (this : JsValue) (params : JsValueList) : M JsValue :=
  JsContext (isolate_ this) (jsContext_ this)
    (argv <- mapM UnwrapValue params ;;
     global <- context_Global (jsContext_ this) ;;
     Call this argv global).

(** [Call(const JsValueList& params, const JsValue& thisValue)] *)
Definition Call_params_this (this : JsValue) (params : JsValueList) (thisValue : JsValue)
  : M JsValue :=
  JsContext (isolate_ this) (jsContext_ this)
    (thisObj <- UnwrapValue thisValue ;;
     argv <- mapM UnwrapValue params ;;
     Call this argv thisObj).

(** [Call(const JsValue& arg)] *)
Definition Call_arg (this : JsValue) (arg : JsValue) : M JsValue :=
  JsContext (isolate_ this) (jsContext_ this)
    (local <- UnwrapValue arg ;;
     global <- context_Global (jsContext_ this) ;;
     Call this [local] global).

End Methods.

End AdblockPlus.

(* ===================================================================== *)
(** * test/HarnessTest.cpp                                                *)
(* ===================================================================== *)

(** Of the test harness, the statistics kept per kind of call and the one
    helper that is written in terms of value handles alone. *)

Module HarnessTest.

Import AdblockPlus.

(** ** CallStats *)

(** The arithmetic of [double]: IEEE 754 binary64, every operation rounded
    to nearest, ties to even. *)
Definition double_add : V8.double -> V8.double -> V8.double := SFadd 53 1024.
Definition double_sub : V8.double -> V8.double -> V8.double := SFsub 53 1024.
Definition double_mul : V8.double -> V8.double -> V8.double := SFmul 53 1024.
Definition double_div : V8.double -> V8.double -> V8.double := SFdiv 53 1024.
Definition double_sqrt : V8.double -> V8.double := SFsqrt 53 1024.

Definition INT_MAX : Z := 2147483647.
Definition INT_MIN : Z := -2147483648.

(** Conversion of a [double] to [int]: truncation towards zero; the
    conversion has no defined behaviour when the truncated value is not an
    [int]. *)
Definition int_of_double (d : V8.double) : option Z :=
  match d with
  | S754_zero _ => Some 0%Z
  | S754_finite s m e =>
      let t := V8.double_trunc s m e in
      if (INT_MIN <=? t)%Z && (t <=? INT_MAX)%Z then Some t else None
  | _ => None
  end.

(** Conversion of a [size_t] to [double]. *)
Definition double_of_size (n : nat) : V8.double := V8.double_of_Z (Z.of_nat n).

Record CallStats : Type := mkCallStats { measurements : list V8.double }.

Definition Add (elapsedTime : V8.double) (s : CallStats) : CallStats :=
  mkCallStats (measurements s ++ [elapsedTime])%list.

Definition Mean (s : CallStats) : V8.double :=
  let size := length (measurements s) in
  if Nat.eqb size 0 then S754_zero false
  else
    let total := fold_left double_add (measurements s) (S754_zero false) in
    double_div total (double_of_size size).

(** [std::accumulate] called with the [int] literal [0] as initial value:
    the accumulator is an [int], and what the operation returns is
    converted to [int] at every step. *)
Fixpoint accumulate_int (op : V8.double -> V8.double -> V8.double) (l : list V8.double)
    (init : Z) : option Z :=
  match l with
  | [] => Some init
  | b :: rest =>
      match int_of_double (op (V8.double_of_Z init) b) with
      | Some init' => accumulate_int op rest init'
      | None => None
      end
  end.

(** [None] stands for a run without defined behaviour. *)
Definition StdDeviation (s : CallStats) : option V8.double :=
  let size := length (measurements s) in
  if (size <? 2)%nat then Some (S754_zero false)
  else
    let mean := Mean s in
    match accumulate_int
            (fun sum b => double_add (double_mul (double_sub b mean) (double_sub b mean)) sum)
            (measurements s) 0 with
    | Some sumOfSquaredDeviations =>
        Some (double_sqrt (double_div (V8.double_of_Z sumOfSquaredDeviations)
                                      (double_of_size (size - 1))))
    | None => None
    end.

(** ** HarnessTest *)

Section Methods.

Context `{Externals}.

(** [HarnessTest::ToList(value)].  The range-for loop keeps the list that
    [AsList] returned alive until it ends, also when it ends by an
    exception. *)
Definition ToList (value : JsValue) : M (list string) :=
  list <- AsList value ;;
  res <- unwind (mapM AsString list) (destroy_list list) ;;
  destroy_list list ;;;
  ret res.

End Methods.

End HarnessTest.

(* ===================================================================== *)
(** * The vocabulary of the statements                                    *)
(* ===================================================================== *)

Section PlatformVocabulary.

Context {IFilterEngine Error Callback : Type}.
Variable evaluates : string -> bool.

Implicit Types (p : Platform.t IFilterEngine Error Callback)
  (evs : list (Platform.Event IFilterEngine Error Callback)).

(** What the bootstrap of the module reads and writes. *)
Definition bootstrap_view p :=
  (Platform.executor p, Platform.filterEngine_ p, Platform.shared_states p,
   Platform.dispatches p, Platform.attached p, Platform.waiting p, Platform.notified p).


(** The calls to [CreateFilterEngineAsync] along a run. *)
Definition calls evs : list (Platform.Event IFilterEngine Error Callback) :=
  List.filter Platform.is_call evs.

(** The invariant of the bootstrap along a run [evs]. *)
Definition bootstrap_inv evs p : Prop :=
  Executor.stopped (Platform.executor p) = false /\
  List.length (Platform.attached p) = List.length (calls evs) /\
  match Platform.filterEngine_ p with
  | None =>
      Platform.dispatches p = 0 /\ Platform.attached p = [] /\
      Platform.waiting p = [] /\ Platform.notified p = [] /\
      Executor.queue (Platform.executor p) = [] /\ Platform.supplied evs = []
  | Some id =>
      Platform.dispatches p = 1 /\ Platform.attached p <> [] /\
      Forall (eq id) (Platform.attached p) /\
      match Platform.shared_states p !! id with
      | Some None =>
          Executor.queue (Platform.executor p) = [Platform.ConstructModule] /\
          Platform.waiting p = Platform.supplied evs /\ Platform.notified p = []
      | Some (Some r) =>
          Executor.queue (Platform.executor p) = [] /\
          Platform.waiting p = [] /\
          Platform.notified p = map (fun cb => (cb, r)) (Platform.supplied evs)
      | None => False
      end
  end.


End PlatformVocabulary.

Section HandleVocabulary.

Import AdblockPlus.

Implicit Types (iso : V8.Isolate) (this src : JsValue) (v : V8.Value) (w : World).

(** A handle with its isolate pointer set, for the context [c], holding
    the cell [cell]. *)
Definition handle (c cell : nat) : JsValue := mkJsValue (Some provider) (Some c) (Some cell).

(** The value a handle stands for in a live engine: its isolate pointer is
    set, its context is one of the engine's, and its persistent reference
    holds a cell of the engine. *)
Definition unwraps iso this : option V8.Value :=
  match isolate_ this, jsContext_ this, value_ this with
  | Some _, Some c, Some cell =>
      match V8.contexts iso !! c with
      | Some _ => V8.global_handles iso !! cell
      | None => None
      end
  | _, _, _ => None
  end.

(** The values a list of handles stands for. *)
Fixpoint unwrap_all iso (params : JsValueList) : option (list V8.Value) :=
  match params with
  | [] => Some []
  | p :: rest =>
      match unwraps iso p, unwrap_all iso rest with
      | Some v, Some vs => Some (v :: vs)
      | _, _ => None
      end
  end.

(** The engine after a context has been entered and left. *)
Definition scope (c : nat) iso : V8.Isolate := V8.exit (V8.enter c iso).

(** The engine after a persistent reference has been reset. *)
Definition release (value : option nat) iso : V8.Isolate :=
  match value with
  | Some cell => V8.dispose_global cell iso
  | None => iso
  end.

(** Two engine states that agree on everything but the trace of
    operations. *)
Definition same_runtime iso iso' : Prop :=
  V8.heap iso' = V8.heap iso /\ V8.contexts iso' = V8.contexts iso /\
  V8.global_handles iso' = V8.global_handles iso /\
  V8.entered_contexts iso' = V8.entered_contexts iso.

(** Kinds of values, stated on the heap rather than through the engine's
    predicates. *)
Definition string_primitive v : Prop := exists s, v = V8.VString s.
Definition number_primitive v : Prop := exists d, v = V8.VNumber d.
Definition boolean_primitive v : Prop := exists b, v = V8.VBoolean b.
Definition not_an_object v : Prop := forall a, v <> V8.VObject a.
Definition object_of_kind (h : gmap nat V8.JsObject) v (P : V8.ObjectKind -> Prop) : Prop :=
  exists a o, v = V8.VObject a /\ h !! a = Some o /\ P (V8.kind o).
Definition String_wrapper h v : Prop :=
  object_of_kind h v (fun k => exists s, k = V8.JSStringObject s).
Definition Number_wrapper h v : Prop :=
  object_of_kind h v (fun k => exists d, k = V8.JSNumberObject d).
Definition Boolean_wrapper h v : Prop :=
  object_of_kind h v (fun k => exists b, k = V8.JSBooleanObject b).
Definition array_object h v : Prop :=
  object_of_kind h v (fun k => exists n, k = V8.JSArray n).
Definition function_object h v : Prop :=
  object_of_kind h v (fun k => exists body, k = V8.JSFunction body).

(** The outcome is an exception of kind [k]. *)
Definition raises {A} (k : ErrorKind) (r : Outcome A * World) : Prop :=
  exists e, fst r = Throws e /\ error_kind e = k.

(** A computation that never raises a [TypeError]. *)
Definition never_TypeError {A} (m : M A) : Prop :=
  forall w e, fst (m w) = Throws e -> error_kind e <> TypeError.

(** A computation that has no defined behaviour, whatever the state of the
    engine. *)
Definition undefined {A} (m : M A) : Prop := forall w, m w = (Undefined_behaviour, w).

(** The handle assigned to holds nothing, or a cell of the engine other
    than the one copied. *)
Definition destination_ok iso this src : Prop :=
  match value_ this with
  | None => True
  | Some old => is_Some (V8.global_handles iso !! old) /\ value_ src <> Some old
  end.

End HandleVocabulary.

(** ** Outcomes of the operations on handles *)

Section HandleOutcomes.

Import AdblockPlus.

Context `{Externals}.

Implicit Types (iso : V8.Isolate) (this src : JsValue) (v : V8.Value) (w : World).

(** Two engine states with the same contexts, entered to the same depth. *)
Definition same_contexts iso iso' : Prop :=
  V8.contexts iso' = V8.contexts iso /\ V8.entered_contexts iso' = V8.entered_contexts iso.

(** A computation that, started on a live engine, either has no defined
    behaviour or leaves the engine alive with every context it entered
    left again, whether it returns or throws. *)
Definition balanced {A} (m : M A) : Prop :=
  forall iso r w', m (Some iso) = (r, w') -> r <> Undefined_behaviour ->
    exists iso', w' = Some iso' /\ same_contexts iso iso'.

(** Two engine states with the same contexts and the same cells: every
    handle stands for the same value in both, and none has been added. *)
Definition same_handles iso iso' : Prop :=
  V8.contexts iso' = V8.contexts iso /\ V8.global_handles iso' = V8.global_handles iso /\
  V8.entered_contexts iso' = V8.entered_contexts iso.

(** The computation returns an answer with the property [P] and leaves the
    engine related by [R] to what it was. *)
Definition answers {A} (R : V8.Isolate -> V8.Isolate -> Prop) iso (m : M A) (P : A -> Prop)
  : Prop :=
  exists a iso', m (Some iso) = (Returns a, Some iso') /\ P a /\ R iso iso'.

(** The outcome is a new handle for [r]: its cell was free in [iso], the
    handles of [iso] stand for what they stood for, and destroying the new
    handle gives the engine its cells of [iso] back. *)
Definition returns_new_handle iso (r : V8.Value) (out : Outcome JsValue * World) : Prop :=
  exists result iso',
    out = (Returns result, Some iso')
    /\ unwraps iso' result = Some r /\ unwraps iso result = None
    /\ (forall other v, unwraps iso other = Some v -> unwraps iso' other = Some v)
    /\ exists iso'', JsValue_dtor result (Some iso') = (Returns tt, Some iso'')
                     /\ V8.global_handles iso'' = V8.global_handles iso.

(** The outcome is a return or an exception. *)
Definition defined {A} (out : Outcome A * World) : Prop := fst out <> Undefined_behaviour.

(** The outcome is a return or an exception, and the engine is alive with
    the contexts and the cells it had. *)
Definition keeps_handles {A} iso (out : Outcome A * World) : Prop :=
  exists r iso', out = (r, Some iso') /\ r <> Undefined_behaviour /\ same_handles iso iso'.

(** What [result.push_back(JsValue(isolate_, jsContext_, item))] does to the
    list and to the engine: a cell for the item, and the scope of the move
    constructor. *)
Definition push_back (c : nat) (acc : JsValueList * V8.Isolate) (item : V8.Value)
  : JsValueList * V8.Isolate :=
  let '(cell, iso') := V8.new_global item (snd acc) in
  ((fst acc ++ [handle c cell])%list, scope c iso').

Definition pushed (c : nat) (items : list V8.Value) (result : JsValueList) iso
  : JsValueList * V8.Isolate :=
  fold_left (push_back c) items (result, iso).

(** The elements of the array at [array], as the loop of [AsList] reads
    them: index by index below the length, each read ending normally. *)
Definition array_elements (h : gmap nat V8.JsObject) (array : nat) (items : list V8.Value)
  : Prop :=
  Forall2 (fun i item => V8.Object_Get_index h array i = V8.Normal item)
          (indices_below (V8.Array_Length h array)) items.

End HandleOutcomes.

(** ** A small engine for the examples *)

Module Sample.

Import V8 AdblockPlus.

(** Strings convert as they are; the text of a thrown string is the string;
    the build defines [MAKE_ISOLATE_IN_JS_VALUE_WEAK]. *)
Definition externals : Externals := {|
  MAKE_ISOLATE_IN_JS_VALUE_WEAK := true;
  StringBuffer := string;
  ToV8String := Some;
  StringBufferToV8String := Some;
  FromV8String := fun _ v => match v with VString s => s | _ => "" end;
  StringBufferFromV8String := fun _ v => match v with VString s => s | _ => "" end;
  NewFromUtf8 := Some;
  StringToNumber := fun _ => S754_nan;
  GetConstructorName := fun _ _ => VString "Object";
  MessageText := fun _ v => match v with VString s => s | _ => "" end
|}.

Definition five : double := double_of_Z 5.

(** [{ answer: 5, get broken() { throw "boom" } }] *)
Definition record : JsObject :=
  mkJsObject JSObject
    [("answer", DataProperty (VNumber five)); ("broken", AccessorProperty (Some 3) None)]
    None.

(** [function () { throw "boom" }] *)
Definition thrower : JsObject :=
  mkJsObject (JSFunction (FnThrow (Const (VString "boom")))) [] None.

(** [["x", record]] *)
Definition pair : JsObject :=
  mkJsObject (JSArray 2)
    [("0", DataProperty (VString "x")); ("1", DataProperty (VObject 1))] None.

(** [{ valueOf: thrower }] *)
Definition stubborn : JsObject :=
  mkJsObject JSObject [("valueOf", DataProperty (VObject 3))] None.

(** An object without properties of its own, whose prototype is
    [record]. *)
Definition heir : JsObject := mkJsObject JSObject [] (Some 1).

(** The heap: 0 is the global object, 1 [record], 2 [pair], 3 [thrower],
    4 [stubborn], 5 [heir].  One context, 0.  Cells 0 to 5 hold [record],
    [pair], [thrower], the number 5, [stubborn] and [heir]. *)
Definition isolate : Isolate :=
  mkIsolate
    (list_to_map [(0, mkJsObject JSObject [] None); (1, record); (2, pair); (3, thrower);
                  (4, stubborn); (5, heir)])
    (list_to_map [(0, mkContext 0 None)])
    (list_to_map [(0, VObject 1); (1, VObject 2); (2, VObject 3); (3, VNumber five);
                  (4, VObject 4); (5, VObject 5)])
    [] [].

End Sample.

(** ** The sample engine with two more objects *)

Module Sample2.

Import V8 AdblockPlus.

(** [["x", <a getter that throws "boom">]] *)
Definition trap : JsObject :=
  mkJsObject (JSArray 2)
    [("0", DataProperty (VString "x")); ("1", AccessorProperty (Some 3) None)] None.

(** [function (x) { return x }] *)
Definition identity : JsObject := mkJsObject (JSFunction (FnReturn (Arg 0))) [] None.

(** [Sample.isolate] with [trap] at address 6 and [identity] at address 7,
    held by the cells 6 and 7. *)
Definition isolate : Isolate :=
  mkIsolate (<[7 := identity]> (<[6 := trap]> (heap Sample.isolate)))
    (contexts Sample.isolate)
    (<[7 := VObject 7]> (<[6 := VObject 6]> (global_handles Sample.isolate))) [] [].

(** The conversions of [Sample.externals], but for an engine whose strings
    hold four characters at most. *)
Definition short_strings : Externals := {|
  MAKE_ISOLATE_IN_JS_VALUE_WEAK := true;
  StringBuffer := string;
  ToV8String := fun s => if (String.length s <=? 4)%nat then Some s else None;
  StringBufferToV8String := fun s => if (String.length s <=? 4)%nat then Some s else None;
  FromV8String := fun _ v => match v with VString s => s | _ => "" end;
  StringBufferFromV8String := fun _ v => match v with VString s => s | _ => "" end;
  NewFromUtf8 := fun s => if (String.length s <=? 4)%nat then Some s else None;
  StringToNumber := fun _ => S754_nan;
  GetConstructorName := fun _ _ => VString "Object";
  MessageText := fun _ v => match v with VString s => s | _ => "" end
|}.

(** The conversions of [Sample.externals], in the build that does not
    define [MAKE_ISOLATE_IN_JS_VALUE_WEAK]. *)
Definition strong_isolate : Externals := {|
  MAKE_ISOLATE_IN_JS_VALUE_WEAK := false;
  StringBuffer := string;
  ToV8String := Some;
  StringBufferToV8String := Some;
  FromV8String := fun _ v => match v with VString s => s | _ => "" end;
  StringBufferFromV8String := fun _ v => match v with VString s => s | _ => "" end;
  NewFromUtf8 := Some;
  StringToNumber := fun _ => S754_nan;
  GetConstructorName := fun _ _ => VString "Object";
  MessageText := fun _ v => match v with VString s => s | _ => "" end
|}.

(** One handle object, at address 0: the handle of cell 0. *)
Definition one_object : Objects := {[ 0 := handle 0 0 ]}.

(** Two handle objects: an empty one at address 0 and the handle of cell 0
    at address 1. *)
Definition two_objects : Objects :=
  {[ 0 := blank; 1 := handle 0 0 ]}.

End Sample2.

(* ===================================================================== *)
(** * Theorems: the executor contract                                     *)
(* ===================================================================== *)

Section ExecutorContract.

Context {Task : Type}.

Implicit Types (e : Executor.t Task) (evs : list (Executor.Event Task)).

Lemma Executor_step_stopped e ev :
  Executor.stopped e = true -> Executor.step e ev = e.
Proof.
  intros Hs. destruct e as [s q x]; simpl in Hs; subst s.
  destruct ev; reflexivity.
Qed.

Lemma Executor_run_stopped evs : forall e,
  Executor.stopped e = true -> Executor.run evs e = e.
Proof.
  induction evs as [|ev evs IH]; intros e Hs; simpl.
  - reflexivity.
  - rewrite (Executor_step_stopped e ev Hs). apply IH, Hs.
Qed.

Lemma Executor_run_app evs1 evs2 e :
  Executor.run (evs1 ++ evs2) e = Executor.run evs2 (Executor.run evs1 e).
Proof. unfold Executor.run. apply fold_left_app. Qed.

(** Before [Stop], work that is dispatched does run. *)
Example Executor_runs_dispatched_work (task : Task) :
  Executor.executed
    (Executor.run [Executor.EvDispatch task; Executor.EvWorker] Executor.create) = [task].
Proof. reflexivity. Qed.

(** C2.  Once [Stop] has been called, whatever happens next (dispatches,
    workers looking for work, further stops) leaves the executor as it
    was: the tasks executed stay those executed before the stop, so a task
    dispatched after [Stop] is never executed and is not even queued;
    [Stop] twice is [Stop] once; and a stopped executor stays stopped. *)
Theorem Executor_Stop_is_final e (before after : list (Executor.Event Task)) (task : Task) :
  let at_stop := Executor.run (before ++ [Executor.EvStop]) e in
  Executor.run (before ++ [Executor.EvStop] ++ after) e = at_stop
  /\ Executor.executed
       (Executor.run (before ++ [Executor.EvStop] ++ Executor.EvDispatch task :: after) e)
     = Executor.executed (Executor.run before e)
  /\ Executor.queue
       (Executor.run (before ++ [Executor.EvStop] ++ Executor.EvDispatch task :: after) e)
     = Executor.queue (Executor.run before e)
  /\ Executor.Stop (Executor.Stop e) = Executor.Stop e
  /\ Executor.stopped (Executor.run after (Executor.Stop e)) = true.
Proof.
  assert (Hfinal : forall e' evs, Executor.run evs (Executor.Stop e') = Executor.Stop e').
  { intros e' evs. apply Executor_run_stopped. reflexivity. }
  assert (Hstop : forall pre, Executor.run (pre ++ [Executor.EvStop]) e
                              = Executor.Stop (Executor.run pre e)).
  { intros pre. rewrite Executor_run_app. reflexivity. }
  cbv zeta. repeat split.
  - rewrite app_assoc, Executor_run_app, Hstop. apply Hfinal.
  - rewrite app_assoc, Executor_run_app, Hstop, Hfinal. reflexivity.
  - rewrite app_assoc, Executor_run_app, Hstop, Hfinal. reflexivity.
  - rewrite Hfinal. reflexivity.
Qed.

End ExecutorContract.

(* ===================================================================== *)
(** * Theorems: the bootstrap of the module                               *)
(* ===================================================================== *)

Section PlatformBootstrap.

Context {IFilterEngine Error Callback : Type}.
Variable evaluates : string -> bool.

Local Abbreviation platform := (Platform.t IFilterEngine Error Callback).
Local Abbreviation event := (Platform.Event IFilterEngine Error Callback).
Local Abbreviation result := (Platform.Result IFilterEngine Error).

Implicit Types (p : platform) (evs : list event) (r : result).

Lemma bootstrap_inv_view evs p p' :
  bootstrap_view p' = bootstrap_view p -> bootstrap_inv evs p -> bootstrap_inv evs p'.
Proof.
  unfold bootstrap_view, bootstrap_inv. intros [= -> -> -> -> -> -> ->]. trivial.
Qed.

Lemma Evaluate_bootstrap_view source p :
  bootstrap_view (Platform.Evaluate evaluates source p) = bootstrap_view p.
Proof.
  unfold Platform.Evaluate, Platform.with_lock, bootstrap_view. simpl.
  case_decide; reflexivity.
Qed.

Lemma EvaluateAll_bootstrap_view sources : forall p,
  bootstrap_view (Platform.EvaluateAll evaluates sources p) = bootstrap_view p.
Proof.
  induction sources as [|s sources IH]; intros p; simpl.
  - reflexivity.
  - unfold Platform.EvaluateAll in *. simpl. rewrite IH. apply Evaluate_bootstrap_view.
Qed.

Lemma SetUp_bootstrap_view bootstrap p :
  bootstrap_view (Platform.SetUp evaluates bootstrap p) = bootstrap_view p.
Proof.
  unfold Platform.SetUp. destruct (Platform.state p); try reflexivity.
  rewrite EvaluateAll_bootstrap_view. reflexivity.
Qed.

Lemma run_snoc evs ev p :
  Platform.run evaluates (evs ++ [ev]) p
  = Platform.step evaluates (Platform.run evaluates evs p) ev.
Proof. unfold Platform.run. rewrite fold_left_app. reflexivity. Qed.

Lemma run_app evs1 evs2 p :
  Platform.run evaluates (evs1 ++ evs2) p
  = Platform.run evaluates evs2 (Platform.run evaluates evs1 p).
Proof. unfold Platform.run. apply fold_left_app. Qed.

Lemma supplied_snoc evs ev :
  Platform.supplied (evs ++ [ev])
  = (Platform.supplied evs
     ++ match ev with
        | Platform.EvCreateFilterEngineAsync (Some cb) => [cb]
        | _ => []
        end)%list.
Proof.
  unfold Platform.supplied. rewrite omap_app. f_equal.
  destruct ev as [| [cb|] | |]; reflexivity.
Qed.

Lemma calls_snoc evs ev :
  calls (evs ++ [ev]) = (calls evs ++ if Platform.is_call ev then [ev] else [])%list.
Proof.
  unfold calls. rewrite List.filter_app. simpl. destruct (Platform.is_call ev); reflexivity.
Qed.

Lemma bootstrap_inv_other evs ev p :
  Platform.is_call ev = false ->
  bootstrap_inv evs p -> bootstrap_inv (evs ++ [ev]) p.
Proof.
  intros Hev. unfold bootstrap_inv.
  rewrite supplied_snoc, calls_snoc, Hev.
  destruct ev as [| [cb|] | |]; try discriminate Hev; rewrite !app_nil_r; trivial.
Qed.

Lemma bootstrap_inv_call evs onCreated p :
  bootstrap_inv evs p ->
  bootstrap_inv (evs ++ [Platform.EvCreateFilterEngineAsync onCreated])
    (Platform.CreateFilterEngineAsync onCreated p).
Proof.
  unfold bootstrap_inv. rewrite supplied_snoc, calls_snoc. simpl.
  rewrite !length_app. simpl.
  intros (Hs & Hlen & H).
  destruct p as [st ex fe ss srcs d att wt nt evl ll]. simpl in *.
  unfold Platform.CreateFilterEngineAsync, Platform.with_lock. simpl.
  destruct fe as [id|]; simpl.
  - destruct H as (Hd & Hne & Hall & H).
    unfold Platform.attach. simpl.
    destruct (ss !! id) as [[r|]|] eqn:Hid; [| |contradiction];
      destruct H as (Hq & Hw & Hn);
      destruct onCreated as [cb|]; simpl; rewrite ?Hid; simpl; rewrite ?length_app; simpl;
      (split; [assumption|]); (split; [lia|]); (split; [assumption|]);
      (split; [destruct att; discriminate|]);
      (split; [apply Forall_app; split; [assumption|repeat constructor]|]);
      (split; [assumption|]); rewrite ?app_nil_r.
    + split; [assumption|]. rewrite Hn, map_app. reflexivity.
    + split; assumption.
    + split; [|assumption]. rewrite Hw. reflexivity.
    + split; assumption.
  - destruct H as (Hd & Ha & Hw & Hn & Hq & Hsup). subst d att wt nt.
    unfold Platform.attach, Platform.trigger. simpl.
    rewrite lookup_insert_eq.
    unfold Executor.Dispatch. rewrite Hs, Hq, Hsup. simpl.
    destruct onCreated as [cb|]; simpl; rewrite ?lookup_insert_eq; simpl;
      repeat split; try reflexivity; try discriminate; try (simpl in Hlen; lia);
      repeat constructor.
Qed.

Lemma bootstrap_inv_resolve evs sources r p :
  bootstrap_inv evs p ->
  bootstrap_inv (evs ++ [Platform.EvExecutorRuns sources r])
    (Platform.executor_runs evaluates sources r p).
Proof.
  intros Hinv. apply bootstrap_inv_other; [reflexivity|].
  unfold Platform.executor_runs.
  destruct (Executor.stopped (Platform.executor p)) eqn:Hs; [assumption|].
  destruct (Executor.queue (Platform.executor p)) as [|[] q] eqn:Hq; [assumption|].
  set (p1 := Platform.mk _ _ _ _ _ _ _ _ _ _ _).
  pose proof (EvaluateAll_bootstrap_view sources p1) as Hv.
  set (p2 := Platform.EvaluateAll evaluates sources p1) in *.
  unfold bootstrap_view in Hv. subst p1. simpl in Hv.
  injection Hv as Hex Hfe Hss Hd Hat Hw Hn.
  destruct Hinv as (_ & Hlen & H).
  unfold bootstrap_inv, Platform.resolve.
  rewrite Hfe. destruct (Platform.filterEngine_ p) as [id|] eqn:Hfe'.
  - simpl. rewrite Hex, Hd, Hat, Hw, Hn, Hss, lookup_insert_eq.
    destruct H as (Hd1 & Hne & Hall & H).
    destruct (Platform.shared_states p !! id) as [[r'|]|]; [| |contradiction].
    + destruct H as (Hq' & _). rewrite Hq' in Hq. discriminate.
    + destruct H as (Hq' & Hw' & Hn'). rewrite Hq' in Hq. injection Hq as <-.
      unfold Executor.run_next. rewrite Hs, Hq'. simpl.
      rewrite Hw', Hn'. repeat split; try assumption; reflexivity.
  - destruct H as (_ & _ & _ & _ & Hq' & _). rewrite Hq' in Hq. discriminate.
Qed.

Lemma bootstrap_inv_run evs :
  bootstrap_inv evs (Platform.run evaluates evs Platform.create).
Proof.
  induction evs as [|ev evs IH] using rev_ind.
  - unfold bootstrap_inv. simpl. repeat split.
  - rewrite run_snoc. destruct ev as [bootstrap|onCreated|sources r|source]; simpl.
    + apply bootstrap_inv_other; [reflexivity|].
      eapply bootstrap_inv_view; [apply SetUp_bootstrap_view|exact IH].
    + apply bootstrap_inv_call, IH.
    + apply bootstrap_inv_resolve, IH.
    + apply bootstrap_inv_other; [reflexivity|].
      eapply bootstrap_inv_view; [apply Evaluate_bootstrap_view|exact IH].
Qed.

(** C1.  Along every run of one platform, whatever the order of the calls to
    [CreateFilterEngineAsync], of the executor's work and of the other
    events: the construction work is dispatched at most once, and exactly
    once as soon as there is a call; every call attaches to the future
    stored in [filterEngine_]; while that future is pending the supplied
    callbacks wait, in order; once it is resolved with [r], the callbacks
    notified are exactly the supplied ones, each once, all with [r]; and
    when the executor runs after a call, the future is resolved. *)
Theorem CreateFilterEngineAsync_constructs_once evs :
  let p := Platform.run evaluates evs Platform.create in
  Platform.dispatches p <= 1
  /\ (Platform.dispatches p = 1 <->
      exists onCreated, In (Platform.EvCreateFilterEngineAsync onCreated) evs)
  /\ List.length (Platform.attached p) = List.length (calls evs)
  /\ (forall id, In id (Platform.attached p) -> Platform.filterEngine_ p = Some id)
  /\ (forall id, Platform.filterEngine_ p = Some id ->
      Platform.shared_states p !! id = Some None ->
      Platform.notified p = [] /\ Platform.waiting p = Platform.supplied evs)
  /\ (forall id r, Platform.filterEngine_ p = Some id ->
      Platform.shared_states p !! id = Some (Some r) ->
      Platform.notified p = map (fun cb => (cb, r)) (Platform.supplied evs)
      /\ Platform.waiting p = [])
  /\ (forall sources r, calls evs <> [] ->
      let p' := Platform.run evaluates (evs ++ [Platform.EvExecutorRuns sources r])
                  Platform.create in
      exists id r', Platform.filterEngine_ p' = Some id
                    /\ Platform.shared_states p' !! id = Some (Some r')
                    /\ Platform.notified p'
                       = map (fun cb => (cb, r')) (Platform.supplied evs)).
Proof.
  cbv zeta.
  pose proof (bootstrap_inv_run evs) as Hinv.
  set (p := Platform.run evaluates evs Platform.create) in *.
  assert (Hcalls : calls evs <> [] <->
            exists onCreated, In (Platform.EvCreateFilterEngineAsync onCreated) evs).
  { unfold calls. split.
    - intros Hne. destruct (List.filter Platform.is_call evs) as [|ev l] eqn:Hf; [congruence|].
      assert (Hin : In ev (List.filter Platform.is_call evs)) by (rewrite Hf; left; reflexivity).
      apply List.filter_In in Hin as [Hin Hc].
      destruct ev as [|onCreated| |]; try discriminate Hc. exists onCreated. exact Hin.
    - intros [onCreated Hin] Hnil.
      assert (Hin' : In (Platform.EvCreateFilterEngineAsync onCreated)
                        (List.filter Platform.is_call evs))
        by (apply List.filter_In; split; [exact Hin|reflexivity]).
      rewrite Hnil in Hin'. destruct Hin'. }
  destruct Hinv as (Hs & Hlen & H).
  destruct (Platform.filterEngine_ p) as [id|] eqn:Hfe.
  - destruct H as (Hd & Hne & Hall & H).
    assert (Hc : calls evs <> []).
    { intros Hnil. rewrite Hnil in Hlen. destruct (Platform.attached p); [congruence|discriminate]. }
    split; [lia|]. split; [split; [intros _; apply Hcalls, Hc|intros _; exact Hd]|].
    split; [exact Hlen|].
    split; [intros id' Hin; rewrite List.Forall_forall in Hall; rewrite (Hall id' Hin); reflexivity|].
    split; [intros id' [= <-] Hp; rewrite Hp in H; destruct H as (_ & Hw & Hn); auto|].
    split; [intros id' r [= <-] Hp; rewrite Hp in H; destruct H as (_ & Hw & Hn); auto|].
    intros sources r _.
    pose proof (bootstrap_inv_run (evs ++ [Platform.EvExecutorRuns sources r])) as Hinv'.
    rewrite run_snoc in *. fold p in Hinv' |- *. simpl in *.
    destruct Hinv' as (_ & _ & H').
    rewrite supplied_snoc, app_nil_r in H'.
    unfold Platform.executor_runs in *. rewrite Hs in *.
    destruct (Platform.shared_states p !! id) as [[r0|]|] eqn:Hp; [| |contradiction].
    + destruct H as (Hq & Hw & Hn). rewrite Hq in *. exists id, r0. auto.
    + destruct H as (Hq & Hw & Hn). rewrite Hq in *.
      set (p2 := Platform.EvaluateAll _ _ _) in *.
      assert (Hfe2 : Platform.filterEngine_ p2 = Some id).
      { pose proof (EvaluateAll_bootstrap_view sources
                      (Platform.mk (Platform.state p)
                         (Executor.run_next (Platform.executor p)) (Platform.filterEngine_ p)
                         (Platform.shared_states p) (Platform.evaluatedJsSources_ p)
                         (Platform.dispatches p) (Platform.attached p) (Platform.waiting p)
                         (Platform.notified p) (Platform.evaluations p)
                         (Platform.lock_log p))) as Hv.
        unfold bootstrap_view in Hv. simpl in Hv. injection Hv as _ Hv _ _ _ _ _.
        exact (eq_trans Hv Hfe). }
      unfold Platform.resolve in *. rewrite Hfe2 in *. simpl in *.
      rewrite lookup_insert_eq in *. exists id, r.
      destruct H' as (_ & _ & _ & _ & _ & Hn').
      split; [reflexivity|]. split; [apply lookup_insert_eq|exact Hn'].
  - destruct H as (Hd & Ha & Hw & Hn & Hq & Hsup).
    assert (Hc : calls evs = []).
    { rewrite Ha in Hlen. destruct (calls evs); [reflexivity|discriminate]. }
    split; [lia|].
    split; [split; [lia|intros Hex; apply Hcalls in Hex; congruence]|].
    split; [exact Hlen|].
    split; [rewrite Ha; intros id' []|].
    split; [discriminate|]. split; [discriminate|].
    intros sources r Hne. congruence.
Qed.

(** ** Script sources are evaluated once *)












End PlatformBootstrap.

(* ===================================================================== *)
(** * Theorems: value handles                                             *)
(* ===================================================================== *)

Section ValueHandles.

Import AdblockPlus.

Context `{Externals}.

Implicit Types (iso : V8.Isolate) (this src : JsValue) (v : V8.Value) (w : World).

Lemma unwraps_inv iso this v :
  unwraps iso this = Some v ->
  exists c ctx cell,
    this = mkJsValue (Some provider) (Some c) (Some cell) /\
    V8.contexts iso !! c = Some ctx /\ V8.global_handles iso !! cell = Some v.
Proof.
  unfold unwraps. destruct this as [[[]|] [c|] [cell|]]; simpl; try discriminate.
  destruct (V8.contexts iso !! c) as [ctx|] eqn:Hc; [|discriminate].
  intros Hv. exists c, ctx, cell. auto.
Qed.

Lemma same_runtime_unwraps iso iso' this :
  same_runtime iso iso' -> unwraps iso' this = unwraps iso this.
Proof. intros (_ & Hc & Hg & _). unfold unwraps. rewrite Hc, Hg. reflexivity. Qed.

(** Running a query that only reads the unwrapped value inside the
    handle's context. *)
Lemma JsContext_query {A} (f : gmap nat V8.JsObject -> V8.Value -> A) iso this v :
  unwraps iso this = Some v ->
  exists c,
    jsContext_ this = Some c /\
    JsContext (isolate_ this) (jsContext_ this)
      (value <- UnwrapValue this ;; h <- get_heap ;; ret (f h value)) (Some iso)
    = (Returns (f (V8.heap iso) v), Some (V8.exit (V8.enter c iso))).
Proof.
  intros Hu. apply unwraps_inv in Hu as (c & ctx & cell & -> & Hc & Hv).
  exists c. split; [reflexivity|].
  unfold JsContext, bind, UnwrapValue, get_heap, on_isolate, ret. simpl.
  rewrite Hc. simpl. rewrite Hv. reflexivity.
Qed.

Lemma IsStringObject_spec h v : V8.IsStringObject h v = true <-> String_wrapper h v.
Proof.
  unfold V8.IsStringObject, V8.kind_of, String_wrapper, object_of_kind. split.
  - destruct v as [| | | | |a]; try discriminate.
    destruct (h !! a) as [o|] eqn:Ho; simpl; [|discriminate].
    destruct (V8.kind o) eqn:Hk; try discriminate. eauto 7.
  - intros (a & o & -> & Ho & s & Hk). rewrite Ho. simpl. rewrite Hk. reflexivity.
Qed.

Lemma IsNumberObject_spec h v : V8.IsNumberObject h v = true <-> Number_wrapper h v.
Proof.
  unfold V8.IsNumberObject, V8.kind_of, Number_wrapper, object_of_kind. split.
  - destruct v as [| | | | |a]; try discriminate.
    destruct (h !! a) as [o|] eqn:Ho; simpl; [|discriminate].
    destruct (V8.kind o) eqn:Hk; try discriminate. eauto 7.
  - intros (a & o & -> & Ho & s & Hk). rewrite Ho. simpl. rewrite Hk. reflexivity.
Qed.

Lemma IsBooleanObject_spec h v : V8.IsBooleanObject h v = true <-> Boolean_wrapper h v.
Proof.
  unfold V8.IsBooleanObject, V8.kind_of, Boolean_wrapper, object_of_kind. split.
  - destruct v as [| | | | |a]; try discriminate.
    destruct (h !! a) as [o|] eqn:Ho; simpl; [|discriminate].
    destruct (V8.kind o) eqn:Hk; try discriminate. eauto 7.
  - intros (a & o & -> & Ho & s & Hk). rewrite Ho. simpl. rewrite Hk. reflexivity.
Qed.

Lemma IsArray_spec h v : V8.IsArray h v = true <-> array_object h v.
Proof.
  unfold V8.IsArray, V8.kind_of, array_object, object_of_kind. split.
  - destruct v as [| | | | |a]; try discriminate.
    destruct (h !! a) as [o|] eqn:Ho; simpl; [|discriminate].
    destruct (V8.kind o) eqn:Hk; try discriminate. eauto 7.
  - intros (a & o & -> & Ho & s & Hk). rewrite Ho. simpl. rewrite Hk. reflexivity.
Qed.

Lemma IsFunction_spec h v : V8.IsFunction h v = true <-> function_object h v.
Proof.
  unfold V8.IsFunction, V8.kind_of, function_object, object_of_kind. split.
  - destruct v as [| | | | |a]; try discriminate.
    destruct (h !! a) as [o|] eqn:Ho; simpl; [|discriminate].
    destruct (V8.kind o) eqn:Hk; try discriminate. eauto 7.
  - intros (a & o & -> & Ho & s & Hk). rewrite Ho. simpl. rewrite Hk. reflexivity.
Qed.

(** C10.  The predicates do not tell a primitive from its wrapper object:
    on a handle for [v], [IsString] answers, and answers true exactly when
    [v] is a string or a String wrapper; likewise [IsNumber] for numbers
    and Number wrappers and [IsBool] for booleans and Boolean wrappers. *)
Theorem predicates_accept_wrapper_objects iso this v :
  unwraps iso this = Some v ->
  (exists b, fst (IsString this (Some iso)) = Returns b /\
             (b = true <-> string_primitive v \/ String_wrapper (V8.heap iso) v))
  /\ (exists b, fst (IsNumber this (Some iso)) = Returns b /\
                (b = true <-> number_primitive v \/ Number_wrapper (V8.heap iso) v))
  /\ (exists b, fst (IsBool this (Some iso)) = Returns b /\
                (b = true <-> boolean_primitive v \/ Boolean_wrapper (V8.heap iso) v)).
Proof.
  intros Hu. repeat split.
  - destruct (JsContext_query
                (fun h value => V8.IsString value || V8.IsStringObject h value) _ _ _ Hu)
      as (c & _ & Hrun).
    unfold IsString. rewrite Hrun. eexists; split; [reflexivity|].
    rewrite orb_true_iff, IsStringObject_spec. unfold string_primitive.
    split; (intros [Hp|Hw]; [left|right; exact Hw]).
    + destruct v; try discriminate. eauto.
    + destruct Hp as [s ->]. reflexivity.
  - destruct (JsContext_query
                (fun h value => V8.IsNumber value || V8.IsNumberObject h value) _ _ _ Hu)
      as (c & _ & Hrun).
    unfold IsNumber. rewrite Hrun. eexists; split; [reflexivity|].
    rewrite orb_true_iff, IsNumberObject_spec. unfold number_primitive.
    split; (intros [Hp|Hw]; [left|right; exact Hw]).
    + destruct v; try discriminate. eauto.
    + destruct Hp as [s ->]. reflexivity.
  - destruct (JsContext_query
                (fun h value => V8.IsBoolean value || V8.IsBooleanObject h value) _ _ _ Hu)
      as (c & _ & Hrun).
    unfold IsBool. rewrite Hrun. eexists; split; [reflexivity|].
    rewrite orb_true_iff, IsBooleanObject_spec. unfold boolean_primitive.
    split; (intros [Hp|Hw]; [left|right; exact Hw]).
    + destruct v; try discriminate. eauto.
    + destruct Hp as [s ->]. reflexivity.
Qed.


Lemma JsContext_run {A} (body : M A) iso c ctx :
  V8.contexts iso !! c = Some ctx ->
  JsContext (Some provider) (Some c) body (Some iso)
  = match body (Some (V8.enter c iso)) with
    | (Undefined_behaviour, w') => (Undefined_behaviour, w')
    | (r, w') => (r, V8.exit <$> w')
    end.
Proof. intros Hc. unfold JsContext. rewrite Hc. reflexivity. Qed.

Lemma UnwrapValue_run iso c cell v :
  V8.global_handles iso !! cell = Some v ->
  UnwrapValue (handle c cell) (Some iso) = (Returns v, Some iso).
Proof. intros Hv. unfold UnwrapValue, handle. simpl. rewrite Hv. reflexivity. Qed.

Lemma IsObject_run iso c ctx cell v :
  V8.contexts iso !! c = Some ctx -> V8.global_handles iso !! cell = Some v ->
  IsObject (handle c cell) (Some iso) = (Returns (V8.IsObject v), Some (scope c iso)).
Proof.
  intros Hc Hv. unfold IsObject. cbn [handle isolate_ jsContext_ value_].
  erewrite JsContext_run by eassumption.
  unfold bind. rewrite (UnwrapValue_run _ c cell v) by exact Hv. reflexivity.
Qed.

Lemma IsArray_run iso c ctx cell v :
  V8.contexts iso !! c = Some ctx -> V8.global_handles iso !! cell = Some v ->
  IsArray (handle c cell) (Some iso) = (Returns (V8.IsArray (V8.heap iso) v), Some (scope c iso)).
Proof.
  intros Hc Hv. unfold IsArray. cbn [handle isolate_ jsContext_ value_].
  erewrite JsContext_run by eassumption.
  unfold bind. rewrite (UnwrapValue_run _ c cell v) by exact Hv. reflexivity.
Qed.

Lemma IsFunction_run iso c ctx cell v :
  V8.contexts iso !! c = Some ctx -> V8.global_handles iso !! cell = Some v ->
  IsFunction (handle c cell) (Some iso)
  = (Returns (V8.IsFunction (V8.heap iso) v), Some (scope c iso)).
Proof.
  intros Hc Hv. unfold IsFunction. cbn [handle isolate_ jsContext_ value_].
  erewrite JsContext_run by eassumption.
  unfold bind. rewrite (UnwrapValue_run _ c cell v) by exact Hv. reflexivity.
Qed.

(** ** Computations that never raise a TypeError *)

Lemma never_ret {A} (a : A) : never_TypeError (ret a).
Proof. intros w e. discriminate. Qed.

Lemma never_undefined {A} : never_TypeError (@undefined_behaviour A).
Proof. intros w e. discriminate. Qed.

Lemma never_bind {A B} (m : M A) (k : A -> M B) :
  never_TypeError m -> (forall a, never_TypeError (k a)) -> never_TypeError (bind m k).
Proof.
  intros Hm Hk w e. unfold bind. specialize (Hm w).
  destruct (m w) as [[a|e'|] w'] eqn:Hmw; simpl.
  - apply Hk.
  - intros [= <-]. apply Hm. reflexivity.
  - discriminate.
Qed.

Lemma never_unwind {A} (m : M A) (cleanup : M unit) :
  never_TypeError m -> never_TypeError (unwind m cleanup).
Proof.
  intros Hm w e. unfold unwind. specialize (Hm w).
  destruct (m w) as [[a|e'|] w'] eqn:Hmw; simpl; try discriminate.
  destruct (cleanup w') as [[[]|e''|] w'']; simpl; try discriminate.
  intros [= <-]. apply Hm. reflexivity.
Qed.

Lemma never_JsContext {A} isolate jsContext (body : M A) :
  never_TypeError body -> never_TypeError (JsContext isolate jsContext body).
Proof.
  intros Hb w e. unfold JsContext.
  destruct isolate; [|discriminate]. destruct jsContext as [c|]; [|discriminate].
  destruct w as [iso|]; [|discriminate].
  destruct (V8.contexts iso !! c); [|discriminate].
  specialize (Hb (Some (V8.enter c iso))).
  destruct (body (Some (V8.enter c iso))) as [[a|e'|] w']; simpl; try discriminate.
  intros [= <-]. apply Hb. reflexivity.
Qed.

Lemma never_on_isolate {A} (f : V8.Isolate -> A * V8.Isolate) : never_TypeError (on_isolate f).
Proof.
  intros [iso|] e; unfold on_isolate; [|discriminate].
  destruct (f iso). discriminate.
Qed.

Lemma never_CHECKED_TO_LOCAL {A} (value : option A) : never_TypeError (CHECKED_TO_LOCAL value).
Proof. intros w e. destruct value; simpl; [discriminate|]. intros [= <-]. discriminate. Qed.

Lemma never_Global_Reset value : never_TypeError (Global_Reset value).
Proof. destruct value; [apply never_on_isolate|apply never_ret]. Qed.

Lemma never_JsValue_ctor isolate jsContext value :
  never_TypeError (JsValue_ctor isolate jsContext value).
Proof.
  unfold JsValue_ctor. destruct isolate; [|apply never_undefined].
  apply never_bind; [apply never_on_isolate|intros; apply never_ret].
Qed.

Lemma never_isolate_alive : never_TypeError isolate_alive.
Proof. intros w e. discriminate. Qed.

Lemma never_JsValue_dtor this : never_TypeError (JsValue_dtor this).
Proof.
  unfold JsValue_dtor. apply never_bind; [|intros; apply never_Global_Reset].
  destruct (isolate_ this); [|apply never_ret].
  apply never_bind; [apply never_isolate_alive|]. intros [|].
  - apply never_bind; [|intros; apply never_ret].
    apply never_JsContext, never_Global_Reset.
  - destruct MAKE_ISOLATE_IN_JS_VALUE_WEAK; apply never_ret.
Qed.

Lemma never_mapM {A B} (f : A -> M B) (l : list A) :
  (forall a, never_TypeError (f a)) -> never_TypeError (mapM f l).
Proof.
  intros Hf. induction l as [|x l IH]; simpl; [apply never_ret|].
  apply never_bind; [apply Hf|]. intros y.
  apply never_bind; [exact IH|]. intros; apply never_ret.
Qed.

Lemma never_destroy_list l : never_TypeError (destroy_list l).
Proof.
  unfold destroy_list. apply never_bind; [|intros; apply never_ret].
  apply never_mapM, never_JsValue_dtor.
Qed.

Lemma never_move_assign this src : never_TypeError (move_assign this src).
Proof.
  unfold move_assign. apply never_JsContext.
  apply never_bind; [apply never_Global_Reset|intros; apply never_ret].
Qed.

Lemma never_AsList_loop this array indices : forall result,
  never_TypeError (AsList_loop this array indices result).
Proof.
  induction indices as [|i rest IH]; intros result; simpl; [apply never_ret|].
  apply never_bind; [apply never_on_isolate|]. intros h.
  apply never_bind; [apply never_unwind, never_CHECKED_TO_LOCAL|]. intros item.
  apply never_bind; [apply never_JsValue_ctor|]. intros temporary.
  apply never_bind; [apply never_move_assign|]. intros pushed.
  apply never_bind; [apply never_JsValue_dtor|]. intros _. apply IH.
Qed.

Lemma AsList_run iso c ctx cell v :
  V8.contexts iso !! c = Some ctx -> V8.global_handles iso !! cell = Some v ->
  AsList (handle c cell) (Some iso)
  = if V8.IsArray (V8.heap iso) v
    then JsContext (Some provider) (Some c)
           (value <- UnwrapValue (handle c cell) ;;
            match value with
            | V8.VObject array =>
                h <- get_heap ;;
                AsList_loop (handle c cell) array
                  (indices_below (V8.Array_Length h array)) []
            | _ => undefined_behaviour
            end) (Some (scope c iso))
    else (Throws (runtime_error "Cannot convert a non-array to list"), Some (scope c iso)).
Proof.
  intros Hc Hv. unfold AsList at 1. unfold bind at 1.
  rewrite (IsArray_run iso c ctx cell v Hc Hv).
  destruct (V8.IsArray (V8.heap iso) v); reflexivity.
Qed.

Lemma checked_conversion_run {A} (f : gmap nat V8.JsObject -> V8.Value -> option A)
    iso c ctx cell v :
  V8.contexts iso !! c = Some ctx -> V8.global_handles iso !! cell = Some v ->
  JsContext (Some provider) (Some c)
    (x <- UnwrapValue (handle c cell) ;; h <- get_heap ;; CHECKED_TO_VALUE (f h x)) (Some iso)
  = (match f (V8.heap iso) v with
     | Some a => Returns a
     | None => Throws JsError_empty_value
     end, Some (scope c iso)).
Proof.
  intros Hc Hv. erewrite JsContext_run by eassumption.
  unfold bind. rewrite (UnwrapValue_run _ c cell v) by exact Hv.
  unfold get_heap, on_isolate. cbn [V8.heap V8.enter].
  destruct (f (V8.heap iso) v); reflexivity.
Qed.

(** C3.  On a handle for [v]: [AsList] raises a [TypeError] exactly when [v]
    is not an array (on an array it returns the list of handles, or fails
    otherwise than by a [TypeError] when an element cannot be read);
    [AsInt] raises a [ConversionError] exactly when the engine's integer
    coercion of [v] ends with an exception, and returns the coerced integer
    otherwise; likewise [AsDouble] with the engine's number coercion. *)
Theorem conversions_fail_as_specified iso this v :
  unwraps iso this = Some v ->
  (raises TypeError (AsList this (Some iso)) <-> ~ array_object (V8.heap iso) v)
  /\ (raises ConversionError (AsInt this (Some iso))
      <-> exists exn, V8.IntegerValue StringToNumber (V8.heap iso) v = V8.Abrupt exn)
  /\ (forall z, V8.IntegerValue StringToNumber (V8.heap iso) v = V8.Normal z ->
      fst (AsInt this (Some iso)) = Returns z)
  /\ (raises ConversionError (AsDouble this (Some iso))
      <-> exists exn, V8.NumberValue StringToNumber (V8.heap iso) v = V8.Abrupt exn)
  /\ (forall d, V8.NumberValue StringToNumber (V8.heap iso) v = V8.Normal d ->
      fst (AsDouble this (Some iso)) = Returns d).
Proof.
  intros Hu. apply unwraps_inv in Hu as (c & ctx & cell & -> & Hc & Hv).
  change (mkJsValue (Some provider) (Some c) (Some cell)) with (handle c cell).
  split.
  { rewrite (AsList_run iso c ctx cell v Hc Hv), <- IsArray_spec.
    destruct (V8.IsArray (V8.heap iso) v) eqn:Harr.
    - split; [|intros Hn; exfalso; apply Hn; reflexivity].
      intros (e & He & Hk). exfalso. revert Hk.
      eapply never_JsContext; [|exact He].
      apply never_bind; [intros w e'; unfold UnwrapValue; cbn;
                         destruct w as [i|]; [destruct (V8.global_handles i !! cell)|];
                         discriminate|].
      intros [| | | | |array]; try apply never_undefined.
      apply never_bind; [apply never_on_isolate|]. intros h. apply never_AsList_loop.
    - split; [intros _; discriminate|]. intros _. eexists. split; reflexivity. }
  unfold AsInt, AsDouble. cbn [handle isolate_ jsContext_ value_].
  change (mkJsValue (Some provider) (Some c) (Some cell)) with (handle c cell).
  rewrite (checked_conversion_run
             (fun h x => V8.to_maybe (V8.IntegerValue StringToNumber h x)) iso c ctx cell v Hc Hv).
  rewrite (checked_conversion_run
             (fun h x => V8.to_maybe (V8.NumberValue StringToNumber h x)) iso c ctx cell v Hc Hv).
  cbn [fst].
  destruct (V8.IntegerValue StringToNumber (V8.heap iso) v) as [z|exn];
    destruct (V8.NumberValue StringToNumber (V8.heap iso) v) as [d|exn']; cbn [V8.to_maybe];
    repeat split;
    try (intros (e & He & _); discriminate He);
    try (intros (x & Hx); discriminate Hx);
    try (intros x [= <-]; reflexivity);
    try discriminate;
    try (intros _; eexists; split; reflexivity);
    try (intros _; eexists; reflexivity).
Qed.

Lemma not_an_object_IsObject v : not_an_object v -> V8.IsObject v = false.
Proof. intros Hn. destruct v; try reflexivity. exfalso. eapply Hn. reflexivity. Qed.

Lemma SetProperty_non_object iso c ctx cell v name val :
  V8.contexts iso !! c = Some ctx -> V8.global_handles iso !! cell = Some v ->
  not_an_object v ->
  SetProperty (handle c cell) name val (Some iso)
  = (Throws (runtime_error "Attempting to set property on a non-object"),
     Some (scope c iso)).
Proof.
  intros Hc Hv Hn. unfold SetProperty, bind.
  rewrite (IsObject_run iso c ctx cell v Hc Hv), (not_an_object_IsObject v Hn). reflexivity.
Qed.

Lemma GetProperty_non_object iso c ctx cell v name :
  V8.contexts iso !! c = Some ctx -> V8.global_handles iso !! cell = Some v ->
  not_an_object v ->
  GetProperty (handle c cell) name (Some iso)
  = (Throws (runtime_error "Attempting to get property of a non-object"),
     Some (scope c iso)).
Proof.
  intros Hc Hv Hn. unfold GetProperty, bind.
  rewrite (IsObject_run iso c ctx cell v Hc Hv), (not_an_object_IsObject v Hn). reflexivity.
Qed.

Lemma GetOwnPropertyNames_non_object iso c ctx cell v :
  V8.contexts iso !! c = Some ctx -> V8.global_handles iso !! cell = Some v ->
  not_an_object v ->
  GetOwnPropertyNames (handle c cell) (Some iso)
  = (Throws (runtime_error "Attempting to get propert list for a non-object"),
     Some (scope c iso)).
Proof.
  intros Hc Hv Hn. unfold GetOwnPropertyNames, bind.
  rewrite (IsObject_run iso c ctx cell v Hc Hv), (not_an_object_IsObject v Hn). reflexivity.
Qed.

Lemma GetProperty_missing iso c ctx cell obj name key :
  V8.contexts iso !! c = Some ctx ->
  V8.global_handles iso !! cell = Some (V8.VObject obj) ->
  ToV8String name = Some key ->
  V8.lookup_property (V8.heap iso) obj key = None ->
  exists cell' iso',
    GetProperty (handle c cell) name (Some iso) = (Returns (handle c cell'), Some iso')
    /\ V8.contexts iso' = V8.contexts iso
    /\ V8.heap iso' = V8.heap iso
    /\ V8.global_handles iso' = <[cell' := V8.VUndefined]> (V8.global_handles iso)
    /\ V8.global_handles iso !! cell' = None.
Proof.
  intros Hc Hv Hk Hl. unfold GetProperty, bind at 1.
  rewrite (IsObject_run iso c ctx cell _ Hc Hv). cbn [V8.IsObject negb].
  cbn [handle isolate_ jsContext_ value_].
  erewrite JsContext_run by exact Hc.
  rewrite Hk. unfold bind, CHECKED_TO_LOCAL, ret.
  change (mkJsValue (Some provider) (Some c) (Some cell)) with (handle c cell).
  erewrite UnwrapValue_run by exact Hv.
  unfold get_heap, on_isolate. cbn [V8.heap V8.enter scope V8.exit V8.entered_contexts].
  unfold V8.Object_Get. rewrite Hl. cbn [V8.to_maybe].
  unfold JsValue_ctor, bind, Global_new, on_isolate, V8.new_global, ret.
  cbn [V8.global_handles V8.heap V8.contexts V8.entered_contexts V8.trace fmap option_fmap option_map V8.exit].
  eexists _, _. split; [reflexivity|].
  cbn. repeat split.
  apply not_elem_of_dom, is_fresh.
Qed.

Lemma JsContext_throws {A} (body : M A) iso c ctx e w' :
  V8.contexts iso !! c = Some ctx ->
  body (Some (V8.enter c iso)) = (Throws e, w') ->
  JsContext (Some provider) (Some c) body (Some iso) = (Throws e, V8.exit <$> w').
Proof. intros Hc Hb. erewrite JsContext_run by exact Hc. rewrite Hb. reflexivity. Qed.

Lemma IsUndefined_run iso c ctx cell v :
  V8.contexts iso !! c = Some ctx -> V8.global_handles iso !! cell = Some v ->
  IsUndefined (handle c cell) (Some iso) = (Returns (V8.IsUndefined v), Some (scope c iso)).
Proof.
  intros Hc Hv. unfold IsUndefined. cbn [handle isolate_ jsContext_ value_].
  erewrite JsContext_run by eassumption.
  unfold bind. erewrite UnwrapValue_run by exact Hv. reflexivity.
Qed.

Lemma raises_JsContext {A} (body : M A) iso c ctx e w' k :
  V8.contexts iso !! c = Some ctx ->
  body (Some (V8.enter c iso)) = (Throws e, w') ->
  error_kind e = k ->
  raises k (JsContext (Some provider) (Some c) body (Some iso)).
Proof.
  intros Hc Hb Hk. exists e. erewrite JsContext_throws by eassumption. split; [reflexivity|exact Hk].
Qed.

(** C4, as amended.  On a handle for [v].  When [v] is not an object,
    [GetOwnPropertyNames], [GetProperty] and [SetProperty] raise a
    [TypeError]; for [SetProperty] this covers the overload taking a
    runtime value and those taking an integer, a boolean, another handle,
    and, when the payload converts to a runtime string, a string, a
    character buffer or a string buffer.  When [v] is an object and the
    name converts to a key under which neither the object nor its
    prototype chain holds a property, [GetProperty] returns a handle, and
    [IsUndefined] on that handle answers true.  The conversions come
    before the checks they feed: whatever [v] is, the overloads of
    [SetProperty] taking a string, a character buffer or a string buffer
    raise a [ConversionError] when the payload does not convert; and when
    [v] is an object, [GetProperty] raises a [ConversionError] for a name
    that does not convert. *)
Theorem property_access_as_specified iso this v :
  unwraps iso this = Some v ->
  (not_an_object v ->
   raises TypeError (GetOwnPropertyNames this (Some iso))
   /\ (forall name, raises TypeError (GetProperty this name (Some iso)))
   /\ (forall name val, raises TypeError (SetProperty this name val (Some iso)))
   /\ (forall name val, raises TypeError (SetProperty_int64 this name val (Some iso)))
   /\ (forall name val, raises TypeError (SetProperty_bool this name val (Some iso)))
   /\ (forall name val v', unwraps iso val = Some v' ->
       raises TypeError (SetProperty_JsValue this name val (Some iso)))
   /\ (forall name val local, ToV8String val = Some local ->
       raises TypeError (SetProperty_string this name val (Some iso)))
   /\ (forall name val local, NewFromUtf8 val = Some local ->
       raises TypeError (SetProperty_chars this name val (Some iso)))
   /\ (forall name val local, StringBufferToV8String val = Some local ->
       raises TypeError (SetStringBufferProperty this name val (Some iso))))
  /\ (forall obj name key,
      v = V8.VObject obj -> ToV8String name = Some key ->
      V8.lookup_property (V8.heap iso) obj key = None ->
      exists result iso',
        GetProperty this name (Some iso) = (Returns result, Some iso')
        /\ fst (IsUndefined result (Some iso')) = Returns true)
  /\ (forall name val, ToV8String val = None ->
      raises ConversionError (SetProperty_string this name val (Some iso)))
  /\ (forall name val, NewFromUtf8 val = None ->
      raises ConversionError (SetProperty_chars this name val (Some iso)))
  /\ (forall name val, StringBufferToV8String val = None ->
      raises ConversionError (SetStringBufferProperty this name val (Some iso)))
  /\ (forall obj name,
      v = V8.VObject obj -> ToV8String name = None ->
      raises ConversionError (GetProperty this name (Some iso))).
Proof.
  intros Hu. apply unwraps_inv in Hu as (c & ctx & cell & -> & Hc & Hv).
  change (mkJsValue (Some provider) (Some c) (Some cell)) with (handle c cell).
  split; [|split; [|split; [|split; [|split]]]].
  - intros Hn.
    assert (Hset : forall name val,
              SetProperty (handle c cell) name val (Some (V8.enter c iso))
              = (Throws (runtime_error "Attempting to set property on a non-object"),
                 Some (scope c (V8.enter c iso)))).
    { intros name val. apply (SetProperty_non_object _ c ctx cell v); assumption. }
    split; [eexists; rewrite (GetOwnPropertyNames_non_object iso c ctx cell v) by assumption;
            split; reflexivity|].
    split; [intros name; eexists;
            rewrite (GetProperty_non_object iso c ctx cell v) by assumption;
            split; reflexivity|].
    split; [intros name val; eexists;
            rewrite (SetProperty_non_object iso c ctx cell v) by assumption;
            split; reflexivity|].
    split; [intros name val; unfold SetProperty_int64;
            eapply raises_JsContext; [exact Hc|apply Hset|reflexivity]|].
    split; [intros name val; unfold SetProperty_bool;
            eapply raises_JsContext; [exact Hc|apply Hset|reflexivity]|].
    split; [intros name val v' Hval;
            apply unwraps_inv in Hval as (c' & ctx' & cell' & -> & Hc' & Hv');
            unfold SetProperty_JsValue;
            eapply raises_JsContext;
            [exact Hc
            |unfold bind;
             change (mkJsValue (Some provider) (Some c') (Some cell')) with (handle c' cell');
             erewrite UnwrapValue_run by exact Hv'; apply Hset
            |reflexivity]|].
    split; [intros name val local Hl; unfold SetProperty_string;
            eapply raises_JsContext;
            [exact Hc|rewrite Hl; unfold bind; simpl; apply Hset|reflexivity]|].
    split; [intros name val local Hl; unfold SetProperty_chars;
            eapply raises_JsContext;
            [exact Hc|rewrite Hl; unfold bind; simpl; apply Hset|reflexivity]|].
    intros name val local Hl; unfold SetStringBufferProperty;
      eapply raises_JsContext;
      [exact Hc|rewrite Hl; unfold bind; simpl; apply Hset|reflexivity].
  - intros obj name key -> Hk Hl.
    destruct (GetProperty_missing iso c ctx cell obj name key Hc Hv Hk Hl)
      as (cell' & iso' & Hrun & Hc' & _ & Hg & _).
    exists (handle c cell'), iso'. split; [exact Hrun|].
    erewrite (IsUndefined_run iso' c ctx cell' V8.VUndefined);
      [reflexivity|rewrite Hc'; exact Hc|rewrite Hg; apply lookup_insert_eq].
  - intros name val Hl. unfold SetProperty_string.
    eapply raises_JsContext; [exact Hc|rewrite Hl; reflexivity|reflexivity].
  - intros name val Hl. unfold SetProperty_chars.
    eapply raises_JsContext; [exact Hc|rewrite Hl; reflexivity|reflexivity].
  - intros name val Hl. unfold SetStringBufferProperty.
    eapply raises_JsContext; [exact Hc|rewrite Hl; reflexivity|reflexivity].
  - intros obj name -> Hk. unfold GetProperty, bind at 1.
    rewrite (IsObject_run iso c ctx cell _ Hc Hv). cbn [V8.IsObject negb].
    cbn [handle isolate_ jsContext_ value_].
    eapply raises_JsContext; [exact Hc|rewrite Hk; reflexivity|reflexivity].
Qed.

Lemma mapM_UnwrapValue_run iso iso' params : forall argv,
  V8.global_handles iso' = V8.global_handles iso ->
  unwrap_all iso params = Some argv ->
  mapM UnwrapValue params (Some iso') = (Returns argv, Some iso').
Proof.
  intros argv Hg. revert argv.
  induction params as [|p rest IH]; intros argv; simpl.
  - intros [= <-]. reflexivity.
  - destruct (unwraps iso p) as [v|] eqn:Hp; [|discriminate].
    destruct (unwrap_all iso rest) as [vs|]; [|discriminate].
    intros [= <-]. apply unwraps_inv in Hp as (c & ctx & cell & -> & Hc & Hv).
    unfold bind. change (mkJsValue (Some provider) (Some c) (Some cell)) with (handle c cell).
    erewrite UnwrapValue_run by (rewrite Hg; exact Hv).
    rewrite (IH vs eq_refl). reflexivity.
Qed.

Lemma Call_not_callable iso c ctx cell v args thisObj :
  V8.contexts iso !! c = Some ctx -> V8.global_handles iso !! cell = Some v ->
  V8.IsFunction (V8.heap iso) v = false ->
  Call (handle c cell) args thisObj (Some iso)
  = (Throws (runtime_error "Attempting to call a non-function"), Some (scope c iso)).
Proof.
  intros Hc Hv Hf. unfold Call, bind.
  rewrite (IsFunction_run iso c ctx cell v Hc Hv), Hf. reflexivity.
Qed.

Lemma Call_bad_receiver iso c ctx cell v args thisObj :
  V8.contexts iso !! c = Some ctx -> V8.global_handles iso !! cell = Some v ->
  V8.IsFunction (V8.heap iso) v = true -> V8.IsObject thisObj = false ->
  Call (handle c cell) args thisObj (Some iso)
  = (Throws (runtime_error "`this` pointer has to be an object"), Some (scope c iso)).
Proof.
  intros Hc Hv Hf Ho. unfold Call, bind.
  rewrite (IsFunction_run iso c ctx cell v Hc Hv), Hf, Ho. reflexivity.
Qed.

Lemma Call_raises iso c ctx cell func args thisObj exn :
  V8.contexts iso !! c = Some ctx ->
  V8.global_handles iso !! cell = Some (V8.VObject func) ->
  V8.IsFunction (V8.heap iso) (V8.VObject func) = true -> V8.IsObject thisObj = true ->
  V8.Function_Call (V8.heap iso) func thisObj args = V8.Abrupt exn ->
  Call (handle c cell) args thisObj (Some iso)
  = (Throws (JsError_script (MessageText (V8.heap iso) exn)), Some (scope c (scope c iso))).
Proof.
  intros Hc Hv Hf Ho Hcall. unfold Call, bind at 1.
  rewrite (IsFunction_run iso c ctx cell _ Hc Hv), Hf, Ho. cbn [negb].
  cbn [handle isolate_ jsContext_ value_].
  erewrite JsContext_run by exact Hc.
  unfold bind. change (mkJsValue (Some provider) (Some c) (Some cell)) with (handle c cell).
  erewrite UnwrapValue_run by exact Hv.
  unfold get_heap, on_isolate. cbn [V8.heap V8.enter scope V8.exit V8.entered_contexts].
  rewrite Hcall. reflexivity.
Qed.

Lemma Call_returns iso c ctx cell func args thisObj r :
  V8.contexts iso !! c = Some ctx ->
  V8.global_handles iso !! cell = Some (V8.VObject func) ->
  V8.IsFunction (V8.heap iso) (V8.VObject func) = true -> V8.IsObject thisObj = true ->
  V8.Function_Call (V8.heap iso) func thisObj args = V8.Normal r ->
  exists cell' iso',
    Call (handle c cell) args thisObj (Some iso) = (Returns (handle c cell'), Some iso')
    /\ V8.contexts iso' = V8.contexts iso /\ V8.heap iso' = V8.heap iso
    /\ V8.entered_contexts iso' = V8.entered_contexts iso
    /\ V8.global_handles iso' = <[cell' := r]> (V8.global_handles iso)
    /\ V8.global_handles iso !! cell' = None.
Proof.
  intros Hc Hv Hf Ho Hcall. unfold Call, bind at 1.
  rewrite (IsFunction_run iso c ctx cell _ Hc Hv), Hf, Ho. cbn [negb].
  cbn [handle isolate_ jsContext_ value_].
  erewrite JsContext_run by exact Hc.
  unfold bind. change (mkJsValue (Some provider) (Some c) (Some cell)) with (handle c cell).
  erewrite UnwrapValue_run by exact Hv.
  unfold get_heap, on_isolate. cbn [V8.heap V8.enter scope V8.exit V8.entered_contexts].
  rewrite Hcall. cbn.
  eexists _, _. split; [reflexivity|]. cbn. repeat split.
  apply not_elem_of_dom, is_fresh.
Qed.

Lemma not_function_IsFunction h v : ~ function_object h v -> V8.IsFunction h v = false.
Proof.
  intros Hn. destruct (V8.IsFunction h v) eqn:Hf; [|reflexivity].
  exfalso. apply Hn, IsFunction_spec, Hf.
Qed.

Lemma context_Global_run iso c ctx :
  V8.contexts iso !! c = Some ctx ->
  context_Global (Some c) (Some iso) = (Returns (V8.VObject (V8.global_object ctx)), Some iso).
Proof. intros Hc. unfold context_Global. rewrite Hc. reflexivity. Qed.

(** C5.  On a handle for [v].  When [v] is not a function, every overload
    of [Call] raises a [TypeError].  When [v] is a function and the
    receiver supplied is not an object, [Call] raises a [TypeError].  When
    [v] is a function whose invocation on an object receiver throws [exn]
    inside the engine, every overload of [Call] (the one taking the values,
    the two taking handles for the arguments, with the receiver given or
    the global object of the context, and the one taking a single handle)
    raises a [ScriptError] carrying the engine's message text for [exn];
    this is an exception, not undefined behaviour; afterwards the engine
    has the same heap, contexts, persistent cells and stack of entered
    contexts as before, every handle stands for what it stood for, and the
    call can be made again with the same outcome. *)
Theorem Call_fails_as_specified iso this v :
  unwraps iso this = Some v ->
  (~ function_object (V8.heap iso) v ->
   (forall args thisObj, raises TypeError (Call this args thisObj (Some iso)))
   /\ (forall params argv, unwrap_all iso params = Some argv ->
       raises TypeError (Call_params this params (Some iso)))
   /\ (forall params argv thisValue receiver,
       unwrap_all iso params = Some argv -> unwraps iso thisValue = Some receiver ->
       raises TypeError (Call_params_this this params thisValue (Some iso)))
   /\ (forall arg local, unwraps iso arg = Some local ->
       raises TypeError (Call_arg this arg (Some iso))))
  /\ (function_object (V8.heap iso) v ->
      (forall args thisObj, not_an_object thisObj ->
         raises TypeError (Call this args thisObj (Some iso)))
      /\ (forall params argv thisValue receiver,
          unwrap_all iso params = Some argv -> unwraps iso thisValue = Some receiver ->
          not_an_object receiver ->
          raises TypeError (Call_params_this this params thisValue (Some iso))))
  /\ (forall func args receiver exn,
      v = V8.VObject func -> function_object (V8.heap iso) v ->
      V8.Function_Call (V8.heap iso) func (V8.VObject receiver) args = V8.Abrupt exn ->
      let error := JsError_script (MessageText (V8.heap iso) exn) in
      error_kind error = ScriptError
      /\ (exists iso',
            Call this args (V8.VObject receiver) (Some iso) = (Throws error, Some iso')
            /\ same_runtime iso iso'
            /\ (forall other, unwraps iso' other = unwraps iso other)
            /\ fst (Call this args (V8.VObject receiver) (Some iso')) = Throws error)
      /\ (forall params thisValue,
            unwrap_all iso params = Some args ->
            unwraps iso thisValue = Some (V8.VObject receiver) ->
            exists iso',
              Call_params_this this params thisValue (Some iso) = (Throws error, Some iso')
              /\ same_runtime iso iso')
      /\ (forall params c ctx,
            unwrap_all iso params = Some args ->
            jsContext_ this = Some c -> V8.contexts iso !! c = Some ctx ->
            receiver = V8.global_object ctx ->
            exists iso',
              Call_params this params (Some iso) = (Throws error, Some iso')
              /\ same_runtime iso iso')
      /\ (forall arg local c ctx,
            unwraps iso arg = Some local -> args = [local] ->
            jsContext_ this = Some c -> V8.contexts iso !! c = Some ctx ->
            receiver = V8.global_object ctx ->
            exists iso',
              Call_arg this arg (Some iso) = (Throws error, Some iso')
              /\ same_runtime iso iso'
              /\ (forall other, unwraps iso' other = unwraps iso other)
              /\ fst (Call_arg this arg (Some iso')) = Throws error)).
Proof.
  intros Hu. apply unwraps_inv in Hu as (c & ctx & cell & -> & Hc & Hv).
  change (mkJsValue (Some provider) (Some c) (Some cell)) with (handle c cell).
  split; [|split].
  - intros Hn. apply not_function_IsFunction in Hn.
    assert (Hcall : forall args thisObj,
              Call (handle c cell) args thisObj (Some (V8.enter c iso))
              = (Throws (runtime_error "Attempting to call a non-function"),
                 Some (scope c (V8.enter c iso)))).
    { intros args thisObj. apply (Call_not_callable _ c ctx cell v); assumption. }
    split; [intros args thisObj; eexists;
            rewrite (Call_not_callable iso c ctx cell v) by assumption;
            split; reflexivity|].
    split; [intros params argv Hp; unfold Call_params;
            eapply raises_JsContext;
            [exact Hc
            |unfold bind;
             erewrite (mapM_UnwrapValue_run iso) by first [exact Hp | reflexivity];
             cbn [handle jsContext_];
             erewrite context_Global_run by exact Hc; apply Hcall
            |reflexivity]|].
    split; [intros params argv thisValue receiver Hp Ht;
            apply unwraps_inv in Ht as (c' & ctx' & cell' & -> & Hc' & Hv');
            unfold Call_params_this;
            eapply raises_JsContext;
            [exact Hc
            |unfold bind;
             change (mkJsValue (Some provider) (Some c') (Some cell')) with (handle c' cell');
             erewrite UnwrapValue_run by exact Hv';
             erewrite (mapM_UnwrapValue_run iso) by first [exact Hp | reflexivity];
             apply Hcall
            |reflexivity]|].
    intros arg local Ha.
    apply unwraps_inv in Ha as (c' & ctx' & cell' & -> & Hc' & Hv').
    unfold Call_arg.
    eapply raises_JsContext;
      [exact Hc
      |unfold bind;
       change (mkJsValue (Some provider) (Some c') (Some cell')) with (handle c' cell');
       erewrite UnwrapValue_run by exact Hv';
       cbn [handle jsContext_];
       erewrite context_Global_run by exact Hc; apply Hcall
      |reflexivity].
  - intros Hf. apply IsFunction_spec in Hf.
    split.
    + intros args thisObj Hn. eexists.
      rewrite (Call_bad_receiver iso c ctx cell v) by
        (try assumption; apply not_an_object_IsObject, Hn).
      split; reflexivity.
    + intros params argv thisValue receiver Hp Ht Hn.
      apply unwraps_inv in Ht as (c' & ctx' & cell' & -> & Hc' & Hv').
      unfold Call_params_this.
      eapply raises_JsContext;
        [exact Hc
        |unfold bind;
         change (mkJsValue (Some provider) (Some c') (Some cell')) with (handle c' cell');
         erewrite UnwrapValue_run by exact Hv';
         erewrite (mapM_UnwrapValue_run iso) by first [exact Hp | reflexivity];
         apply (Call_bad_receiver _ c ctx cell v);
         try assumption; apply not_an_object_IsObject, Hn
        |reflexivity].
  - intros func args receiver exn -> Hf Hcall. apply IsFunction_spec in Hf. cbv zeta.
    split; [reflexivity|]. split; [|split; [|split]].
    + exists (scope c (scope c iso)).
      split; [apply (Call_raises iso c ctx cell func); auto|].
      split; [repeat split|]. split; [intros other; apply same_runtime_unwraps; repeat split|].
      erewrite (Call_raises (scope c (scope c iso)) c ctx cell func); auto.
    + intros params thisValue Hp Ht.
      apply unwraps_inv in Ht as (c' & ctx' & cell' & -> & Hc' & Hv').
      unfold Call_params_this. cbn [handle isolate_ jsContext_ value_].
      erewrite JsContext_throws;
        [|exact Hc
         |unfold bind;
          change (mkJsValue (Some provider) (Some c') (Some cell')) with (handle c' cell');
          erewrite UnwrapValue_run by exact Hv';
          erewrite (mapM_UnwrapValue_run iso) by first [exact Hp | reflexivity];
          change (mkJsValue (Some provider) (Some c) (Some cell)) with (handle c cell);
          apply (Call_raises _ c ctx cell func); auto; exact Hcall].
      eexists. split; [reflexivity|]. repeat split.
    + intros params c0 ctx0 Hp [= <-] Hc0 ->.
      rewrite Hc in Hc0. injection Hc0 as <-.
      unfold Call_params. cbn [handle isolate_ jsContext_ value_].
      erewrite JsContext_throws;
        [|exact Hc
         |unfold bind;
          erewrite (mapM_UnwrapValue_run iso) by first [exact Hp | reflexivity];
          erewrite context_Global_run by exact Hc;
          change (mkJsValue (Some provider) (Some c) (Some cell)) with (handle c cell);
          apply (Call_raises _ c ctx cell func); auto; exact Hcall].
      eexists. split; [reflexivity|]. repeat split.
    + intros arg local c0 ctx0 Ha -> [= <-] Hc0 ->.
      rewrite Hc in Hc0. injection Hc0 as <-.
      apply unwraps_inv in Ha as (c' & ctx' & cell' & -> & Hc' & Hv').
      assert (Hrun : forall iso1, same_runtime iso iso1 ->
                exists iso2,
                  Call_arg (handle c cell) (handle c' cell') (Some iso1)
                  = (Throws (JsError_script (MessageText (V8.heap iso) exn)), Some iso2)
                  /\ same_runtime iso iso2).
      { intros iso1 (Hh1 & Hc1 & Hg1 & He1).
        unfold Call_arg. cbn [handle isolate_ jsContext_ value_].
        erewrite JsContext_throws;
          [|rewrite Hc1; exact Hc
           |unfold bind;
            change (mkJsValue (Some provider) (Some c') (Some cell')) with (handle c' cell');
            erewrite UnwrapValue_run by (cbn; rewrite Hg1; exact Hv');
            erewrite context_Global_run by (cbn; rewrite Hc1; exact Hc);
            change (mkJsValue (Some provider) (Some c) (Some cell)) with (handle c cell);
            apply (Call_raises _ c ctx cell func); cbn;
            rewrite ?Hc1, ?Hg1, ?Hh1; auto; exact Hcall].
        eexists. split; [cbn [V8.heap V8.enter]; rewrite Hh1; reflexivity|].
        repeat split; cbn; assumption. }
      destruct (Hrun iso) as (iso2 & Hr & Hs); [repeat split|].
      exists iso2. split; [exact Hr|]. split; [exact Hs|].
      split; [intros other; apply same_runtime_unwraps; exact Hs|].
      destruct (Hrun iso2 Hs) as (iso3 & Hr3 & _). unfold handle in Hr3 |- *.
      rewrite Hr3. reflexivity.
Qed.

(** ** Destruction *)

Lemma JsValue_dtor_run iso c ctx cell :
  V8.contexts iso !! c = Some ctx ->
  JsValue_dtor (handle c cell) (Some iso)
  = (Returns tt, Some (V8.exit (V8.dispose_global cell (V8.enter c iso)))).
Proof.
  intros Hc. unfold JsValue_dtor, bind at 1. cbn [handle isolate_ jsContext_ value_].
  unfold bind at 1. unfold isolate_alive at 1. unfold bind at 1.
  erewrite JsContext_run by exact Hc.
  reflexivity.
Qed.

(** Without [MAKE_ISOLATE_IN_JS_VALUE_WEAK] the member [value_] is still
    set when its own destructor runs, which resets it: with the engine gone
    this has no defined behaviour. *)
Lemma destruction_without_weak_isolate this cell :
  isolate_ this <> None -> value_ this = Some cell ->
  MAKE_ISOLATE_IN_JS_VALUE_WEAK = false ->
  JsValue_dtor this None = (Undefined_behaviour, None).
Proof.
  intros Hi Hval Hweak. unfold JsValue_dtor.
  destruct (isolate_ this); [|congruence].
  unfold bind, isolate_alive. rewrite Hweak, Hval. reflexivity.
Qed.

(** C7, as amended.  Destroying a handle whose engine is alive enters the
    handle's context, gives the handle's cell back to the engine and leaves
    the context, and does nothing else to the engine.  Destroying a handle
    whose engine has been torn down, in the build that defines
    [MAKE_ISOLATE_IN_JS_VALUE_WEAK], returns without touching the engine:
    the reference is dropped, not released.  In the build that does not
    define it, the body of the destructor does nothing on that path and the
    member's own destructor then resets the reference: a handle that holds
    a cell is destroyed with no defined behaviour, and only one that holds
    none is destroyed without effect. *)
Theorem destruction_respects_the_runtime this :
  (forall iso v c cell,
     unwraps iso this = Some v -> jsContext_ this = Some c -> value_ this = Some cell ->
     exists iso',
       JsValue_dtor this (Some iso) = (Returns tt, Some iso')
       /\ V8.trace iso'
          = V8.ExitContext c :: V8.DisposeGlobal cell :: V8.EnterContext c :: V8.trace iso
       /\ V8.global_handles iso' = delete cell (V8.global_handles iso)
       /\ V8.heap iso' = V8.heap iso /\ V8.contexts iso' = V8.contexts iso
       /\ V8.entered_contexts iso' = V8.entered_contexts iso)
  /\ (isolate_ this <> None -> MAKE_ISOLATE_IN_JS_VALUE_WEAK = true ->
      JsValue_dtor this None = (Returns tt, None))
  /\ (isolate_ this <> None -> MAKE_ISOLATE_IN_JS_VALUE_WEAK = false ->
      (value_ this <> None -> JsValue_dtor this None = (Undefined_behaviour, None))
      /\ (value_ this = None -> JsValue_dtor this None = (Returns tt, None))).
Proof.
  split; [|split].
  - intros iso v c cell Hu Hjc Hval.
    apply unwraps_inv in Hu as (c' & ctx & cell' & -> & Hc & Hv).
    cbn in Hjc, Hval. injection Hjc as ->. injection Hval as ->.
    change (mkJsValue (Some provider) (Some c) (Some cell)) with (handle c cell).
    rewrite (JsValue_dtor_run iso c ctx cell Hc).
    eexists. split; [reflexivity|]. repeat split.
  - intros Hi Hweak. unfold JsValue_dtor.
    destruct (isolate_ this); [|congruence].
    unfold bind, isolate_alive. rewrite Hweak. reflexivity.
  - intros Hi Hweak. split.
    + intros Hval. destruct (value_ this) as [cell|] eqn:Hcell; [|congruence].
      apply (destruction_without_weak_isolate this cell); assumption.
    + intros Hval. unfold JsValue_dtor.
      destruct (isolate_ this); [|congruence].
      unfold bind, isolate_alive. rewrite Hweak, Hval. reflexivity.
Qed.

(** ** Moving and copying *)

Lemma Global_Reset_run value iso :
  Global_Reset value (Some iso) = (Returns tt, Some (release value iso)).
Proof. destruct value; reflexivity. Qed.

Lemma move_assign_run iso this c ctx cell :
  V8.contexts iso !! c = Some ctx ->
  move_assign this (handle c cell) (Some iso)
  = (Returns (handle c cell, blank),
     Some (V8.exit (release (value_ this) (V8.enter c iso)))).
Proof.
  intros Hc. unfold move_assign. cbn [handle isolate_ jsContext_ value_].
  erewrite JsContext_run by exact Hc.
  unfold bind. rewrite Global_Reset_run. reflexivity.
Qed.

Lemma assign_run iso this c ctx cell v :
  V8.contexts iso !! c = Some ctx -> V8.global_handles iso !! cell = Some v ->
  assign this (handle c cell) (Some iso)
  = (Returns (handle c (fresh (dom (V8.global_handles iso)))),
     Some (V8.exit (release (value_ this) (snd (V8.new_global v (V8.enter c iso)))))).
Proof.
  intros Hc Hv. unfold assign. cbn [handle isolate_ jsContext_ value_].
  erewrite JsContext_run by exact Hc.
  unfold bind at 1. unfold Global_copy.
  cbn [V8.global_handles V8.enter]. rewrite Hv.
  unfold Global_new, on_isolate.
  destruct (V8.new_global v (V8.enter c iso)) as [cell2 iso2] eqn:Hnew.
  unfold bind. rewrite Global_Reset_run.
  unfold V8.new_global in Hnew. injection Hnew as <- <-. reflexivity.
Qed.

(** Reading a member after the assignments of [move_assign_at]. *)
Ltac members Ha Hb :=
  repeat first [rewrite lookup_alter_eq | rewrite lookup_alter_ne by congruence
               | rewrite lookup_insert_eq | rewrite lookup_insert_ne by congruence
               | rewrite Ha | rewrite Hb
               | progress cbn [fmap option_fmap option_map set_isolate_ set_jsContext_
                                 set_value_ isolate_ jsContext_ value_]].

(** What the six assignments of the move leave of two objects. *)
Lemma members_moved (objs : Objects) a b this src i c val :
  a <> b -> objs !! a = Some this -> objs !! b = Some src ->
  alter (set_value_ None) b
    (alter (set_value_ val) a
       (alter (set_jsContext_ None) b
          (alter (set_jsContext_ c) a
             (alter (set_isolate_ None) b (alter (set_isolate_ i) a objs)))))
  = <[b := blank]> (<[a := mkJsValue i c val]> objs).
Proof.
  intros Hab Ha Hb. apply map_eq. intros k.
  destruct (decide (k = a)) as [->|Hka]; [members Ha Hb; reflexivity|].
  destruct (decide (k = b)) as [->|Hkb]; [members Ha Hb; reflexivity|].
  members Ha Hb. reflexivity.
Qed.

(** On two objects, [move_assign_at] is [move_assign] on their values. *)
Lemma move_assign_at_distinct (objs : Objects) a b this src w :
  a <> b -> objs !! a = Some this -> objs !! b = Some src ->
  move_assign_at a b objs w
  = match move_assign this src w with
    | (Returns moved, w') => (Returns (<[b := snd moved]> (<[a := fst moved]> objs)), w')
    | (Throws e, w') => (Throws e, w')
    | (Undefined_behaviour, w') => (Undefined_behaviour, w')
    end.
Proof.
  intros Hab Ha Hb. unfold move_assign_at, move_assign. rewrite Ha, Hb.
  unfold member at 1 2. rewrite Hb.
  unfold JsContext.
  destruct (isolate_ src) as [p|] eqn:Hi, (jsContext_ src) as [c|] eqn:Hj, w as [iso|];
    try reflexivity.
  destruct (V8.contexts iso !! c); [|reflexivity].
  unfold Global_move_assign. destruct (decide (a = b)) as [->|_]; [congruence|].
  unfold member. members Ha Hb.
  rewrite (members_moved objs a b this src) by assumption.
  unfold bind. rewrite Global_Reset_run, ?Hi, ?Hj. reflexivity.
Qed.

(** On one object, the move clears its isolate and context and keeps its
    cell. *)
Lemma move_assign_at_self (objs : Objects) a iso c ctx cell :
  objs !! a = Some (handle c cell) -> V8.contexts iso !! c = Some ctx ->
  move_assign_at a a objs (Some iso)
  = (Returns (<[a := mkJsValue None None (Some cell)]> objs), Some (scope c iso)).
Proof.
  intros Ha Hc. unfold move_assign_at. rewrite Ha.
  unfold member at 1 2. rewrite Ha. cbn [handle isolate_ jsContext_ value_].
  erewrite JsContext_run by exact Hc.
  unfold Global_move_assign. rewrite decide_True by reflexivity.
  unfold member. members Ha Ha. cbn [ret]. unfold ret. cbn [fmap option_fmap option_map].
  f_equal. f_equal.
  apply map_eq. intros k.
  destruct (decide (k = a)) as [->|Hka]; members Ha Ha; reflexivity.
Qed.

(** C8, as amended.  Moving from a handle [src] for [v] into another handle
    object (which does not hold the same cell: a cell has one owner) makes
    the destination what [src] was, with the same cell: no cell is created,
    and when the destination held nothing the engine is as before.  What is
    left of [src] has its isolate, context and persistent reference
    cleared.  Destroying the moved-from handle returns without any effect,
    whatever the state of the engine, and assigning to it is defined; every
    other operation on a handle whose isolate is cleared, including copying
    or moving from it, has no defined behaviour.  Moving a handle into
    itself, [x = std::move(x)], is another matter: the one object has its
    isolate and context cleared and keeps its cell, and nothing changes in
    the engine; the object no longer stands for [v], and destroying it is
    an operation on the engine: the cell is given back, outside any
    context. *)
Theorem move_leaves_an_empty_placeholder iso src v :
  unwraps iso src = Some v ->
  (forall this, value_ this <> value_ src ->
     exists iso',
       move_assign this src (Some iso) = (Returns (src, blank), Some iso')
       /\ (forall (objs : Objects) a b,
             a <> b -> objs !! a = Some this -> objs !! b = Some src ->
             move_assign_at a b objs (Some iso)
             = (Returns (<[b := blank]> (<[a := src]> objs)), Some iso'))
       /\ unwraps iso' src = Some v
       /\ (value_ this = None -> same_runtime iso iso')
       /\ (forall other v', unwraps iso' other = Some v' ->
           exists copy iso'', assign blank other (Some iso') = (Returns copy, Some iso'')
                              /\ unwraps iso'' copy = Some v'))
  /\ isolate_ blank = None /\ jsContext_ blank = None /\ value_ blank = None
  /\ (forall w, JsValue_dtor blank w = (Returns tt, w))
  /\ (forall x, isolate_ x = None ->
      undefined (IsUndefined x) /\ undefined (IsNull x) /\ undefined (IsString x)
      /\ undefined (IsNumber x) /\ undefined (IsBool x) /\ undefined (IsObject x)
      /\ undefined (IsArray x) /\ undefined (IsFunction x)
      /\ undefined (AsString x) /\ undefined (AsStringBuffer x)
      /\ undefined (AsInt x) /\ undefined (AsBool x)
      /\ undefined (AsDouble x) /\ undefined (AsList x)
      /\ undefined (GetOwnPropertyNames x) /\ undefined (GetClass x)
      /\ (forall name, undefined (GetProperty x name))
      /\ (forall name val, undefined (SetProperty x name val))
      /\ (forall name val, undefined (SetProperty_string x name val))
      /\ (forall name val, undefined (SetStringBufferProperty x name val))
      /\ (forall name val, undefined (SetProperty_int64 x name val))
      /\ (forall name val, undefined (SetProperty_JsValue x name val))
      /\ (forall name val, undefined (SetProperty_chars x name val))
      /\ (forall name val, undefined (SetProperty_bool x name val))
      /\ (forall args thisObj, undefined (Call x args thisObj))
      /\ (forall params, undefined (Call_params x params))
      /\ (forall params thisValue, undefined (Call_params_this x params thisValue))
      /\ (forall arg, undefined (Call_arg x arg))
      /\ (forall dst, undefined (assign dst x))
      /\ (forall dst, undefined (move_assign dst x)))
  /\ (forall (objs : Objects) a, objs !! a = Some src ->
      let husk := mkJsValue None None (value_ src) in
      exists iso',
        move_assign_at a a objs (Some iso) = (Returns (<[a := husk]> objs), Some iso')
        /\ same_runtime iso iso'
        /\ unwraps iso' husk = None
        /\ exists cell iso'',
             value_ src = Some cell
             /\ JsValue_dtor husk (Some iso') = (Returns tt, Some iso'')
             /\ V8.trace iso'' = V8.DisposeGlobal cell :: V8.trace iso'
             /\ V8.global_handles iso'' = delete cell (V8.global_handles iso)).
Proof.
  intros Hu. apply unwraps_inv in Hu as (c & ctx & cell & -> & Hc & Hv).
  change (mkJsValue (Some provider) (Some c) (Some cell)) with (handle c cell) in *.
  split; [|split; [|split; [|split; [|split; [|split]]]]]; try reflexivity.
  - intros this Hne.
    rewrite (move_assign_run iso this c ctx cell Hc).
    eexists. split; [reflexivity|].
    split.
    { intros objs a b Hab Ha Hb.
      rewrite (move_assign_at_distinct objs a b this (handle c cell)) by assumption.
      rewrite (move_assign_run iso this c ctx cell Hc). reflexivity. }
    assert (Hg : V8.global_handles (V8.exit (release (value_ this) (V8.enter c iso))) !! cell
                 = Some v).
    { destruct (value_ this) as [old|] eqn:Hold; cbn.
      - rewrite lookup_delete_ne by (intros ->; apply Hne; reflexivity). exact Hv.
      - exact Hv. }
    assert (Hctx : V8.contexts (V8.exit (release (value_ this) (V8.enter c iso)))
                   = V8.contexts iso).
    { destruct (value_ this); reflexivity. }
    split; [unfold unwraps; cbn [handle isolate_ jsContext_ value_]; rewrite Hctx, Hc; exact Hg|].
    split; [intros ->; repeat split|].
    intros other v' Ho. apply unwraps_inv in Ho as (c' & ctx' & cell' & -> & Hc' & Hv').
    change (mkJsValue (Some provider) (Some c') (Some cell')) with (handle c' cell').
    rewrite (assign_run _ blank c' ctx' cell' v' Hc' Hv').
    eexists _, _. split; [reflexivity|].
    unfold unwraps. cbn [handle isolate_ jsContext_ value_ blank release].
    cbn [V8.contexts V8.global_handles V8.exit V8.new_global V8.enter snd V8.entered_contexts].
    rewrite Hc'. apply lookup_insert_eq.
  - intros x Hx. destruct x as [i j val]. cbn in Hx. subst i. repeat split.
  - intros objs a Ha. cbv zeta. cbn [handle value_].
    rewrite (move_assign_at_self objs a iso c ctx cell Ha Hc).
    eexists. split; [reflexivity|]. split; [repeat split|]. split; [reflexivity|].
    eexists cell, _. split; [reflexivity|]. split; [reflexivity|]. split; reflexivity.
Qed.
Lemma SetProperty_run iso c ctx cell obj name key val :
  V8.contexts iso !! c = Some ctx ->
  V8.global_handles iso !! cell = Some (V8.VObject obj) ->
  ToV8String name = Some key ->
  SetProperty (handle c cell) name val (Some iso)
  = (match fst (V8.Object_Set StringToNumber (V8.heap iso) obj key val) with
     | V8.Normal _ => Returns tt
     | V8.Abrupt _ => Throws JsError_empty_value
     end,
     Some (V8.exit
             (V8.set_heap (snd (V8.Object_Set StringToNumber (V8.heap iso) obj key val))
                (V8.enter c (scope c iso))))).
Proof.
  intros Hc Hv Hk. unfold SetProperty, bind at 1.
  rewrite (IsObject_run iso c ctx cell _ Hc Hv). cbn [V8.IsObject negb].
  cbn [handle isolate_ jsContext_ value_].
  erewrite JsContext_run by exact Hc.
  rewrite Hk. unfold bind, CHECKED_TO_LOCAL, ret.
  change (mkJsValue (Some provider) (Some c) (Some cell)) with (handle c cell).
  erewrite UnwrapValue_run by exact Hv.
  unfold on_isolate. cbn [V8.heap V8.enter scope V8.exit V8.entered_contexts].
  destruct (V8.Object_Set StringToNumber (V8.heap iso) obj key val) as [[b|exn] h']; reflexivity.
Qed.

Lemma SetProperty_frame iso c ctx cell v name val w2 :
  V8.contexts iso !! c = Some ctx -> V8.global_handles iso !! cell = Some v ->
  SetProperty (handle c cell) name val (Some iso) = (Returns tt, w2) ->
  exists iso2, w2 = Some iso2
               /\ V8.contexts iso2 = V8.contexts iso
               /\ V8.global_handles iso2 = V8.global_handles iso
               /\ V8.entered_contexts iso2 = V8.entered_contexts iso.
Proof.
  intros Hc Hv. destruct v as [| | | | |obj];
    try (rewrite (SetProperty_non_object iso c ctx cell _ name val Hc Hv)
           by (intros a; discriminate); discriminate).
  destruct (ToV8String name) as [key|] eqn:Hk.
  - rewrite (SetProperty_run iso c ctx cell obj name key val Hc Hv Hk).
    intros [= _ <-]. eexists. split; [reflexivity|]. repeat split.
  - unfold SetProperty, bind at 1.
    rewrite (IsObject_run iso c ctx cell _ Hc Hv). cbn [V8.IsObject negb].
    cbn [handle isolate_ jsContext_ value_].
    erewrite JsContext_run by exact Hc. rewrite Hk. discriminate.
Qed.

Lemma GetProperty_unfold iso c ctx cell v name :
  V8.contexts iso !! c = Some ctx -> V8.global_handles iso !! cell = Some v ->
  GetProperty (handle c cell) name (Some iso)
  = if negb (V8.IsObject v)
    then (Throws (runtime_error "Attempting to get property of a non-object"),
          Some (scope c iso))
    else JsContext (Some provider) (Some c)
           (property <- CHECKED_TO_LOCAL (ToV8String name) ;;
            match v with
            | V8.VObject obj =>
                h <- get_heap ;;
                found <- CHECKED_TO_LOCAL (V8.to_maybe (V8.Object_Get h obj property)) ;;
                JsValue_ctor (Some provider) (Some c) found
            | _ => undefined_behaviour
            end) (Some (scope c iso)).
Proof.
  intros Hc Hv. unfold GetProperty, bind at 1.
  rewrite (IsObject_run iso c ctx cell v Hc Hv).
  destruct (negb (V8.IsObject v)); [reflexivity|].
  cbn [handle isolate_ jsContext_ value_].
  erewrite !JsContext_run by exact Hc.
  match goal with
  | |- match ?b1 ?W with _ => _ end = match ?b2 ?W with _ => _ end =>
      assert (Hb : b1 W = b2 W); [|rewrite Hb; reflexivity]
  end.
  unfold bind at 1 3. destruct (ToV8String name) as [key|]; cbn [CHECKED_TO_LOCAL ret throw];
    [|reflexivity].
  unfold bind at 1.
  change (mkJsValue (Some provider) (Some c) (Some cell)) with (handle c cell).
  erewrite UnwrapValue_run by exact Hv. reflexivity.
Qed.

Lemma GetProperty_congr iso c ctx cell1 cell2 v name :
  V8.contexts iso !! c = Some ctx ->
  V8.global_handles iso !! cell1 = Some v -> V8.global_handles iso !! cell2 = Some v ->
  GetProperty (handle c cell1) name (Some iso) = GetProperty (handle c cell2) name (Some iso).
Proof.
  intros Hc H1 H2.
  rewrite (GetProperty_unfold iso c ctx cell1 v name Hc H1).
  rewrite (GetProperty_unfold iso c ctx cell2 v name Hc H2). reflexivity.
Qed.

Lemma GetProperty_found iso c ctx cell obj name key r :
  V8.contexts iso !! c = Some ctx ->
  V8.global_handles iso !! cell = Some (V8.VObject obj) ->
  ToV8String name = Some key ->
  V8.Object_Get (V8.heap iso) obj key = V8.Normal r ->
  exists cell' iso',
    GetProperty (handle c cell) name (Some iso) = (Returns (handle c cell'), Some iso')
    /\ V8.contexts iso' = V8.contexts iso
    /\ V8.global_handles iso' = <[cell' := r]> (V8.global_handles iso).
Proof.
  intros Hc Hv Hk Hl. unfold GetProperty, bind at 1.
  rewrite (IsObject_run iso c ctx cell _ Hc Hv). cbn [V8.IsObject negb].
  cbn [handle isolate_ jsContext_ value_].
  erewrite JsContext_run by exact Hc.
  rewrite Hk. unfold bind, CHECKED_TO_LOCAL, ret.
  change (mkJsValue (Some provider) (Some c) (Some cell)) with (handle c cell).
  erewrite UnwrapValue_run by exact Hv.
  unfold get_heap, on_isolate. cbn [V8.heap V8.enter scope V8.exit V8.entered_contexts].
  rewrite Hl. cbn [V8.to_maybe].
  unfold JsValue_ctor, bind, Global_new, on_isolate, V8.new_global, ret.
  eexists _, _. split; [reflexivity|]. cbn. repeat split.
Qed.

Lemma find_replace_property key p ps :
  V8.find_property key (V8.replace_property key p ps) = Some p.
Proof.
  induction ps as [|[k q] rest IH]; simpl.
  - rewrite String.eqb_refl. reflexivity.
  - destruct (String.eqb k key) eqn:Hk; simpl; rewrite Hk; [reflexivity|exact IH].
Qed.

(** Writing a plain data property of an ordinary object, then reading it. *)
Lemma Object_Get_after_Set h obj o key val :
  h !! obj = Some o -> V8.kind o = V8.JSObject ->
  (forall g s, V8.lookup_property h obj key <> Some (V8.AccessorProperty g s)) ->
  exists h', V8.Object_Set StringToNumber h obj key val = (V8.Normal true, h')
             /\ V8.Object_Get h' obj key = V8.Normal val.
Proof.
  intros Ho Hkind Hacc.
  exists (<[obj := V8.define_data o key val]> h). split.
  - unfold V8.Object_Set. rewrite Ho, Hkind. unfold V8.ordinary_set.
    destruct (V8.lookup_property h obj key) as [[x|g s]|] eqn:Hl; try reflexivity.
    exfalso. eapply Hacc. reflexivity.
  - unfold V8.Object_Get, V8.lookup_property. cbn [V8.lookup_chain].
    rewrite lookup_insert_eq.
    assert (Hown : V8.own_property (V8.define_data o key val) key
                   = Some (V8.DataProperty val)).
    { unfold V8.own_property, V8.define_data. rewrite Hkind. cbn.
      apply find_replace_property. }
    rewrite Hown. reflexivity.
Qed.

(** C6.  Copying a handle [src] for [v] (by the copy constructor, where the
    destination is blank, or by assignment) gives a handle with a cell of
    its own for the same value: both stand for [v].  After a property has
    been set through the copy, both still stand for the same value and
    reading any property through the original gives what reading it
    through the copy gives; on an ordinary object, for a key that is not an
    accessor, the value written through the copy is read back through the
    original.  Destroying either handle leaves the other standing for
    [v]. *)
Theorem copy_shares_the_value iso this src v :
  unwraps iso src = Some v -> destination_ok iso this src ->
  exists copy iso1,
    assign this src (Some iso) = (Returns copy, Some iso1)
    /\ value_ copy <> value_ src
    /\ isolate_ copy = isolate_ src /\ jsContext_ copy = jsContext_ src
    /\ unwraps iso1 copy = Some v /\ unwraps iso1 src = Some v
    /\ V8.heap iso1 = V8.heap iso
    /\ (forall name val w2,
        SetProperty copy name val (Some iso1) = (Returns tt, w2) ->
        exists iso2, w2 = Some iso2
                     /\ unwraps iso2 src = Some v /\ unwraps iso2 copy = Some v
                     /\ forall name', GetProperty src name' (Some iso2)
                                      = GetProperty copy name' (Some iso2))
    /\ (forall obj o name key val,
        v = V8.VObject obj -> V8.heap iso !! obj = Some o -> V8.kind o = V8.JSObject ->
        ToV8String name = Some key ->
        (forall g s, V8.lookup_property (V8.heap iso) obj key
                     <> Some (V8.AccessorProperty g s)) ->
        exists iso2 read iso3,
          SetProperty copy name val (Some iso1) = (Returns tt, Some iso2)
          /\ GetProperty src name (Some iso2) = (Returns read, Some iso3)
          /\ unwraps iso3 read = Some val)
    /\ (exists iso3, JsValue_dtor copy (Some iso1) = (Returns tt, Some iso3)
                     /\ unwraps iso3 src = Some v)
    /\ (exists iso4, JsValue_dtor src (Some iso1) = (Returns tt, Some iso4)
                     /\ unwraps iso4 copy = Some v).
Proof.
  intros Hu Hdst. apply unwraps_inv in Hu as (c & ctx & cell & -> & Hc & Hv).
  change (mkJsValue (Some provider) (Some c) (Some cell)) with (handle c cell) in *.
  rewrite (assign_run iso this c ctx cell v Hc Hv).
  set (cell2 := fresh (dom (V8.global_handles iso))).
  set (iso1 := V8.exit (release (value_ this) (snd (V8.new_global v (V8.enter c iso))))).
  assert (Hfresh : V8.global_handles iso !! cell2 = None)
    by (apply not_elem_of_dom, is_fresh).
  assert (Hne : cell2 <> cell) by (intros Heq; rewrite Heq, Hv in Hfresh; discriminate).
  assert (Hc1 : V8.contexts iso1 = V8.contexts iso)
    by (subst iso1; destruct (value_ this); reflexivity).
  assert (Hh1 : V8.heap iso1 = V8.heap iso)
    by (subst iso1; destruct (value_ this); reflexivity).
  assert (Hg1 : V8.global_handles iso1 !! cell2 = Some v
                /\ V8.global_handles iso1 !! cell = Some v).
  { subst iso1. unfold destination_ok in Hdst.
    destruct (value_ this) as [old|]; cbn.
    - destruct Hdst as [[x Hold] Hdiff].
      assert (old <> cell2) by (intros ->; fold cell2 in Hfresh; congruence).
      assert (old <> cell) by (intros ->; apply Hdiff; reflexivity).
      rewrite !lookup_delete_ne by assumption. fold cell2.
      rewrite lookup_insert_eq, lookup_insert_ne by assumption. auto.
    - fold cell2. rewrite lookup_insert_eq, lookup_insert_ne by assumption. auto. }
  destruct Hg1 as [Hcopy Hsrc].
  exists (handle c cell2), iso1. split; [reflexivity|].
  split; [cbn; congruence|]. split; [reflexivity|]. split; [reflexivity|].
  split; [unfold unwraps; cbn [handle isolate_ jsContext_ value_]; rewrite Hc1, Hc; exact Hcopy|].
  split; [unfold unwraps; cbn [handle isolate_ jsContext_ value_]; rewrite Hc1, Hc; exact Hsrc|].
  split; [exact Hh1|].
  assert (Hc1' : V8.contexts iso1 !! c = Some ctx) by (rewrite Hc1; exact Hc).
  split; [|split; [|split]].
  - intros name val w2 Hset.
    destruct (SetProperty_frame iso1 c ctx cell2 v name val w2 Hc1' Hcopy Hset)
      as (iso2 & -> & Hc2 & Hg2 & _).
    exists iso2. split; [reflexivity|].
    assert (Hc2' : V8.contexts iso2 !! c = Some ctx) by (rewrite Hc2; exact Hc1').
    split; [unfold unwraps; cbn [handle isolate_ jsContext_ value_];
            rewrite Hc2', Hg2; exact Hsrc|].
    split; [unfold unwraps; cbn [handle isolate_ jsContext_ value_];
            rewrite Hc2', Hg2; exact Hcopy|].
    intros name'. apply (GetProperty_congr iso2 c ctx cell cell2 v); [exact Hc2'| |];
      rewrite Hg2; assumption.
  - intros obj o name key val -> Ho Hkind Hk Hacc.
    rewrite <- Hh1 in Ho, Hacc.
    destruct (Object_Get_after_Set (V8.heap iso1) obj o key val Ho Hkind Hacc)
      as (h' & Hset & Hget).
    rewrite (SetProperty_run iso1 c ctx cell2 obj name key val Hc1' Hcopy Hk), Hset.
    cbn [fst snd].
    set (iso2 := V8.exit (V8.set_heap h' (V8.enter c (scope c iso1)))).
    assert (Hc2 : V8.contexts iso2 !! c = Some ctx) by exact Hc1'.
    assert (Hg2 : V8.global_handles iso2 !! cell = Some (V8.VObject obj)) by exact Hsrc.
    destruct (GetProperty_found iso2 c ctx cell obj name key val Hc2 Hg2 Hk Hget)
      as (cell' & iso3 & Hrun & Hc3 & Hg3).
    exists iso2, (handle c cell'), iso3. split; [reflexivity|]. split; [exact Hrun|].
    unfold unwraps. cbn [handle isolate_ jsContext_ value_].
    rewrite Hc3, Hc2, Hg3. apply lookup_insert_eq.
  - rewrite (JsValue_dtor_run iso1 c ctx cell2 Hc1'). eexists. split; [reflexivity|].
    unfold unwraps. cbn [handle isolate_ jsContext_ value_].
    cbn [V8.contexts V8.global_handles V8.exit V8.dispose_global V8.enter V8.entered_contexts].
    rewrite Hc1'. rewrite lookup_delete_ne by exact Hne. exact Hsrc.
  - rewrite (JsValue_dtor_run iso1 c ctx cell Hc1'). eexists. split; [reflexivity|].
    unfold unwraps. cbn [handle isolate_ jsContext_ value_].
    cbn [V8.contexts V8.global_handles V8.exit V8.dispose_global V8.enter V8.entered_contexts].
    rewrite Hc1'. rewrite lookup_delete_ne by (intros Heq; apply Hne; symmetry; exact Heq).
    exact Hcopy.
Qed.

End ValueHandles.

(* ===================================================================== *)
(** * Theorems: integers that travel as doubles                           *)
(* ===================================================================== *)

Section EngineFacts.

Local Open Scope Z_scope.

Lemma digits2_pos_iter_xO n m :
  digits2_pos (Pos.iter xO m n) = (digits2_pos m + n)%positive.
Proof.
  apply (Pos.iter_ind positive xO m (fun p a => digits2_pos a = (digits2_pos m + p)%positive)).
  - cbn. rewrite Pos.add_1_r. reflexivity.
  - intros p a IH. cbn. rewrite IH, Pos.add_succ_r. reflexivity.
Qed.

Lemma digits2_pos_bound m k : Z.pos m < 2 ^ k -> 0 <= k -> Z.pos (digits2_pos m) <= k.
Proof.
  revert k. induction m as [m IH|m IH|]; intros k Hm Hk; cbn [digits2_pos].
  - assert (0 < k) by (destruct (Z.eq_dec k 0) as [->|]; [cbn in Hm|]; lia).
    replace k with (Z.succ (k - 1)) in Hm by lia. rewrite Z.pow_succ_r in Hm by lia.
    specialize (IH (k - 1)). lia.
  - assert (0 < k) by (destruct (Z.eq_dec k 0) as [->|]; [cbn in Hm|]; lia).
    replace k with (Z.succ (k - 1)) in Hm by lia. rewrite Z.pow_succ_r in Hm by lia.
    specialize (IH (k - 1)). lia.
  - assert (0 < k) by (destruct (Z.eq_dec k 0) as [->|]; [cbn in Hm|]; lia). lia.
Qed.

Lemma binary_round_aux_exact s mz ez :
  digits2_pos mz = 53%positive -> -1074 <= ez <= 971 ->
  binary_round_aux 53 1024 s (Z.pos mz) ez loc_Exact = S754_finite s mz ez.
Proof.
  intros Hd He. unfold binary_round_aux, shr_fexp. cbn [Zdigits2]. rewrite Hd.
  unfold fexp, emin.
  replace (Z.max (53 + ez - 53) (3 - 1024 - 53) - ez) with 0 by lia.
  cbn [shr shr_record_of_loc loc_of_shr_record shr_m shr_r shr_s round_nearest_even Zdigits2].
  rewrite Hd. replace (Z.max (53 + ez - 53) (3 - 1024 - 53) - ez) with 0 by lia.
  cbn [shr shr_m]. destruct (Z.leb_spec ez (1024 - 53)); [reflexivity|lia].
Qed.

Lemma double_of_Z_pos s m :
  Z.pos m < 2 ^ 53 ->
  exists mz p, binary_round 53 1024 s m 0 = S754_finite s mz (- p)
               /\ 0 <= p <= 52 /\ Z.pos mz = Z.pos m * 2 ^ p.
Proof.
  intros Hm. pose proof (digits2_pos_bound m 53 Hm ltac:(lia)) as Hd.
  unfold binary_round, fexp, emin.
  replace (Z.max (Z.pos (digits2_pos m) + 0 - 53) (3 - 1024 - 53))
    with (Z.pos (digits2_pos m) - 53) by lia.
  unfold shl_align.
  destruct (Z.pos (digits2_pos m) - 53 - 0) as [|q|q] eqn:Hq; [|lia|].
  - exists m, 0. split; [|split; [lia|lia]].
    apply binary_round_aux_exact; [|lia]. apply Pos2Z.inj. lia.
  - exists (Pos.iter xO m q), (Z.pos q).
    assert (Hsum : (digits2_pos m + q = 53)%positive) by lia.
    split; [|split; [lia|]].
    + replace (Z.pos (digits2_pos m) - 53) with (- Z.pos q) by lia.
      apply binary_round_aux_exact; [|lia]. rewrite digits2_pos_iter_xO. exact Hsum.
    + change (Pos.iter xO m q) with (shift_pos q m). rewrite shift_pos_correct.
      rewrite Z.pow_pos_fold. lia.
Qed.

Lemma NumberToInt64_double_of_Z z :
  - 2 ^ 53 < z < 2 ^ 53 -> V8.NumberToInt64 (V8.double_of_Z z) = z.
Proof.
  intros Hz. unfold V8.double_of_Z, binary_normalize.
  destruct z as [|m|m]; [reflexivity| |].
  - destruct (double_of_Z_pos false m) as (mz & p & -> & Hp & Hmz); [lia|].
    unfold V8.NumberToInt64, V8.double_trunc, V8.INT64_MAX, V8.INT64_MIN.
    assert (Hmag : (if 0 <=? - p then Z.pos mz * 2 ^ (- p) else Z.pos mz / 2 ^ (- - p))
                   = Z.pos m).
    { destruct (Z.leb_spec 0 (- p)).
      - assert (p = 0) as -> by lia. cbn. cbn in Hmz. lia.
      - rewrite Z.opp_involutive, Hmz. apply Z.div_mul. apply Z.pow_nonzero; lia. }
    rewrite Hmag. lia.
  - destruct (double_of_Z_pos true m) as (mz & p & -> & Hp & Hmz); [lia|].
    unfold V8.NumberToInt64, V8.double_trunc, V8.INT64_MAX, V8.INT64_MIN.
    assert (Hmag : (if 0 <=? - p then Z.pos mz * 2 ^ (- p) else Z.pos mz / 2 ^ (- - p))
                   = Z.pos m).
    { destruct (Z.leb_spec 0 (- p)).
      - assert (p = 0) as -> by lia. cbn. cbn in Hmz. lia.
      - rewrite Z.opp_involutive, Hmz. apply Z.div_mul. apply Z.pow_nonzero; lia. }
    rewrite Hmag. lia.
Qed.

End EngineFacts.

(* ===================================================================== *)
(** * Theorems: what the operations on handles do                         *)
(* ===================================================================== *)

Section HandleOperations.

Import AdblockPlus.

Context `{Externals}.

Implicit Types (iso : V8.Isolate) (this src : JsValue) (v : V8.Value) (w : World).

Lemma same_runtime_handles iso iso' : same_runtime iso iso' -> same_handles iso iso'.
Proof. intros (_ & Hc & Hg & He). repeat split; assumption. Qed.

(** ** Contexts are left as they were found *)

Lemma same_contexts_refl iso : same_contexts iso iso.
Proof. split; reflexivity. Qed.

Lemma same_contexts_trans iso1 iso2 iso3 :
  same_contexts iso1 iso2 -> same_contexts iso2 iso3 -> same_contexts iso1 iso3.
Proof. intros [H1 H2] [H3 H4]. split; congruence. Qed.

Lemma balanced_ret {A} (a : A) : balanced (ret a).
Proof. intros iso r w' [= <- <-] _. eexists. split; [reflexivity|apply same_contexts_refl]. Qed.

Lemma balanced_throw {A} e : balanced (@throw A e).
Proof. intros iso r w' [= <- <-] _. eexists. split; [reflexivity|apply same_contexts_refl]. Qed.

Lemma balanced_undefined {A} : balanced (@undefined_behaviour A).
Proof. intros iso r w' [= <- <-] Hr. congruence. Qed.

Lemma balanced_bind {A B} (m : M A) (k : A -> M B) :
  balanced m -> (forall a, balanced (k a)) -> balanced (bind m k).
Proof.
  intros Hm Hk iso r w'. unfold bind.
  destruct (m (Some iso)) as [[a|e|] w1] eqn:Hmw.
  - destruct (Hm iso _ _ Hmw) as (iso1 & -> & H1); [discriminate|].
    intros Hka Hr. destruct (Hk a iso1 _ _ Hka Hr) as (iso2 & -> & H2).
    eexists. split; [reflexivity|]. eapply same_contexts_trans; eassumption.
  - intros [= <- <-] Hr. apply (Hm iso _ _ Hmw). discriminate.
  - intros [= <- <-] Hr. congruence.
Qed.

Lemma balanced_unwind {A} (m : M A) (cleanup : M unit) :
  balanced m -> balanced cleanup -> balanced (unwind m cleanup).
Proof.
  intros Hm Hc iso r w'. unfold unwind.
  destruct (m (Some iso)) as [[a|e|] w1] eqn:Hmw.
  - intros [= <- <-] Hr. apply (Hm iso _ _ Hmw). discriminate.
  - destruct (Hm iso _ _ Hmw) as (iso1 & -> & H1); [discriminate|].
    destruct (cleanup (Some iso1)) as [[[]|e'|] w2] eqn:Hcw;
      intros [= <- <-] Hr; try congruence.
    destruct (Hc iso1 _ _ Hcw) as (iso2 & -> & H2); [discriminate|].
    eexists. split; [reflexivity|]. eapply same_contexts_trans; eassumption.
  - intros [= <- <-] Hr. congruence.
Qed.

Lemma balanced_JsContext {A} isolate jsContext (body : M A) :
  balanced body -> balanced (JsContext isolate jsContext body).
Proof.
  intros Hb iso r w'. unfold JsContext.
  destruct isolate; [|intros [= <- <-] Hr; congruence].
  destruct jsContext as [c|]; [|intros [= <- <-] Hr; congruence].
  destruct (V8.contexts iso !! c); [|intros [= <- <-] Hr; congruence].
  destruct (body (Some (V8.enter c iso))) as [[a|e|] w1] eqn:Hbw;
    intros [= <- <-] Hr; try congruence.
  - destruct (Hb _ _ _ Hbw) as (iso1 & -> & [Hc He]); [discriminate|].
    eexists. split; [reflexivity|]. cbn in He. unfold V8.exit. rewrite He.
    split; [exact Hc|reflexivity].
  - destruct (Hb _ _ _ Hbw) as (iso1 & -> & [Hc He]); [discriminate|].
    eexists. split; [reflexivity|]. cbn in He. unfold V8.exit. rewrite He.
    split; [exact Hc|reflexivity].
Qed.

Lemma balanced_on_isolate {A} (f : V8.Isolate -> A * V8.Isolate) :
  (forall iso, same_contexts iso (snd (f iso))) -> balanced (on_isolate f).
Proof.
  intros Hf iso r w'. unfold on_isolate. specialize (Hf iso).
  destruct (f iso) as [a iso1]. intros [= <- <-] _.
  eexists. split; [reflexivity|exact Hf].
Qed.

Lemma balanced_get_heap : balanced get_heap.
Proof. apply balanced_on_isolate. intros iso. apply same_contexts_refl. Qed.

Lemma balanced_isolate_alive : balanced isolate_alive.
Proof. intros iso r w' [= <- <-] _. eexists. split; [reflexivity|apply same_contexts_refl]. Qed.

Lemma balanced_CHECKED_TO_LOCAL {A} (value : option A) : balanced (CHECKED_TO_LOCAL value).
Proof. destruct value; [apply balanced_ret|apply balanced_throw]. Qed.

Lemma balanced_CHECKED_TO_VALUE {A} (value : option A) : balanced (CHECKED_TO_VALUE value).
Proof. destruct value; [apply balanced_ret|apply balanced_throw]. Qed.

Lemma balanced_CHECKED_TO_LOCAL_WITH_TRY_CATCH value :
  balanced (CHECKED_TO_LOCAL_WITH_TRY_CATCH value).
Proof.
  destruct value; [apply balanced_ret|].
  apply balanced_bind; [apply balanced_get_heap|intros; apply balanced_throw].
Qed.

Lemma balanced_UnwrapValue this : balanced (UnwrapValue this).
Proof.
  intros iso r w'. unfold UnwrapValue.
  destruct (isolate_ this); [|intros [= <- <-] Hr; congruence].
  destruct (value_ this) as [cell|]; [|intros [= <- <-] Hr; congruence].
  destruct (V8.global_handles iso !! cell); intros [= <- <-] Hr; [|congruence].
  eexists. split; [reflexivity|apply same_contexts_refl].
Qed.

Lemma balanced_context_Global jsContext : balanced (context_Global jsContext).
Proof.
  intros iso r w'. unfold context_Global.
  destruct jsContext as [c|]; [|intros [= <- <-] Hr; congruence].
  destruct (V8.contexts iso !! c); intros [= <- <-] Hr; [|congruence].
  eexists. split; [reflexivity|apply same_contexts_refl].
Qed.

Lemma balanced_Global_new v : balanced (Global_new v).
Proof. apply balanced_on_isolate. intros iso. split; reflexivity. Qed.

Lemma balanced_Global_Reset value : balanced (Global_Reset value).
Proof.
  destruct value; [|apply balanced_ret].
  apply balanced_on_isolate. intros iso. split; reflexivity.
Qed.

Lemma balanced_Global_copy that : balanced (Global_copy that).
Proof.
  destruct that as [cell|]; [|apply balanced_ret].
  intros iso r w'. cbn. destruct (V8.global_handles iso !! cell) as [v|].
  - apply balanced_Global_new.
  - intros [= <- <-] Hr. congruence.
Qed.

Lemma balanced_mapM {A B} (f : A -> M B) (l : list A) :
  (forall a, balanced (f a)) -> balanced (mapM f l).
Proof.
  intros Hf. induction l as [|x l IH]; simpl; [apply balanced_ret|].
  apply balanced_bind; [apply Hf|]. intros y.
  apply balanced_bind; [exact IH|]. intros; apply balanced_ret.
Qed.

Lemma balanced_if {A} (b : bool) (m1 m2 : M A) :
  balanced m1 -> balanced m2 -> balanced (if b then m1 else m2).
Proof. destruct b; trivial. Qed.

Create HintDb balanced.
#[local] Hint Resolve balanced_ret balanced_throw balanced_undefined balanced_get_heap
  balanced_isolate_alive balanced_CHECKED_TO_LOCAL balanced_CHECKED_TO_VALUE
  balanced_CHECKED_TO_LOCAL_WITH_TRY_CATCH balanced_UnwrapValue balanced_context_Global
  balanced_Global_new balanced_Global_Reset balanced_Global_copy : balanced.

Ltac balance :=
  repeat first
    [ progress intros
    | apply balanced_JsContext
    | apply balanced_bind
    | apply balanced_unwind
    | apply balanced_if
    | apply balanced_mapM
    | solve [auto with balanced]
    | match goal with
      | |- balanced (match ?x with _ => _ end) => destruct x
      end ].

Lemma balanced_JsValue_ctor isolate jsContext value :
  balanced (JsValue_ctor isolate jsContext value).
Proof. unfold JsValue_ctor. balance. Qed.

Lemma balanced_JsValue_dtor this : balanced (JsValue_dtor this).
Proof. unfold JsValue_dtor. balance. Qed.

Lemma balanced_destroy_list l : balanced (destroy_list l).
Proof. unfold destroy_list. balance. Qed.

Lemma balanced_assign this src : balanced (assign this src).
Proof. unfold assign. balance. Qed.

Lemma balanced_move_assign this src : balanced (move_assign this src).
Proof. unfold move_assign. balance. Qed.

Lemma balanced_IsObject this : balanced (IsObject this).
Proof. unfold IsObject. balance. Qed.
Lemma balanced_IsArray this : balanced (IsArray this).
Proof. unfold IsArray. balance. Qed.
Lemma balanced_IsFunction this : balanced (IsFunction this).
Proof. unfold IsFunction. balance. Qed.
Lemma balanced_AsString this : balanced (AsString this).
Proof. unfold AsString. balance. Qed.

Lemma balanced_AsList_loop this array indices : forall result,
  balanced (AsList_loop this array indices result).
Proof.
  induction indices as [|i rest IH]; intros result; simpl; [apply balanced_ret|].
  apply balanced_bind; [apply balanced_get_heap|]. intros h.
  apply balanced_bind;
    [apply balanced_unwind; [apply balanced_CHECKED_TO_LOCAL|apply balanced_destroy_list]|].
  intros item.
  apply balanced_bind; [apply balanced_JsValue_ctor|]. intros temporary.
  apply balanced_bind; [apply balanced_move_assign|]. intros pushed.
  apply balanced_bind; [apply balanced_JsValue_dtor|]. intros _. apply IH.
Qed.

Lemma balanced_AsList this : balanced (AsList this).
Proof.
  unfold AsList. apply balanced_bind; [apply balanced_IsArray|]. intros b.
  apply balanced_if; [apply balanced_throw|].
  apply balanced_JsContext, balanced_bind; [apply balanced_UnwrapValue|].
  intros [| | | | |array]; try apply balanced_undefined.
  apply balanced_bind; [apply balanced_get_heap|]. intros h. apply balanced_AsList_loop.
Qed.

Lemma balanced_SetProperty this name val : balanced (SetProperty this name val).
Proof.
  unfold SetProperty. apply balanced_bind; [apply balanced_IsObject|]. intros b.
  apply balanced_if; [apply balanced_throw|].
  apply balanced_JsContext, balanced_bind; [apply balanced_CHECKED_TO_LOCAL|]. intros property.
  apply balanced_bind; [apply balanced_UnwrapValue|].
  intros [| | | | |obj]; try apply balanced_undefined.
  apply balanced_bind; [|balance].
  apply balanced_on_isolate. intros iso.
  destruct (V8.Object_Set _ _ _ _ _). split; reflexivity.
Qed.

Lemma balanced_GetProperty this name : balanced (GetProperty this name).
Proof.
  unfold GetProperty. apply balanced_bind; [apply balanced_IsObject|]. intros b.
  apply balanced_if; [apply balanced_throw|].
  apply balanced_JsContext, balanced_bind; [apply balanced_CHECKED_TO_LOCAL|]. intros property.
  apply balanced_bind; [apply balanced_UnwrapValue|].
  intros [| | | | |obj]; try apply balanced_undefined.
  apply balanced_bind; [apply balanced_get_heap|]. intros h.
  apply balanced_bind; [apply balanced_CHECKED_TO_LOCAL|]. intros found.
  apply balanced_JsValue_ctor.
Qed.

Lemma balanced_GetOwnPropertyNames this : balanced (GetOwnPropertyNames this).
Proof.
  unfold GetOwnPropertyNames. apply balanced_bind; [apply balanced_IsObject|]. intros b.
  apply balanced_if; [apply balanced_throw|].
  apply balanced_JsContext, balanced_bind; [apply balanced_UnwrapValue|].
  intros [| | | | |obj]; try apply balanced_undefined.
  apply balanced_bind; [apply balanced_on_isolate; intros iso; split; reflexivity|].
  intros names.
  apply balanced_bind; [apply balanced_CHECKED_TO_LOCAL|]. intros propertyNames.
  apply balanced_bind; [apply balanced_JsValue_ctor|]. intros temporary.
  apply balanced_bind;
    [apply balanced_unwind; [apply balanced_AsList|apply balanced_JsValue_dtor]|].
  intros properties.
  apply balanced_bind; [apply balanced_JsValue_dtor|]. intros _.
  apply balanced_bind; [apply balanced_mapM, balanced_AsString|]. intros result.
  apply balanced_bind; [apply balanced_destroy_list|]. intros _. apply balanced_ret.
Qed.

Lemma balanced_GetClass this : balanced (GetClass this).
Proof.
  unfold GetClass. apply balanced_bind; [apply balanced_IsObject|]. intros b.
  apply balanced_if; [apply balanced_throw|].
  apply balanced_JsContext, balanced_bind; [apply balanced_UnwrapValue|].
  intros [| | | | |obj]; try apply balanced_undefined.
  apply balanced_bind; [apply balanced_get_heap|]. intros h. apply balanced_ret.
Qed.

Lemma balanced_Call this args thisObj : balanced (Call this args thisObj).
Proof.
  unfold Call. apply balanced_bind; [apply balanced_IsFunction|]. intros b.
  apply balanced_if; [apply balanced_throw|].
  apply balanced_if; [apply balanced_throw|].
  apply balanced_JsContext, balanced_bind; [apply balanced_UnwrapValue|].
  intros [| | | | |func]; try apply balanced_undefined.
  apply balanced_bind; [apply balanced_get_heap|]. intros h.
  apply balanced_bind; [apply balanced_CHECKED_TO_LOCAL_WITH_TRY_CATCH|]. intros result.
  apply balanced_JsValue_ctor.
Qed.

(** X1.  Every operation on a handle leaves the contexts as it found them:
    started on a live engine it either has no defined behaviour, or it
    ends, by returning or by throwing, with the engine alive, the same
    contexts, and the stack of entered contexts as it was.  This holds
    whatever the handle and the arguments are. *)
Theorem contexts_are_left_as_found :
  (forall this, balanced (IsUndefined this) /\ balanced (IsNull this)
                /\ balanced (IsString this) /\ balanced (IsNumber this)
                /\ balanced (IsBool this) /\ balanced (IsObject this)
                /\ balanced (IsArray this) /\ balanced (IsFunction this))
  /\ (forall this, balanced (AsString this) /\ balanced (AsStringBuffer this)
                   /\ balanced (AsInt this) /\ balanced (AsBool this)
                   /\ balanced (AsDouble this) /\ balanced (AsList this))
  /\ (forall this, balanced (GetOwnPropertyNames this) /\ balanced (GetClass this))
  /\ (forall this name, balanced (GetProperty this name))
  /\ (forall this name val, balanced (SetProperty this name val))
  /\ (forall this name val, balanced (SetProperty_string this name val))
  /\ (forall this name val, balanced (SetStringBufferProperty this name val))
  /\ (forall this name val, balanced (SetProperty_int64 this name val))
  /\ (forall this name val, balanced (SetProperty_JsValue this name val))
  /\ (forall this name val, balanced (SetProperty_chars this name val))
  /\ (forall this name val, balanced (SetProperty_bool this name val))
  /\ (forall this args thisObj, balanced (Call this args thisObj))
  /\ (forall this params, balanced (Call_params this params))
  /\ (forall this params thisValue, balanced (Call_params_this this params thisValue))
  /\ (forall this arg, balanced (Call_arg this arg))
  /\ (forall isolate jsContext value, balanced (JsValue_ctor isolate jsContext value))
  /\ (forall this src, balanced (assign this src) /\ balanced (move_assign this src))
  /\ (forall this, balanced (JsValue_dtor this)).
Proof.
  repeat split; intros;
    first
      [ apply balanced_AsList | apply balanced_GetOwnPropertyNames | apply balanced_GetClass
      | apply balanced_GetProperty | apply balanced_SetProperty | apply balanced_Call
      | apply balanced_JsValue_ctor | apply balanced_assign | apply balanced_move_assign
      | apply balanced_JsValue_dtor
      | unfold IsUndefined, IsNull, IsString, IsNumber, IsBool, IsObject, IsArray, IsFunction,
          AsString, AsStringBuffer, AsInt, AsBool, AsDouble,
          SetProperty_string, SetStringBufferProperty, SetProperty_int64,
          SetProperty_JsValue, SetProperty_chars, SetProperty_bool,
          Call_params, Call_params_this, Call_arg;
        repeat first
          [ apply balanced_JsContext | apply balanced_SetProperty | apply balanced_Call
          | apply balanced_bind; [|intros]
          | apply balanced_mapM; intros
          | solve [auto with balanced] ] ].
Qed.

(** ** The loop of [AsList] *)

Lemma JsValue_ctor_run iso c v :
  JsValue_ctor (Some provider) (Some c) v (Some iso)
  = (Returns (handle c (fresh (dom (V8.global_handles iso)))), Some (snd (V8.new_global v iso))).
Proof. reflexivity. Qed.

Lemma JsValue_dtor_blank w : JsValue_dtor blank w = (Returns tt, w).
Proof. reflexivity. Qed.

Lemma AsList_loop_step iso c ctx cell0 array i rest result item :
  V8.contexts iso !! c = Some ctx ->
  V8.Object_Get_index (V8.heap iso) array i = V8.Normal item ->
  AsList_loop (handle c cell0) array (i :: rest) result (Some iso)
  = AsList_loop (handle c cell0) array rest (fst (push_back c (result, iso) item))
      (Some (snd (push_back c (result, iso) item))).
Proof.
  intros Hc Hi. cbn [AsList_loop]. unfold bind at 1. unfold get_heap, on_isolate.
  unfold bind at 1. rewrite Hi. cbn [V8.to_maybe CHECKED_TO_LOCAL]. unfold unwind, ret.
  unfold bind at 1. cbn [handle isolate_ jsContext_ value_]. rewrite JsValue_ctor_run.
  unfold bind at 1. unfold JsValue_move.
  erewrite move_assign_run by exact Hc.
  unfold bind at 1. cbn [snd fst]. rewrite JsValue_dtor_blank. reflexivity.
Qed.

Lemma push_back_fields c acc item :
  V8.heap (snd (push_back c acc item)) = V8.heap (snd acc)
  /\ V8.contexts (snd (push_back c acc item)) = V8.contexts (snd acc)
  /\ V8.entered_contexts (snd (push_back c acc item)) = V8.entered_contexts (snd acc).
Proof. repeat split. Qed.

Lemma pushed_fields c items : forall result iso,
  V8.heap (snd (pushed c items result iso)) = V8.heap iso
  /\ V8.contexts (snd (pushed c items result iso)) = V8.contexts iso
  /\ V8.entered_contexts (snd (pushed c items result iso)) = V8.entered_contexts iso.
Proof.
  induction items as [|item items IH]; intros result iso; [repeat split|].
  unfold pushed in *. cbn [fold_left].
  destruct (push_back c (result, iso) item) as [result1 iso1] eqn:Hp.
  destruct (IH result1 iso1) as (-> & -> & ->).
  pose proof (push_back_fields c (result, iso) item) as Hf. rewrite Hp in Hf. exact Hf.
Qed.

Lemma AsList_loop_app c ctx cell0 array h good items tail :
  Forall2 (fun i item => V8.Object_Get_index h array i = V8.Normal item) good items ->
  forall result iso,
  V8.contexts iso !! c = Some ctx -> V8.heap iso = h ->
  AsList_loop (handle c cell0) array (good ++ tail) result (Some iso)
  = AsList_loop (handle c cell0) array tail (fst (pushed c items result iso))
      (Some (snd (pushed c items result iso))).
Proof.
  induction 1 as [|i item good items Hi Hgood IH]; intros result iso Hc Hh; [reflexivity|].
  cbn [app]. subst h. erewrite AsList_loop_step by eassumption.
  unfold pushed. cbn [fold_left].
  destruct (push_back c (result, iso) item) as [result1 iso1] eqn:Hp.
  apply IH.
  - pose proof (push_back_fields c (result, iso) item) as (_ & Hf & _).
    rewrite Hp in Hf. cbn [snd] in *. rewrite Hf. exact Hc.
  - pose proof (push_back_fields c (result, iso) item) as (Hf & _).
    rewrite Hp in Hf. exact Hf.
Qed.

Lemma pushed_cons c item items result iso :
  pushed c (item :: items) result iso
  = pushed c items (result ++ [handle c (fresh (dom (V8.global_handles iso)))])%list
      (scope c (snd (V8.new_global item iso))).
Proof. reflexivity. Qed.

(** The handles pushed and the cells they hold. *)
Lemma pushed_spec c items : forall result iso,
  exists cells,
    fst (pushed c items result iso) = (result ++ map (handle c) cells)%list
    /\ NoDup cells
    /\ (forall cell, cell ∈ cells -> V8.global_handles iso !! cell = None)
    /\ Forall2 (fun cell item =>
                  V8.global_handles (snd (pushed c items result iso)) !! cell = Some item)
               cells items
    /\ (forall k, k ∉ cells ->
        V8.global_handles (snd (pushed c items result iso)) !! k
        = V8.global_handles iso !! k).
Proof.
  induction items as [|item items IH]; intros result iso.
  - exists []. cbn. rewrite app_nil_r. repeat split; try constructor.
    intros cell Hin. inversion Hin.
  - rewrite pushed_cons.
    set (cell := fresh (dom (V8.global_handles iso))).
    assert (Hgh : V8.global_handles (scope c (snd (V8.new_global item iso)))
                  = <[cell := item]> (V8.global_handles iso)) by reflexivity.
    generalize dependent (scope c (snd (V8.new_global item iso))). intros iso1 Hgh.
    destruct (IH (result ++ [handle c cell])%list iso1)
      as (cells & Hres & Hnd & Hnew & Hall & Hold).
    rewrite Hgh in Hnew, Hold.
    assert (Hfresh : V8.global_handles iso !! cell = None)
      by (apply not_elem_of_dom, is_fresh).
    assert (Hcell : cell ∉ cells).
    { intros Hin. specialize (Hnew _ Hin). rewrite lookup_insert_eq in Hnew. discriminate. }
    exists (cell :: cells). split; [|split; [|split; [|split]]].
    + rewrite Hres. cbn [map]. rewrite <- app_assoc. reflexivity.
    + constructor; assumption.
    + intros k Hin. apply elem_of_cons in Hin as [->|Hin]; [exact Hfresh|].
      specialize (Hnew _ Hin). destruct (decide (k = cell)) as [->|Hne]; [exact Hfresh|].
      rewrite lookup_insert_ne in Hnew by congruence. exact Hnew.
    + constructor; [|exact Hall].
      rewrite (Hold _ Hcell). apply lookup_insert_eq.
    + intros k Hk. apply not_elem_of_cons in Hk as [Hne Hk].
      rewrite (Hold _ Hk). apply lookup_insert_ne. congruence.
Qed.

Lemma exit_fields iso :
  V8.heap (V8.exit iso) = V8.heap iso /\ V8.contexts (V8.exit iso) = V8.contexts iso
  /\ V8.global_handles (V8.exit iso) = V8.global_handles iso
  /\ V8.entered_contexts (V8.exit iso) = tail (V8.entered_contexts iso).
Proof. unfold V8.exit. destruct (V8.entered_contexts iso) eqn:He; cbn; rewrite ?He; auto. Qed.

Lemma unwrap_all_handles iso c ctx cells items :
  V8.contexts iso !! c = Some ctx ->
  Forall2 (fun cell item => V8.global_handles iso !! cell = Some item) cells items ->
  unwrap_all iso (map (handle c) cells) = Some items.
Proof.
  intros Hc. induction 1 as [|cell item cells items Hcell _ IH]; [reflexivity|].
  cbn [map unwrap_all]. rewrite IH. unfold unwraps. cbn [handle isolate_ jsContext_ value_].
  rewrite Hc, Hcell. reflexivity.
Qed.

Lemma AsList_elements_run iso c ctx cell array items :
  V8.contexts iso !! c = Some ctx ->
  V8.global_handles iso !! cell = Some (V8.VObject array) ->
  V8.IsArray (V8.heap iso) (V8.VObject array) = true ->
  array_elements (V8.heap iso) array items ->
  AsList (handle c cell) (Some iso)
  = (Returns (fst (pushed c items [] (V8.enter c (scope c iso)))),
     Some (V8.exit (snd (pushed c items [] (V8.enter c (scope c iso)))))).
Proof.
  intros Hc Hv Ha Hitems. rewrite (AsList_run iso c ctx cell _ Hc Hv), Ha.
  erewrite JsContext_run by exact Hc.
  unfold bind at 1. erewrite UnwrapValue_run by exact Hv.
  unfold bind at 1. unfold get_heap, on_isolate.
  cbn [V8.heap V8.enter scope V8.exit V8.entered_contexts].
  rewrite <- (app_nil_r (indices_below _)).
  erewrite (AsList_loop_app c ctx cell array (V8.heap iso)); [|exact Hitems|exact Hc|reflexivity].
  reflexivity.
Qed.

(** Destroying a list of handles gives their cells back and nothing
    else. *)
Lemma mapM_JsValue_dtor_run c ctx cells : forall iso,
  V8.contexts iso !! c = Some ctx ->
  exists units iso',
    mapM JsValue_dtor (map (handle c) cells) (Some iso) = (Returns units, Some iso')
    /\ V8.heap iso' = V8.heap iso /\ V8.contexts iso' = V8.contexts iso
    /\ V8.entered_contexts iso' = V8.entered_contexts iso
    /\ forall k, V8.global_handles iso' !! k
                 = if decide (k ∈ cells) then None else V8.global_handles iso !! k.
Proof.
  induction cells as [|cell cells IH]; intros iso Hc.
  - exists [], iso. do 4 (split; [reflexivity|]).
    intros k. rewrite decide_False; [reflexivity|]. intros Hin. inversion Hin.
  - cbn [map mapM]. unfold bind at 1. erewrite JsValue_dtor_run by exact Hc.
    destruct (IH (V8.exit (V8.dispose_global cell (V8.enter c iso)))) as
      (units & iso' & Hrun & Hh & Hcs & He & Hg); [exact Hc|].
    unfold bind at 1. rewrite Hrun. eexists _, iso'. split; [reflexivity|].
    split; [exact Hh|]. split; [exact Hcs|]. split; [exact He|].
    intros k. rewrite Hg. cbn [V8.global_handles V8.exit V8.dispose_global V8.enter
                               V8.entered_contexts].
    destruct (decide (k ∈ cells)) as [Hin|Hnin].
    + rewrite decide_True by (apply elem_of_cons; auto). reflexivity.
    + destruct (decide (k = cell)) as [->|Hne].
      * rewrite decide_True by (apply elem_of_cons; auto). apply lookup_delete_eq.
      * rewrite decide_False by (intros Hin; apply elem_of_cons in Hin as [?|?]; auto).
        apply lookup_delete_ne. congruence.
Qed.

Lemma destroy_list_run c ctx cells iso :
  V8.contexts iso !! c = Some ctx ->
  exists iso',
    destroy_list (map (handle c) cells) (Some iso) = (Returns tt, Some iso')
    /\ V8.heap iso' = V8.heap iso /\ V8.contexts iso' = V8.contexts iso
    /\ V8.entered_contexts iso' = V8.entered_contexts iso
    /\ forall k, V8.global_handles iso' !! k
                 = if decide (k ∈ cells) then None else V8.global_handles iso !! k.
Proof.
  intros Hc. destruct (mapM_JsValue_dtor_run c ctx cells iso Hc) as (units & iso' & Hrun & Hrest).
  exists iso'. split; [|exact Hrest]. unfold destroy_list, bind. rewrite Hrun. reflexivity.
Qed.

(** Either every index reads normally, or there is a first one that does
    not. *)
Lemma first_failure h array indices :
  (exists items,
     Forall2 (fun i item => V8.Object_Get_index h array i = V8.Normal item) indices items)
  \/ (exists good items bad exn rest,
        indices = (good ++ bad :: rest)%list
        /\ Forall2 (fun i item => V8.Object_Get_index h array i = V8.Normal item) good items
        /\ V8.Object_Get_index h array bad = V8.Abrupt exn).
Proof.
  induction indices as [|i indices IH]; [left; exists []; constructor|].
  destruct (V8.Object_Get_index h array i) as [item|exn] eqn:Hi.
  - destruct IH as [(items & Hall)|(good & items & bad & exn & rest & -> & Hgood & Hbad)].
    + left. exists (item :: items). constructor; assumption.
    + right. exists (i :: good), (item :: items), bad, exn, rest.
      split; [reflexivity|]. split; [constructor; assumption|exact Hbad].
  - right. exists [], [], i, exn, indices. split; [reflexivity|]. split; [constructor|exact Hi].
Qed.

Lemma AsList_failure_run iso c ctx cell array good items bad exn rest :
  V8.contexts iso !! c = Some ctx ->
  V8.global_handles iso !! cell = Some (V8.VObject array) ->
  V8.IsArray (V8.heap iso) (V8.VObject array) = true ->
  indices_below (V8.Array_Length (V8.heap iso) array) = (good ++ bad :: rest)%list ->
  Forall2 (fun i item => V8.Object_Get_index (V8.heap iso) array i = V8.Normal item)
          good items ->
  V8.Object_Get_index (V8.heap iso) array bad = V8.Abrupt exn ->
  exists iso',
    AsList (handle c cell) (Some iso) = (Throws JsError_empty_value, Some iso')
    /\ same_runtime iso iso'.
Proof.
  intros Hc Hv Ha Hsplit Hgood Hbad. rewrite (AsList_run iso c ctx cell _ Hc Hv), Ha.
  erewrite JsContext_run by exact Hc.
  set (start := V8.enter c (scope c iso)).
  unfold bind at 1. erewrite UnwrapValue_run by exact Hv.
  unfold bind at 1. unfold get_heap, on_isolate.
  change (V8.heap start) with (V8.heap iso). rewrite Hsplit.
  erewrite (AsList_loop_app c ctx cell array (V8.heap iso)); [|exact Hgood|exact Hc|reflexivity].
  destruct (pushed_spec c items [] start) as (cells & Hres & Hnd & Hnew & Hall & Hold).
  destruct (pushed_fields c items [] start) as (Hh & Hcs & He).
  cbn [app] in Hres. rewrite Hres.
  generalize dependent (snd (pushed c items [] start)). intros iso1 Hall Hold Hh Hcs He.
  cbn [AsList_loop]. unfold bind at 1. unfold get_heap, on_isolate.
  unfold bind at 1. rewrite Hh. change (V8.heap start) with (V8.heap iso).
  rewrite Hbad. cbn [V8.to_maybe CHECKED_TO_LOCAL]. unfold unwind, throw.
  destruct (destroy_list_run c ctx cells iso1) as (iso2 & Hrun & Hh2 & Hcs2 & He2 & Hg2).
  { rewrite Hcs. exact Hc. }
  rewrite Hrun. eexists. split; [reflexivity|].
  destruct (exit_fields iso2) as (Hxh & Hxc & Hxg & Hxe).
  unfold same_runtime. rewrite Hxh, Hxc, Hxg, Hxe, Hh2, Hcs2, He2, Hh, Hcs, He.
  repeat split. apply map_eq. intros k. rewrite Hg2.
  destruct (decide (k ∈ cells)) as [Hin|Hnin].
  - symmetry. apply (Hnew k Hin).
  - apply (Hold k Hnin).
Qed.

(** ** The array of names the engine builds *)

Lemma uint_of_key_of_index n :
  NilZero.uint_of_string (V8.key_of_index n) = Some (N.to_uint n).
Proof.
  apply NilZero.usu. destruct n as [|p]; [discriminate|].
  apply DecimalPos.Unsigned.to_uint_nonnil.
Qed.

Lemma key_of_index_inj n m : V8.key_of_index n = V8.key_of_index m -> n = m.
Proof.
  intros Heq. apply DecimalN.Unsigned.to_uint_inj.
  pose proof (uint_of_key_of_index n) as Hn. rewrite Heq, uint_of_key_of_index in Hn.
  congruence.
Qed.

Lemma key_of_index_not_length n : String.eqb (V8.key_of_index n) "length" = false.
Proof.
  destruct (String.eqb_spec (V8.key_of_index n) "length") as [Heq|]; [|reflexivity].
  pose proof (uint_of_key_of_index n) as Hn. rewrite Heq in Hn. discriminate.
Qed.

Lemma find_property_imap (vs : list V8.Value) : forall k i item,
  vs !! i = Some item ->
  V8.find_property (V8.key_of_index (N.of_nat (k + i)))
    (imap (fun j x => (V8.key_of_index (N.of_nat (k + j)), V8.DataProperty x)) vs)
  = Some (V8.DataProperty item).
Proof.
  induction vs as [|x vs IH]; intros k i item Hi; [discriminate|].
  cbn [imap V8.find_property]. destruct i as [|i].
  - injection Hi as ->. rewrite String.eqb_refl. reflexivity.
  - destruct (String.eqb_spec (V8.key_of_index (N.of_nat (k + 0)))
                              (V8.key_of_index (N.of_nat (k + S i)))) as [Heq|_].
    + apply key_of_index_inj, Nat2N.inj in Heq. lia.
    + specialize (IH (S k) i item Hi).
      replace (S k + i)%nat with (k + S i)%nat in IH by lia.
      rewrite <- IH. f_equal. apply imap_ext. intros j y _. cbn.
      replace (k + S j)%nat with (S (k + j))%nat by lia. reflexivity.
Qed.

(** Reading the elements of an array the engine has just built gives the
    values it was built from. *)
Lemma array_elements_array_of_values h addr proto vs :
  h !! addr = Some (V8.array_of_values proto vs) ->
  array_elements h addr vs.
Proof.
  intros Ha. unfold array_elements, V8.Array_Length, indices_below. rewrite Ha.
  cbn [fmap option_fmap option_map V8.kind V8.array_of_values]. rewrite Nat2N.id.
  apply Forall2_same_length_lookup. split; [rewrite length_map, length_seq; reflexivity|].
  intros i n item Hn Hitem.
  change (map N.of_nat (seq 0 (length vs))) with (N.of_nat <$> seq 0 (length vs)) in Hn.
  rewrite list_lookup_fmap in Hn.
  destruct (seq 0 (length vs) !! i) as [j|] eqn:Hj; [|discriminate].
  apply lookup_seq in Hj as [-> _]. injection Hn as <-.
  unfold V8.Object_Get_index, V8.Object_Get, V8.lookup_property. cbn [V8.lookup_chain].
  rewrite Ha. unfold V8.own_property. cbn [V8.kind V8.properties V8.array_of_values].
  rewrite key_of_index_not_length.
  pose proof (find_property_imap vs 0 i item Hitem) as Hfind. cbn [Nat.add] in Hfind.
  rewrite Hfind. reflexivity.
Qed.

Lemma AsString_run iso c ctx cell v :
  V8.contexts iso !! c = Some ctx -> V8.global_handles iso !! cell = Some v ->
  AsString (handle c cell) (Some iso) = (Returns (FromV8String (V8.heap iso) v), Some (scope c iso)).
Proof.
  intros Hc Hv. unfold AsString. cbn [handle isolate_ jsContext_ value_].
  erewrite JsContext_run by eassumption.
  unfold bind. rewrite (UnwrapValue_run _ c cell v) by exact Hv. reflexivity.
Qed.

Lemma mapM_AsString_run c ctx cells : forall items iso,
  V8.contexts iso !! c = Some ctx ->
  Forall2 (fun cell item => V8.global_handles iso !! cell = Some item) cells items ->
  exists iso',
    mapM AsString (map (handle c) cells) (Some iso)
    = (Returns (map (FromV8String (V8.heap iso)) items), Some iso')
    /\ same_runtime iso iso'.
Proof.
  induction cells as [|cell cells IH]; intros items iso Hc Hall;
    inversion Hall as [|? item ? rest Hcell Hrest]; subst.
  - exists iso. split; [reflexivity|]. repeat split.
  - cbn [map mapM]. unfold bind at 1. rewrite (AsString_run iso c ctx cell item Hc Hcell).
    destruct (IH rest (scope c iso) Hc Hrest) as (iso' & Hrun & Hsame).
    unfold bind at 1. rewrite Hrun. exists iso'. split; [reflexivity|].
    destruct Hsame as (Hh & Hcs & Hg & He). repeat split; assumption.
Qed.

Lemma Forall2_elem_of_impl {A B} (P Q : A -> B -> Prop) l k :
  (forall x y, x ∈ l -> P x y -> Q x y) -> Forall2 P l k -> Forall2 Q l k.
Proof.
  intros Himpl Hall. induction Hall as [|x y l k Hxy Hall IH]; constructor.
  - apply Himpl; [apply elem_of_cons; auto|exact Hxy].
  - apply IH. intros x' y' Hin. apply Himpl, elem_of_cons. auto.
Qed.

(** [AsList] on an array whose elements can all be read: one handle per
    element, each with a cell of its own that was free before. *)
Lemma AsList_returns_run iso c ctx cell array items :
  V8.contexts iso !! c = Some ctx ->
  V8.global_handles iso !! cell = Some (V8.VObject array) ->
  V8.IsArray (V8.heap iso) (V8.VObject array) = true ->
  array_elements (V8.heap iso) array items ->
  exists cells iso',
    AsList (handle c cell) (Some iso) = (Returns (map (handle c) cells), Some iso')
    /\ V8.heap iso' = V8.heap iso /\ V8.contexts iso' = V8.contexts iso
    /\ V8.entered_contexts iso' = V8.entered_contexts iso
    /\ NoDup cells
    /\ (forall k, k ∈ cells -> V8.global_handles iso !! k = None)
    /\ Forall2 (fun k item => V8.global_handles iso' !! k = Some item) cells items
    /\ (forall k, k ∉ cells -> V8.global_handles iso' !! k = V8.global_handles iso !! k).
Proof.
  intros Hc Hv Ha Hitems. rewrite (AsList_elements_run iso c ctx cell array items Hc Hv Ha Hitems).
  set (start := V8.enter c (scope c iso)).
  destruct (pushed_spec c items [] start) as (cells & Hres & Hnd & Hnew & Hall & Hold).
  destruct (pushed_fields c items [] start) as (Hh & Hcs & He).
  cbn [app] in Hres. rewrite Hres.
  generalize dependent (snd (pushed c items [] start)). intros iso1 Hall Hold Hh Hcs He.
  exists cells, (V8.exit iso1). split; [reflexivity|].
  destruct (exit_fields iso1) as (Hxh & Hxc & Hxg & Hxe).
  rewrite Hxh, Hxc, Hxg, Hxe, Hh, Hcs, He. repeat split; assumption.
Qed.

(** Reading the strings of a list of handles and destroying the list. *)
Lemma strings_then_destroy_run c ctx cells items iso :
  V8.contexts iso !! c = Some ctx ->
  Forall2 (fun k item => V8.global_handles iso !! k = Some item) cells items ->
  exists iso',
    (result <- mapM AsString (map (handle c) cells) ;;
     destroy_list (map (handle c) cells) ;;;
     ret result) (Some iso)
    = (Returns (map (FromV8String (V8.heap iso)) items), Some iso')
    /\ V8.heap iso' = V8.heap iso /\ V8.contexts iso' = V8.contexts iso
    /\ V8.entered_contexts iso' = V8.entered_contexts iso
    /\ forall k, V8.global_handles iso' !! k
                 = if decide (k ∈ cells) then None else V8.global_handles iso !! k.
Proof.
  intros Hc Hall.
  destruct (mapM_AsString_run c ctx cells items iso Hc Hall)
    as (iso1 & Hrun & Hh & Hcs & Hg & He).
  destruct (destroy_list_run c ctx cells iso1) as (iso2 & Hrun2 & Hh2 & Hcs2 & He2 & Hg2).
  { rewrite Hcs. exact Hc. }
  exists iso2. unfold bind at 1. rewrite Hrun. unfold bind at 1. rewrite Hrun2.
  split; [reflexivity|]. rewrite Hh2, Hcs2, He2, Hh, Hcs, He. repeat split.
  intros k. rewrite Hg2, Hg. reflexivity.
Qed.

Lemma GetOwnPropertyNames_run iso c ctx cell object :
  V8.contexts iso !! c = Some ctx ->
  V8.global_handles iso !! cell = Some (V8.VObject object) ->
  let keys := match V8.heap iso !! object with Some o => V8.own_keys o | None => [] end in
  exists iso',
    GetOwnPropertyNames (handle c cell) (Some iso)
    = (Returns (map (FromV8String (V8.heap iso')) keys), Some iso')
    /\ V8.heap iso'
       = <[fresh (dom (V8.heap iso)) :=
             V8.array_of_values (V8.array_prototype ctx) keys]> (V8.heap iso)
    /\ V8.contexts iso' = V8.contexts iso
    /\ V8.entered_contexts iso' = V8.entered_contexts iso
    /\ V8.global_handles iso' = V8.global_handles iso.
Proof.
  intros Hc Hv keys. unfold GetOwnPropertyNames. unfold bind at 1.
  rewrite (IsObject_run iso c ctx cell _ Hc Hv). cbn [V8.IsObject negb].
  cbn [handle isolate_ jsContext_ value_]. erewrite JsContext_run by exact Hc.
  change (mkJsValue (Some provider) (Some c) (Some cell)) with (handle c cell).
  unfold bind at 1. erewrite UnwrapValue_run by exact Hv.
  unfold bind at 1. unfold on_isolate at 1.
  unfold V8.Object_GetOwnPropertyNames, V8.current_context.
  cbn [V8.heap V8.contexts V8.entered_contexts V8.enter scope V8.exit].
  rewrite Hc. fold keys.
  set (addr := fresh (dom (V8.heap iso))).
  set (names := V8.array_of_values (V8.array_prototype ctx) keys).
  match goal with
  | |- context [V8.set_heap ?h ?i] => set (iso1 := V8.set_heap h i)
  end.
  assert (Hh1 : V8.heap iso1 = <[addr := names]> (V8.heap iso)) by reflexivity.
  assert (Hc1 : V8.contexts iso1 = V8.contexts iso) by reflexivity.
  assert (He1 : V8.entered_contexts iso1 = c :: V8.entered_contexts iso) by reflexivity.
  assert (Hg1 : V8.global_handles iso1 = V8.global_handles iso) by reflexivity.
  clearbody iso1.
  unfold bind at 1. cbn [V8.to_maybe CHECKED_TO_LOCAL]. unfold ret at 1.
  unfold bind at 1. rewrite JsValue_ctor_run.
  set (temp := fresh (dom (V8.global_handles iso1))).
  set (iso2 := snd (V8.new_global (V8.VObject addr) iso1)).
  assert (Hh2 : V8.heap iso2 = V8.heap iso1) by reflexivity.
  assert (Hc2 : V8.contexts iso2 = V8.contexts iso1) by reflexivity.
  assert (He2 : V8.entered_contexts iso2 = V8.entered_contexts iso1) by reflexivity.
  assert (Hg2 : V8.global_handles iso2 = <[temp := V8.VObject addr]> (V8.global_handles iso1))
    by reflexivity.
  assert (Htemp : V8.global_handles iso1 !! temp = None) by apply not_elem_of_dom, is_fresh.
  clearbody iso2 temp.
  destruct (AsList_returns_run iso2 c ctx temp addr keys)
    as (cells & iso3 & Hrun3 & Hh3 & Hc3 & He3 & Hnd & Hnew & Hall & Hold).
  { rewrite Hc2, Hc1. exact Hc. }
  { rewrite Hg2. apply lookup_insert_eq. }
  { unfold V8.IsArray, V8.kind_of. rewrite Hh2, Hh1, lookup_insert_eq. reflexivity. }
  { apply (array_elements_array_of_values _ _ (V8.array_prototype ctx)).
    rewrite Hh2, Hh1. apply lookup_insert_eq. }
  unfold bind at 1. unfold unwind. rewrite Hrun3.
  unfold bind at 1. erewrite JsValue_dtor_run by (rewrite Hc3, Hc2, Hc1; exact Hc).
  set (iso4 := V8.exit (V8.dispose_global temp (V8.enter c iso3))).
  assert (Hh4 : V8.heap iso4 = V8.heap iso3) by reflexivity.
  assert (Hc4 : V8.contexts iso4 = V8.contexts iso3) by reflexivity.
  assert (He4 : V8.entered_contexts iso4 = V8.entered_contexts iso3) by reflexivity.
  assert (Hg4 : V8.global_handles iso4 = delete temp (V8.global_handles iso3)) by reflexivity.
  clearbody iso4.
  assert (Hnot : temp ∉ cells).
  { intros Hin. specialize (Hnew _ Hin). rewrite Hg2, lookup_insert_eq in Hnew. discriminate. }
  destruct (strings_then_destroy_run c ctx cells keys iso4)
    as (iso5 & Hrun5 & Hh5 & Hc5 & He5 & Hg5).
  { rewrite Hc4, Hc3, Hc2, Hc1. exact Hc. }
  { eapply Forall2_elem_of_impl; [|exact Hall]. intros k item Hin Hk. cbn beta in *.
    rewrite Hg4, lookup_delete_ne; [exact Hk|]. intros ->. exact (Hnot Hin). }
  unfold bind at 1. unfold bind at 1 in Hrun5.
  destruct (mapM AsString (map (handle c) cells) (Some iso4)) as [[strings| |] w5] eqn:Hstrings;
    [|discriminate..].
  unfold bind at 1. unfold bind at 1 in Hrun5.
  destruct (destroy_list (map (handle c) cells) w5) as [[[]| |] w6] eqn:Hdestroy;
    [|discriminate..].
  injection Hrun5 as -> ->.
  exists (V8.exit iso5). destruct (exit_fields iso5) as (Hxh & Hxc & Hxg & Hxe).
  rewrite Hxh, Hxc, Hxg, Hxe, Hh5, Hc5, He5, Hh4, Hc4, He4, Hh3, Hc3, He3, Hh2, Hc2, He2,
    Hh1, Hc1, He1.
  split; [reflexivity|]. repeat split.
  apply map_eq. intros k. rewrite Hg5, Hg4.
  destruct (decide (k ∈ cells)) as [Hin|Hnin].
  - specialize (Hnew _ Hin). rewrite Hg2 in Hnew.
    destruct (decide (k = temp)) as [->|Hne]; [rewrite <- Hg1; symmetry; exact Htemp|].
    rewrite lookup_insert_ne, Hg1 in Hnew by congruence. symmetry. exact Hnew.
  - destruct (decide (k = temp)) as [->|Hne].
    + rewrite lookup_delete_eq, <- Hg1. symmetry. exact Htemp.
    + rewrite lookup_delete_ne by congruence. rewrite (Hold _ Hnin), Hg2.
      rewrite lookup_insert_ne by congruence. rewrite Hg1. reflexivity.
Qed.

(** ** Operations that return a new handle *)

Lemma unwraps_handle iso c ctx cell :
  V8.contexts iso !! c = Some ctx -> unwraps iso (handle c cell) = V8.global_handles iso !! cell.
Proof. intros Hc. unfold unwraps. cbn. rewrite Hc. reflexivity. Qed.

Lemma returns_new_handle_intro iso iso' c ctx cell r :
  V8.contexts iso !! c = Some ctx -> V8.contexts iso' = V8.contexts iso ->
  V8.global_handles iso' = <[cell := r]> (V8.global_handles iso) ->
  V8.global_handles iso !! cell = None ->
  returns_new_handle iso r (Returns (handle c cell), Some iso').
Proof.
  intros Hc Hcs Hg Hfree. assert (Hc' : V8.contexts iso' !! c = Some ctx) by (rewrite Hcs; exact Hc).
  exists (handle c cell), iso'. split; [reflexivity|].
  split; [rewrite (unwraps_handle iso' c ctx) by exact Hc'; rewrite Hg; apply lookup_insert_eq|].
  split; [rewrite (unwraps_handle iso c ctx) by exact Hc; exact Hfree|].
  split.
  - intros other v Ho. apply unwraps_inv in Ho as (c1 & ctx1 & cell1 & -> & Hc1 & Hv1).
    unfold unwraps. cbn. rewrite Hcs, Hc1, Hg. rewrite lookup_insert_ne; [exact Hv1|].
    intros <-. congruence.
  - eexists. split; [apply (JsValue_dtor_run iso' c ctx cell Hc')|].
    cbn. rewrite Hg. apply delete_insert_id, Hfree.
Qed.

Lemma returns_new_handle_exit iso iso' r result :
  returns_new_handle iso r (Returns result, Some iso') ->
  returns_new_handle iso r (Returns result, Some (V8.exit iso')).
Proof.
  intros (result' & iso1 & [= <- <-] & Hr & Hfree & Hothers & iso2 & Hd & Hg).
  destruct (exit_fields iso') as (Hxh & Hxc & Hxg & Hxe).
  assert (Hu : forall p, unwraps (V8.exit iso') p = unwraps iso' p).
  { intros p. unfold unwraps. rewrite Hxc, Hxg. reflexivity. }
  exists result, (V8.exit iso'). split; [reflexivity|]. rewrite Hu.
  split; [exact Hr|]. split; [exact Hfree|].
  split; [intros other v Ho; rewrite Hu; apply Hothers, Ho|].
  apply unwraps_inv in Hr as (c & ctx & cell & -> & Hc & Hv).
  change (mkJsValue (Some provider) (Some c) (Some cell)) with (handle c cell) in *.
  rewrite (JsValue_dtor_run iso' c ctx cell Hc) in Hd. injection Hd as <-.
  eexists. split; [apply (JsValue_dtor_run _ c ctx cell); rewrite Hxc; exact Hc|].
  cbn in Hg |- *. rewrite Hxg. exact Hg.
Qed.

Lemma Call_returns_new_handle iso c ctx cell func args receiver r :
  V8.contexts iso !! c = Some ctx ->
  V8.global_handles iso !! cell = Some (V8.VObject func) ->
  V8.IsFunction (V8.heap iso) (V8.VObject func) = true ->
  V8.Function_Call (V8.heap iso) func (V8.VObject receiver) args = V8.Normal r ->
  returns_new_handle iso r (Call (handle c cell) args (V8.VObject receiver) (Some iso)).
Proof.
  intros Hc Hv Hf Hcall.
  destruct (Call_returns iso c ctx cell func args (V8.VObject receiver) r Hc Hv Hf eq_refl Hcall)
    as (cell' & iso' & -> & Hcs & _ & _ & Hg & Hfree).
  apply (returns_new_handle_intro iso iso' c ctx cell' r); assumption.
Qed.

Lemma JsContext_returns {A} (body : M A) iso c ctx a iso' :
  V8.contexts iso !! c = Some ctx ->
  body (Some (V8.enter c iso)) = (Returns a, Some iso') ->
  JsContext (Some provider) (Some c) body (Some iso) = (Returns a, Some (V8.exit iso')).
Proof. intros Hc Hb. erewrite JsContext_run by exact Hc. rewrite Hb. reflexivity. Qed.

Lemma JsContext_returns_new_handle (body : M JsValue) iso c ctx r :
  V8.contexts iso !! c = Some ctx ->
  returns_new_handle (V8.enter c iso) r (body (Some (V8.enter c iso))) ->
  returns_new_handle iso r (JsContext (Some provider) (Some c) body (Some iso)).
Proof.
  intros Hc Hb. pose proof Hb as (result & iso' & Hrun & _).
  erewrite JsContext_returns by eassumption.
  apply returns_new_handle_exit. rewrite Hrun in Hb. exact Hb.
Qed.

(** X10.  Calling a function that returns: the result comes back in a new
    handle, whose destruction gives its cell back.  The overloads taking
    handles pass the values the handles stand for, in order, and those
    without a receiver pass the global object of the handle's context. *)
Theorem Call_returns_a_handle_for_the_result iso this func args receiver r :
  unwraps iso this = Some (V8.VObject func) ->
  function_object (V8.heap iso) (V8.VObject func) ->
  V8.Function_Call (V8.heap iso) func (V8.VObject receiver) args = V8.Normal r ->
  returns_new_handle iso r (Call this args (V8.VObject receiver) (Some iso))
  /\ (forall params thisValue,
        unwrap_all iso params = Some args ->
        unwraps iso thisValue = Some (V8.VObject receiver) ->
        returns_new_handle iso r (Call_params_this this params thisValue (Some iso)))
  /\ (forall params c ctx,
        unwrap_all iso params = Some args ->
        jsContext_ this = Some c -> V8.contexts iso !! c = Some ctx ->
        receiver = V8.global_object ctx ->
        returns_new_handle iso r (Call_params this params (Some iso)))
  /\ (forall arg local c ctx,
        unwraps iso arg = Some local -> args = [local] ->
        jsContext_ this = Some c -> V8.contexts iso !! c = Some ctx ->
        receiver = V8.global_object ctx ->
        returns_new_handle iso r (Call_arg this arg (Some iso))).
Proof.
  intros Hu Hf Hcall. apply unwraps_inv in Hu as (c & ctx & cell & -> & Hc & Hv).
  change (mkJsValue (Some provider) (Some c) (Some cell)) with (handle c cell).
  apply IsFunction_spec in Hf.
  assert (Hin : returns_new_handle (V8.enter c iso) r
                  (Call (handle c cell) args (V8.VObject receiver) (Some (V8.enter c iso)))).
  { apply (Call_returns_new_handle _ c ctx cell func); assumption. }
  split; [apply (Call_returns_new_handle iso c ctx cell func); assumption|].
  split; [|split].
  - intros params thisValue Hp Ht.
    apply unwraps_inv in Ht as (c' & ctx' & cell' & -> & Hc' & Hv').
    unfold Call_params_this. cbn [handle isolate_ jsContext_ value_].
    apply (JsContext_returns_new_handle _ iso c ctx r Hc).
    unfold bind.
    change (mkJsValue (Some provider) (Some c') (Some cell')) with (handle c' cell').
    erewrite UnwrapValue_run by exact Hv'.
    erewrite (mapM_UnwrapValue_run iso) by first [exact Hp | reflexivity].
    exact Hin.
  - intros params c0 ctx0 Hp [= <-] Hc0 ->. rewrite Hc in Hc0. injection Hc0 as <-.
    unfold Call_params. cbn [handle isolate_ jsContext_ value_].
    apply (JsContext_returns_new_handle _ iso c ctx r Hc).
    unfold bind.
    erewrite (mapM_UnwrapValue_run iso) by first [exact Hp | reflexivity].
    erewrite context_Global_run by exact Hc. exact Hin.
  - intros arg local c0 ctx0 Ha -> [= <-] Hc0 ->. rewrite Hc in Hc0. injection Hc0 as <-.
    apply unwraps_inv in Ha as (c' & ctx' & cell' & -> & Hc' & Hv').
    unfold Call_arg. cbn [handle isolate_ jsContext_ value_].
    apply (JsContext_returns_new_handle _ iso c ctx r Hc).
    unfold bind.
    change (mkJsValue (Some provider) (Some c') (Some cell')) with (handle c' cell').
    erewrite UnwrapValue_run by exact Hv'.
    erewrite context_Global_run by exact Hc. exact Hin.
Qed.

Lemma GetProperty_returns_new_handle iso c ctx cell obj name key r :
  V8.contexts iso !! c = Some ctx ->
  V8.global_handles iso !! cell = Some (V8.VObject obj) ->
  ToV8String name = Some key ->
  V8.Object_Get (V8.heap iso) obj key = V8.Normal r ->
  returns_new_handle iso r (GetProperty (handle c cell) name (Some iso)).
Proof.
  intros Hc Hv Hk Hl. rewrite (GetProperty_unfold iso c ctx cell _ name Hc Hv).
  cbn [V8.IsObject negb].
  apply (JsContext_returns_new_handle _ (scope c iso) c ctx r Hc).
  rewrite Hk. unfold bind, CHECKED_TO_LOCAL, ret, get_heap, on_isolate.
  change (V8.heap (V8.enter c (scope c iso))) with (V8.heap iso). rewrite Hl.
  cbn [V8.to_maybe]. rewrite JsValue_ctor_run.
  eapply (returns_new_handle_intro iso _ c ctx); [exact Hc|reflexivity|reflexivity|].
  apply not_elem_of_dom, is_fresh.
Qed.

Lemma GetProperty_fails iso c ctx cell obj name :
  V8.contexts iso !! c = Some ctx ->
  V8.global_handles iso !! cell = Some (V8.VObject obj) ->
  match ToV8String name with
  | Some key => exists exn, V8.Object_Get (V8.heap iso) obj key = V8.Abrupt exn
  | None => True
  end ->
  exists iso',
    GetProperty (handle c cell) name (Some iso) = (Throws JsError_empty_value, Some iso')
    /\ same_runtime iso iso'.
Proof.
  intros Hc Hv Hk. rewrite (GetProperty_unfold iso c ctx cell _ name Hc Hv).
  cbn [V8.IsObject negb]. erewrite JsContext_run by exact Hc.
  destruct (ToV8String name) as [key|].
  - destruct Hk as (exn & Hexn). unfold bind, CHECKED_TO_LOCAL, ret, get_heap, on_isolate.
    change (V8.heap (V8.enter c (scope c iso))) with (V8.heap iso). rewrite Hexn.
    eexists. split; [reflexivity|]. repeat split.
  - eexists. split; [reflexivity|]. repeat split.
Qed.

(** X7.  Reading a property of an object: the handle returned is a new one
    for what the engine's [Get] gives (the value of a data property, the
    result of a getter, undefined for a property that is not there), and
    destroying it gives its cell back.  When the getter throws, or the name
    cannot be turned into a key, the failure is a conversion error and the
    cells and contexts are as they were. *)
Theorem GetProperty_reads_through_the_engine iso this obj name :
  unwraps iso this = Some (V8.VObject obj) ->
  match ToV8String name with
  | Some key =>
      match V8.Object_Get (V8.heap iso) obj key with
      | V8.Normal r => returns_new_handle iso r (GetProperty this name (Some iso))
      | V8.Abrupt _ =>
          exists iso', GetProperty this name (Some iso) = (Throws JsError_empty_value, Some iso')
                       /\ same_handles iso iso'
      end
  | None =>
      exists iso', GetProperty this name (Some iso) = (Throws JsError_empty_value, Some iso')
                   /\ same_handles iso iso'
  end.
Proof.
  intros Hu. apply unwraps_inv in Hu as (c & ctx & cell & -> & Hc & Hv).
  change (mkJsValue (Some provider) (Some c) (Some cell)) with (handle c cell).
  destruct (ToV8String name) as [key|] eqn:Hk.
  - destruct (V8.Object_Get (V8.heap iso) obj key) as [r|exn] eqn:Hget.
    + apply (GetProperty_returns_new_handle iso c ctx cell obj name key); assumption.
    + destruct (GetProperty_fails iso c ctx cell obj name Hc Hv) as (iso' & Hrun & Hsame);
        [rewrite Hk; eauto|].
      exists iso'. split; [exact Hrun|apply same_runtime_handles, Hsame].
  - destruct (GetProperty_fails iso c ctx cell obj name Hc Hv) as (iso' & Hrun & Hsame);
      [rewrite Hk; exact I|].
    exists iso'. split; [exact Hrun|apply same_runtime_handles, Hsame].
Qed.

(** ** Copy assignment onto itself *)

(** X12.  Copy assignment of a handle to itself is safe: the handle stands
    for the same value afterwards (in a new cell, the old one having been
    released), the engine holds as many cells as before, and the other
    handles are untouched. *)
Theorem self_assignment_keeps_the_value iso this v :
  unwraps iso this = Some v ->
  exists this' iso',
    assign this this (Some iso) = (Returns this', Some iso')
    /\ unwraps iso' this' = Some v
    /\ isolate_ this' = isolate_ this /\ jsContext_ this' = jsContext_ this
    /\ size (V8.global_handles iso') = size (V8.global_handles iso)
    /\ (forall other v', value_ other <> value_ this ->
        unwraps iso other = Some v' -> unwraps iso' other = Some v').
Proof.
  intros Hu. apply unwraps_inv in Hu as (c & ctx & cell & -> & Hc & Hv).
  change (mkJsValue (Some provider) (Some c) (Some cell)) with (handle c cell).
  rewrite (assign_run iso (handle c cell) c ctx cell v Hc Hv).
  set (cell' := fresh (dom (V8.global_handles iso))).
  assert (Hfree : V8.global_handles iso !! cell' = None) by apply not_elem_of_dom, is_fresh.
  assert (Hne : cell' <> cell) by congruence.
  eexists _, _. split; [reflexivity|].
  cbn [release handle value_ isolate_ jsContext_].
  split.
  { rewrite (unwraps_handle _ c ctx) by exact Hc. cbn. fold cell'.
    rewrite lookup_delete_ne by congruence. apply lookup_insert_eq. }
  split; [reflexivity|]. split; [reflexivity|]. split.
  { cbn. fold cell'. rewrite map_size_delete, lookup_insert_ne by congruence.
    rewrite Hv. rewrite map_size_insert_None by exact Hfree. lia. }
  intros other v' Hother Ho. apply unwraps_inv in Ho as (c1 & ctx1 & cell1 & -> & Hc1 & Hv1).
  cbn in Hother. unfold unwraps. cbn. rewrite Hc1. fold cell'.
  rewrite lookup_delete_ne by congruence.
  rewrite lookup_insert_ne by congruence. exact Hv1.
Qed.

(** ** Where a [TypeError] can come from *)

Lemma JsContext_outcome {A} (body : M A) iso c ctx :
  V8.contexts iso !! c = Some ctx ->
  fst (JsContext (Some provider) (Some c) body (Some iso)) = fst (body (Some (V8.enter c iso))).
Proof.
  intros Hc. erewrite JsContext_run by exact Hc.
  destruct (body (Some (V8.enter c iso))) as [[a|e|] w']; reflexivity.
Qed.

Lemma no_TypeError_JsContext {A} (body : M A) iso c ctx :
  V8.contexts iso !! c = Some ctx ->
  ~ raises TypeError (body (Some (V8.enter c iso))) ->
  ~ raises TypeError (JsContext (Some provider) (Some c) body (Some iso)).
Proof.
  intros Hc Hb (e & He & Hk). apply Hb. exists e.
  rewrite (JsContext_outcome body iso c ctx Hc) in He. auto.
Qed.

Lemma no_TypeError_empty_value {A} w :
  ~ raises TypeError (@Throws A JsError_empty_value, w).
Proof. intros (e & [= <-] & Hk). discriminate. Qed.

Lemma no_TypeError_Returns {A} (a : A) w : ~ raises TypeError (Returns a, w).
Proof. intros (e & He & _). discriminate. Qed.

Lemma SetProperty_object_no_TypeError iso c ctx cell obj name val :
  V8.contexts iso !! c = Some ctx ->
  V8.global_handles iso !! cell = Some (V8.VObject obj) ->
  ~ raises TypeError (SetProperty (handle c cell) name val (Some iso)).
Proof.
  intros Hc Hv. destruct (ToV8String name) as [key|] eqn:Hk.
  - rewrite (SetProperty_run iso c ctx cell obj name key val Hc Hv Hk).
    destruct (fst (V8.Object_Set StringToNumber (V8.heap iso) obj key val));
      [apply no_TypeError_Returns|apply no_TypeError_empty_value].
  - unfold SetProperty, bind at 1.
    rewrite (IsObject_run iso c ctx cell _ Hc Hv). cbn [V8.IsObject negb].
    cbn [handle isolate_ jsContext_ value_].
    erewrite JsContext_run by exact Hc. rewrite Hk. apply no_TypeError_empty_value.
Qed.

Lemma UnwrapValue_pure this w r w' :
  UnwrapValue this w = (r, w') -> w' = w /\ forall e, r <> Throws e.
Proof.
  unfold UnwrapValue. destruct (isolate_ this); [|intros [= <- <-]; split; [reflexivity|discriminate]].
  destruct (value_ this) as [cell|]; [|intros [= <- <-]; split; [reflexivity|discriminate]].
  destruct w as [iso|]; [|intros [= <- <-]; split; [reflexivity|discriminate]].
  destruct (V8.global_handles iso !! cell); intros [= <- <-]; split;
    first [reflexivity|discriminate].
Qed.

Lemma mapM_UnwrapValue_pure params : forall w r w',
  mapM UnwrapValue params w = (r, w') -> w' = w /\ forall e, r <> Throws e.
Proof.
  induction params as [|p rest IH]; intros w r w'; cbn [mapM].
  - intros [= <- <-]. split; [reflexivity|discriminate].
  - unfold bind at 1. destruct (UnwrapValue p w) as [[x|e|] w1] eqn:Hp;
      destruct (UnwrapValue_pure _ _ _ _ Hp) as [-> Hne].
    + unfold bind at 1. destruct (mapM UnwrapValue rest w) as [[xs|e|] w1] eqn:Hrest;
        destruct (IH _ _ _ Hrest) as (-> & Hr); intros [= <- <-];
        (split; [reflexivity|]); try discriminate. exact Hr.
    + exfalso. exact (Hne e eq_refl).
    + intros [= <- <-]. split; [reflexivity|discriminate].
Qed.

Lemma no_TypeError_after_UnwrapValue {A} this (k : V8.Value -> M A) w :
  (forall local, ~ raises TypeError (k local w)) ->
  ~ raises TypeError ((local <- UnwrapValue this ;; k local) w).
Proof.
  intros Hk. unfold bind.
  destruct (UnwrapValue this w) as [[local|e|] w'] eqn:Hp;
    destruct (UnwrapValue_pure _ _ _ _ Hp) as [-> Hne].
  - apply Hk.
  - exfalso. exact (Hne e eq_refl).
  - intros (e & He & _). discriminate.
Qed.

Lemma Call_function_no_TypeError iso c ctx cell func args receiver :
  V8.contexts iso !! c = Some ctx ->
  V8.global_handles iso !! cell = Some (V8.VObject func) ->
  V8.IsFunction (V8.heap iso) (V8.VObject func) = true ->
  ~ raises TypeError (Call (handle c cell) args (V8.VObject receiver) (Some iso)).
Proof.
  intros Hc Hv Hf.
  destruct (V8.Function_Call (V8.heap iso) func (V8.VObject receiver) args) as [r|exn] eqn:Hcall.
  - destruct (Call_returns iso c ctx cell func args (V8.VObject receiver) r Hc Hv Hf eq_refl Hcall)
      as (cell' & iso' & -> & _). apply no_TypeError_Returns.
  - rewrite (Call_raises iso c ctx cell func args (V8.VObject receiver) exn Hc Hv Hf eq_refl Hcall).
    intros (e & [= <-] & Hk). discriminate.
Qed.

Lemma no_TypeError_after_unwrapping {A} params (k : list V8.Value -> M A) w :
  (forall argv, ~ raises TypeError (k argv w)) ->
  ~ raises TypeError ((argv <- mapM UnwrapValue params ;; k argv) w).
Proof.
  intros Hk. unfold bind.
  destruct (mapM UnwrapValue params w) as [[argv|e|] w'] eqn:Hp;
    destruct (mapM_UnwrapValue_pure params _ _ _ Hp) as [-> Hne].
  - apply Hk.
  - exfalso. exact (Hne e eq_refl).
  - intros (e & He & _). discriminate.
Qed.

(** X11.  On a handle for an object, reading, writing and listing
    properties and asking for the class never raise a [TypeError]; on a
    handle for a function, neither does a call whose receiver is an
    object, among them every call that leaves the receiver to default to
    the global object. *)
Theorem TypeError_only_from_the_kind_checks iso this obj :
  unwraps iso this = Some (V8.VObject obj) ->
  (forall name, ~ raises TypeError (GetProperty this name (Some iso)))
  /\ (forall name val, ~ raises TypeError (SetProperty this name val (Some iso)))
  /\ (forall name val, ~ raises TypeError (SetProperty_string this name val (Some iso)))
  /\ (forall name val, ~ raises TypeError (SetStringBufferProperty this name val (Some iso)))
  /\ (forall name val, ~ raises TypeError (SetProperty_int64 this name val (Some iso)))
  /\ (forall name val, ~ raises TypeError (SetProperty_JsValue this name val (Some iso)))
  /\ (forall name val, ~ raises TypeError (SetProperty_chars this name val (Some iso)))
  /\ (forall name val, ~ raises TypeError (SetProperty_bool this name val (Some iso)))
  /\ ~ raises TypeError (GetOwnPropertyNames this (Some iso))
  /\ ~ raises TypeError (GetClass this (Some iso))
  /\ (function_object (V8.heap iso) (V8.VObject obj) ->
      (forall args receiver,
         ~ raises TypeError (Call this args (V8.VObject receiver) (Some iso)))
      /\ (forall params, ~ raises TypeError (Call_params this params (Some iso)))
      /\ (forall arg, ~ raises TypeError (Call_arg this arg (Some iso)))
      /\ (forall params thisValue receiver,
            unwraps iso thisValue = Some (V8.VObject receiver) ->
            ~ raises TypeError (Call_params_this this params thisValue (Some iso)))).
Proof.
  intros Hu. apply unwraps_inv in Hu as (c & ctx & cell & -> & Hc & Hv).
  change (mkJsValue (Some provider) (Some c) (Some cell)) with (handle c cell).
  assert (Hset : forall name val,
            ~ raises TypeError (SetProperty (handle c cell) name val (Some (V8.enter c iso)))).
  { intros name val. apply (SetProperty_object_no_TypeError _ c ctx cell obj); assumption. }
  assert (Hscoped : forall (body : M unit),
            ~ raises TypeError (body (Some (V8.enter c iso))) ->
            ~ raises TypeError (JsContext (Some provider) (Some c) body (Some iso))).
  { intros body. apply no_TypeError_JsContext with (ctx := ctx), Hc. }
  split.
  { intros name. destruct (ToV8String name) as [key|] eqn:Hk.
    - destruct (V8.Object_Get (V8.heap iso) obj key) as [r|exn] eqn:Hget.
      + destruct (GetProperty_returns_new_handle iso c ctx cell obj name key r Hc Hv Hk Hget)
          as (result & iso' & -> & _). apply no_TypeError_Returns.
      + destruct (GetProperty_fails iso c ctx cell obj name Hc Hv) as (iso' & -> & _);
          [rewrite Hk; eauto|]. apply no_TypeError_empty_value.
    - destruct (GetProperty_fails iso c ctx cell obj name Hc Hv) as (iso' & -> & _);
        [rewrite Hk; exact I|]. apply no_TypeError_empty_value. }
  split; [intros name val; apply (SetProperty_object_no_TypeError _ c ctx cell obj); assumption|].
  split.
  { intros name val. unfold SetProperty_string. cbn [handle isolate_ jsContext_ value_].
    apply Hscoped. unfold bind. destruct (ToV8String val) as [local|];
      [apply Hset|apply no_TypeError_empty_value]. }
  split.
  { intros name val. unfold SetStringBufferProperty. cbn [handle isolate_ jsContext_ value_].
    apply Hscoped. unfold bind. destruct (StringBufferToV8String val) as [local|];
      [apply Hset|apply no_TypeError_empty_value]. }
  split.
  { intros name val. unfold SetProperty_int64. cbn [handle isolate_ jsContext_ value_].
    apply Hscoped, Hset. }
  split.
  { intros name val. unfold SetProperty_JsValue. cbn [handle isolate_ jsContext_ value_].
    apply Hscoped, no_TypeError_after_UnwrapValue. intros local. apply Hset. }
  split.
  { intros name val. unfold SetProperty_chars. cbn [handle isolate_ jsContext_ value_].
    apply Hscoped. unfold bind. destruct (NewFromUtf8 val) as [local|];
      [apply Hset|apply no_TypeError_empty_value]. }
  split.
  { intros name val. unfold SetProperty_bool. cbn [handle isolate_ jsContext_ value_].
    apply Hscoped, Hset. }
  split.
  { destruct (GetOwnPropertyNames_run iso c ctx cell obj Hc Hv) as (iso' & -> & _).
    apply no_TypeError_Returns. }
  split.
  { unfold GetClass, bind at 1. rewrite (IsObject_run iso c ctx cell _ Hc Hv).
    cbn [V8.IsObject negb handle isolate_ jsContext_ value_].
    erewrite JsContext_run by exact Hc. unfold bind at 1.
    change (mkJsValue (Some provider) (Some c) (Some cell)) with (handle c cell).
    erewrite UnwrapValue_run by exact Hv. apply no_TypeError_Returns. }
  intros Hf. apply IsFunction_spec in Hf.
  assert (Hcall : forall args receiver,
            ~ raises TypeError
                (Call (handle c cell) args (V8.VObject receiver) (Some (V8.enter c iso)))).
  { intros args receiver. apply (Call_function_no_TypeError _ c ctx cell obj); assumption. }
  assert (Hscoped' : forall (body : M JsValue),
            ~ raises TypeError (body (Some (V8.enter c iso))) ->
            ~ raises TypeError (JsContext (Some provider) (Some c) body (Some iso))).
  { intros body. apply no_TypeError_JsContext with (ctx := ctx), Hc. }
  split; [intros args receiver;
          apply (Call_function_no_TypeError _ c ctx cell obj); assumption|].
  split.
  { intros params. unfold Call_params. cbn [handle isolate_ jsContext_ value_].
    apply Hscoped', no_TypeError_after_unwrapping. intros argv. unfold bind.
    erewrite context_Global_run by exact Hc. apply Hcall. }
  split.
  { intros arg. unfold Call_arg. cbn [handle isolate_ jsContext_ value_].
    apply Hscoped', no_TypeError_after_UnwrapValue. intros local. unfold bind.
    erewrite context_Global_run by exact Hc. apply Hcall. }
  intros params thisValue receiver Ht.
  apply unwraps_inv in Ht as (c' & ctx' & cell' & -> & Hc' & Hv').
  unfold Call_params_this. cbn [handle isolate_ jsContext_ value_].
  apply Hscoped'. unfold bind at 1.
  change (mkJsValue (Some provider) (Some c') (Some cell')) with (handle c' cell').
  erewrite UnwrapValue_run by exact Hv'.
  apply no_TypeError_after_unwrapping. intros argv. apply Hcall.
Qed.

(** ** Predicates and conversions to text *)

Lemma query_answers {A} (f : gmap nat V8.JsObject -> V8.Value -> A) (P : A -> Prop) iso this v :
  unwraps iso this = Some v -> P (f (V8.heap iso) v) ->
  answers same_runtime iso
    (JsContext (isolate_ this) (jsContext_ this)
       (value <- UnwrapValue this ;; h <- get_heap ;; ret (f h value))) P.
Proof.
  intros Hu HP. destruct (JsContext_query f iso this v Hu) as (c & _ & Hrun).
  eexists _, _. split; [exact Hrun|]. split; [exact HP|]. repeat split.
Qed.

Lemma IsObject_spec v : V8.IsObject v = true <-> exists a, v = V8.VObject a.
Proof.
  destruct v; cbn; split; try discriminate; try (intros (a & Ha); discriminate); eauto.
Qed.

(** X2.  On a live handle the eight predicates and [AsBool] always return:
    the answer says what the value is (for [AsBool], its truth value in
    the engine), and the heap, the contexts and the cells of the engine
    are as before. *)
Theorem predicates_answer_without_touching_the_engine iso this v :
  unwraps iso this = Some v ->
  answers same_runtime iso (IsUndefined this) (fun b => b = true <-> v = V8.VUndefined)
  /\ answers same_runtime iso (IsNull this) (fun b => b = true <-> v = V8.VNull)
  /\ answers same_runtime iso (IsString this)
       (fun b => b = true <-> string_primitive v \/ String_wrapper (V8.heap iso) v)
  /\ answers same_runtime iso (IsNumber this)
       (fun b => b = true <-> number_primitive v \/ Number_wrapper (V8.heap iso) v)
  /\ answers same_runtime iso (IsBool this)
       (fun b => b = true <-> boolean_primitive v \/ Boolean_wrapper (V8.heap iso) v)
  /\ answers same_runtime iso (IsObject this) (fun b => b = true <-> exists a, v = V8.VObject a)
  /\ answers same_runtime iso (IsArray this) (fun b => b = true <-> array_object (V8.heap iso) v)
  /\ answers same_runtime iso (IsFunction this) (fun b => b = true <-> function_object (V8.heap iso) v)
  /\ answers same_runtime iso (AsBool this) (fun b => b = V8.BooleanValue v).
Proof.
  intros Hu.
  assert (Hpure : forall (f : V8.Value -> bool) (P : bool -> Prop), P (f v) ->
            answers same_runtime iso (JsContext (isolate_ this) (jsContext_ this)
                           (value <- UnwrapValue this ;; ret (f value))) P).
  { intros f P HP. pose proof (query_answers (fun _ => f) P iso this v Hu HP) as Hq.
    destruct Hq as (a & iso' & Hrun & Ha & Hsame). exists a, iso'. split; [|auto].
    rewrite <- Hrun. apply unwraps_inv in Hu as (c & ctx & cell & -> & Hc & Hv).
    cbn [isolate_ jsContext_]. erewrite !JsContext_run by exact Hc.
    unfold bind. change (mkJsValue (Some provider) (Some c) (Some cell)) with (handle c cell).
    erewrite UnwrapValue_run by exact Hv. reflexivity. }
  split; [apply Hpure; destruct v; cbn; split; congruence|].
  split; [apply Hpure; destruct v; cbn; split; congruence|].
  split.
  { apply (query_answers (fun h x => V8.IsString x || V8.IsStringObject h x) _ iso this v Hu).
    rewrite orb_true_iff, IsStringObject_spec. unfold string_primitive.
    destruct v; cbn; split; intros [Hs|Hs]; auto; try discriminate;
      try (destruct Hs; discriminate); eauto. }
  split.
  { apply (query_answers (fun h x => V8.IsNumber x || V8.IsNumberObject h x) _ iso this v Hu).
    rewrite orb_true_iff, IsNumberObject_spec. unfold number_primitive.
    destruct v; cbn; split; intros [Hs|Hs]; auto; try discriminate;
      try (destruct Hs; discriminate); eauto. }
  split.
  { apply (query_answers (fun h x => V8.IsBoolean x || V8.IsBooleanObject h x) _ iso this v Hu).
    rewrite orb_true_iff, IsBooleanObject_spec. unfold boolean_primitive.
    destruct v; cbn; split; intros [Hs|Hs]; auto; try discriminate;
      try (destruct Hs; discriminate); eauto. }
  split; [apply Hpure, IsObject_spec|].
  split; [apply (query_answers V8.IsArray _ iso this v Hu), IsArray_spec|].
  split; [apply (query_answers V8.IsFunction _ iso this v Hu), IsFunction_spec|].
  apply Hpure. reflexivity.
Qed.


(** X3.  [GetClass] checks for an object first: on a handle for anything
    else it raises the [TypeError] of the source, on a handle for an
    object it returns the text of the constructor name the engine gives.
    [AsString] and [AsStringBuffer] have no check and do not fail: they
    convert whatever the handle holds.  None of them changes the contexts
    or the cells. *)
Theorem string_conversions_as_the_code_has_them iso this v :
  unwraps iso this = Some v ->
  (not_an_object v ->
   exists iso',
     GetClass this (Some iso)
     = (Throws (runtime_error "Cannot get constructor of a non-object"), Some iso')
     /\ error_kind (runtime_error "Cannot get constructor of a non-object") = TypeError
     /\ same_handles iso iso')
  /\ (forall obj, v = V8.VObject obj ->
      answers same_handles iso (GetClass this)
        (fun s => s = FromV8String (V8.heap iso) (GetConstructorName (V8.heap iso) obj)))
  /\ answers same_handles iso (AsString this) (fun s => s = FromV8String (V8.heap iso) v)
  /\ answers same_handles iso (AsStringBuffer this)
       (fun s => s = StringBufferFromV8String (V8.heap iso) v).
Proof.
  intros Hu. split; [|split; [|split]].
  - intros Hn. apply unwraps_inv in Hu as (c & ctx & cell & -> & Hc & Hv).
    change (mkJsValue (Some provider) (Some c) (Some cell)) with (handle c cell).
    unfold GetClass, bind. cbv beta. rewrite (IsObject_run iso c ctx cell v Hc Hv).
    rewrite (not_an_object_IsObject v Hn). cbn [negb].
    eexists. split; [reflexivity|]. split; [reflexivity|]. repeat split.
  - intros obj ->. apply unwraps_inv in Hu as (c & ctx & cell & -> & Hc & Hv).
    change (mkJsValue (Some provider) (Some c) (Some cell)) with (handle c cell).
    unfold answers, GetClass, bind at 1. cbv beta. rewrite (IsObject_run iso c ctx cell _ Hc Hv).
    cbn [V8.IsObject negb handle isolate_ jsContext_ value_].
    erewrite JsContext_run by exact Hc. unfold bind at 1.
    change (mkJsValue (Some provider) (Some c) (Some cell)) with (handle c cell).
    erewrite UnwrapValue_run by exact Hv.
    eexists _, _. split; [reflexivity|]. split; [reflexivity|]. repeat split.
  - destruct (query_answers FromV8String (fun s => s = FromV8String (V8.heap iso) v)
                iso this v Hu eq_refl) as (a & iso' & Hrun & Ha & Hsame).
    exists a, iso'. split; [exact Hrun|]. split; [exact Ha|apply same_runtime_handles, Hsame].
  - destruct (query_answers StringBufferFromV8String
                (fun s => s = StringBufferFromV8String (V8.heap iso) v)
                iso this v Hu eq_refl) as (a & iso' & Hrun & Ha & Hsame).
    exists a, iso'. split; [exact Hrun|]. split; [exact Ha|apply same_runtime_handles, Hsame].
Qed.

(** ** Writing a property and reading it back *)

Lemma SetProperty_stores iso c ctx cell obj o name key val :
  V8.contexts iso !! c = Some ctx ->
  V8.global_handles iso !! cell = Some (V8.VObject obj) ->
  V8.heap iso !! obj = Some o -> V8.kind o = V8.JSObject ->
  ToV8String name = Some key ->
  (forall g s, V8.lookup_property (V8.heap iso) obj key <> Some (V8.AccessorProperty g s)) ->
  exists iso1,
    SetProperty (handle c cell) name val (Some iso) = (Returns tt, Some iso1)
    /\ same_handles iso iso1
    /\ V8.Object_Get (V8.heap iso1) obj key = V8.Normal val.
Proof.
  intros Hc Hv Ho Hkind Hk Hacc.
  destruct (Object_Get_after_Set (V8.heap iso) obj o key val Ho Hkind Hacc) as (h' & Hset & Hget).
  rewrite (SetProperty_run iso c ctx cell obj name key val Hc Hv Hk), Hset.
  eexists. split; [reflexivity|]. split; [repeat split|exact Hget].
Qed.

Lemma scoped_SetProperty_stores iso c ctx cell obj o name key val :
  V8.contexts iso !! c = Some ctx ->
  V8.global_handles iso !! cell = Some (V8.VObject obj) ->
  V8.heap iso !! obj = Some o -> V8.kind o = V8.JSObject ->
  ToV8String name = Some key ->
  (forall g s, V8.lookup_property (V8.heap iso) obj key <> Some (V8.AccessorProperty g s)) ->
  exists iso1,
    JsContext (Some provider) (Some c) (SetProperty (handle c cell) name val) (Some iso)
    = (Returns tt, Some iso1)
    /\ same_handles iso iso1
    /\ V8.Object_Get (V8.heap iso1) obj key = V8.Normal val.
Proof.
  intros Hc Hv Ho Hkind Hk Hacc.
  destruct (SetProperty_stores (V8.enter c iso) c ctx cell obj o name key val)
    as (iso1 & Hrun & (Hcs & Hg & He) & Hget); try assumption.
  erewrite JsContext_returns by eassumption.
  destruct (exit_fields iso1) as (Hxh & Hxc & Hxg & Hxe).
  eexists. split; [reflexivity|]. unfold same_handles.
  rewrite Hxh, Hxc, Hxg, Hxe, Hcs, Hg, He. repeat split. exact Hget.
Qed.

Lemma AsBool_run iso c ctx cell v :
  V8.contexts iso !! c = Some ctx -> V8.global_handles iso !! cell = Some v ->
  AsBool (handle c cell) (Some iso) = (Returns (V8.BooleanValue v), Some (scope c iso)).
Proof.
  intros Hc Hv. unfold AsBool. cbn [handle isolate_ jsContext_ value_].
  erewrite JsContext_run by eassumption.
  unfold bind. rewrite (UnwrapValue_run _ c cell v) by exact Hv. reflexivity.
Qed.

Lemma AsInt_run iso c ctx cell v :
  V8.contexts iso !! c = Some ctx -> V8.global_handles iso !! cell = Some v ->
  AsInt (handle c cell) (Some iso)
  = (match V8.to_maybe (V8.IntegerValue StringToNumber (V8.heap iso) v) with
     | Some z => Returns z
     | None => Throws JsError_empty_value
     end, Some (scope c iso)).
Proof.
  intros Hc Hv. unfold AsInt. cbn [handle isolate_ jsContext_ value_].
  change (mkJsValue (Some provider) (Some c) (Some cell)) with (handle c cell).
  apply (checked_conversion_run
           (fun h x => V8.to_maybe (V8.IntegerValue StringToNumber h x)) iso c ctx cell v Hc Hv).
Qed.

(** X8.  What is written under a name on an ordinary object, where the
    name is not taken by an accessor, is what is read back under it: a
    boolean as that boolean, an integer of magnitude below 2^53 as that
    integer (it travels as a double), and another handle's value as that
    very value. *)
Theorem typed_properties_are_read_back iso this obj o name key :
  unwraps iso this = Some (V8.VObject obj) ->
  V8.heap iso !! obj = Some o -> V8.kind o = V8.JSObject ->
  ToV8String name = Some key ->
  (forall g s, V8.lookup_property (V8.heap iso) obj key <> Some (V8.AccessorProperty g s)) ->
  (forall b, exists iso1 read iso2,
      SetProperty_bool this name b (Some iso) = (Returns tt, Some iso1)
      /\ GetProperty this name (Some iso1) = (Returns read, Some iso2)
      /\ fst (AsBool read (Some iso2)) = Returns b)
  /\ (forall z, (- 2 ^ 53 < z < 2 ^ 53)%Z -> exists iso1 read iso2,
      SetProperty_int64 this name z (Some iso) = (Returns tt, Some iso1)
      /\ GetProperty this name (Some iso1) = (Returns read, Some iso2)
      /\ fst (AsInt read (Some iso2)) = Returns z)
  /\ (forall val v', unwraps iso val = Some v' -> exists iso1 read iso2,
      SetProperty_JsValue this name val (Some iso) = (Returns tt, Some iso1)
      /\ GetProperty this name (Some iso1) = (Returns read, Some iso2)
      /\ unwraps iso2 read = Some v').
Proof.
  intros Hu Ho Hkind Hk Hacc. apply unwraps_inv in Hu as (c & ctx & cell & -> & Hc & Hv).
  change (mkJsValue (Some provider) (Some c) (Some cell)) with (handle c cell).
  assert (Hround : forall val, exists iso1 read iso2,
            JsContext (Some provider) (Some c) (SetProperty (handle c cell) name val) (Some iso)
            = (Returns tt, Some iso1)
            /\ GetProperty (handle c cell) name (Some iso1) = (Returns read, Some iso2)
            /\ unwraps iso2 read = Some val).
  { intros val.
    destruct (scoped_SetProperty_stores iso c ctx cell obj o name key val)
      as (iso1 & Hrun & (Hcs & Hg & He) & Hget); try assumption.
    destruct (GetProperty_returns_new_handle iso1 c ctx cell obj name key val)
      as (read & iso2 & Hread & Hval & _); try assumption.
    - rewrite Hcs. exact Hc.
    - rewrite Hg. exact Hv.
    - exists iso1, read, iso2. auto. }
  split; [|split].
  - intros b. destruct (Hround (V8.VBoolean b)) as (iso1 & read & iso2 & Hset & Hget & Hval).
    exists iso1, read, iso2. split; [exact Hset|]. split; [exact Hget|].
    apply unwraps_inv in Hval as (c' & ctx' & cell' & -> & Hc' & Hv').
    change (mkJsValue (Some provider) (Some c') (Some cell')) with (handle c' cell').
    rewrite (AsBool_run iso2 c' ctx' cell' _ Hc' Hv'). reflexivity.
  - intros z Hz.
    destruct (Hround (V8.VNumber (V8.double_of_Z z))) as (iso1 & read & iso2 & Hset & Hget & Hval).
    exists iso1, read, iso2. split; [exact Hset|]. split; [exact Hget|].
    apply unwraps_inv in Hval as (c' & ctx' & cell' & -> & Hc' & Hv').
    change (mkJsValue (Some provider) (Some c') (Some cell')) with (handle c' cell').
    rewrite (AsInt_run iso2 c' ctx' cell' _ Hc' Hv').
    cbn. rewrite (NumberToInt64_double_of_Z z Hz). reflexivity.
  - intros val v' Hval. destruct (Hround v') as (iso1 & read & iso2 & Hset & Hget & Hread).
    exists iso1, read, iso2. split; [|auto].
    rewrite <- Hset. apply unwraps_inv in Hval as (c' & ctx' & cell' & -> & Hc' & Hv').
    unfold SetProperty_JsValue. cbn [handle isolate_ jsContext_ value_].
    erewrite !JsContext_run by exact Hc. unfold bind at 1.
    change (mkJsValue (Some provider) (Some c') (Some cell')) with (handle c' cell').
    erewrite UnwrapValue_run by exact Hv'. reflexivity.
Qed.

(** ** Lists of handles *)

Lemma array_object_IsArray h array :
  array_object h (V8.VObject array) -> V8.IsArray h (V8.VObject array) = true.
Proof. apply IsArray_spec. Qed.

Lemma released_cells (cells : list nat) (before between after : gmap nat V8.Value) :
  (forall k, k ∈ cells -> before !! k = None) ->
  (forall k, k ∉ cells -> between !! k = before !! k) ->
  (forall k, after !! k = if decide (k ∈ cells) then None else between !! k) ->
  after = before.
Proof.
  intros Hnew Hold Hafter. apply map_eq. intros k. rewrite Hafter.
  destruct (decide (k ∈ cells)) as [Hin|Hnin]; [symmetry; apply Hnew, Hin|apply Hold, Hnin].
Qed.

(** X4.  On a handle for an array whose elements can all be read, [AsList]
    returns one handle per element, in order.  Each has the isolate and
    the context of the array's handle and a cell of its own that was free
    before; the handles that existed stand for the same values; and
    destroying the list gives the engine its cells back. *)
Theorem AsList_returns_the_elements iso this array items :
  unwraps iso this = Some (V8.VObject array) ->
  array_object (V8.heap iso) (V8.VObject array) ->
  array_elements (V8.heap iso) array items ->
  exists result iso',
    AsList this (Some iso) = (Returns result, Some iso')
    /\ unwrap_all iso' result = Some items
    /\ Forall (fun p => isolate_ p = isolate_ this /\ jsContext_ p = jsContext_ this) result
    /\ NoDup (map value_ result)
    /\ (forall p, p ∈ result -> unwraps iso p = None)
    /\ (forall other v, unwraps iso other = Some v -> unwraps iso' other = Some v)
    /\ exists iso'', destroy_list result (Some iso') = (Returns tt, Some iso'')
                     /\ V8.global_handles iso'' = V8.global_handles iso.
Proof.
  intros Hu Ha Hitems. apply unwraps_inv in Hu as (c & ctx & cell & -> & Hc & Hv).
  change (mkJsValue (Some provider) (Some c) (Some cell)) with (handle c cell).
  apply array_object_IsArray in Ha.
  destruct (AsList_returns_run iso c ctx cell array items Hc Hv Ha Hitems)
    as (cells & iso' & Hrun & Hh & Hcs & He & Hnd & Hnew & Hall & Hold).
  assert (Hc' : V8.contexts iso' !! c = Some ctx) by (rewrite Hcs; exact Hc).
  exists (map (handle c) cells), iso'. split; [exact Hrun|].
  split; [apply (unwrap_all_handles iso' c ctx); assumption|].
  split; [apply Forall_forall; intros p Hp; apply list_elem_of_In, in_map_iff in Hp;
          destruct Hp as (k & <- & _); split; reflexivity|].
  split.
  { rewrite map_map. cbn [handle value_]. change (NoDup (Some <$> cells)).
    apply (NoDup_fmap_2 Some). exact Hnd. }
  split.
  { intros p Hp. apply list_elem_of_In, in_map_iff in Hp. destruct Hp as (k & <- & Hk).
    rewrite (unwraps_handle iso c ctx) by exact Hc. apply Hnew, list_elem_of_In, Hk. }
  split.
  { intros other v Ho. apply unwraps_inv in Ho as (c1 & ctx1 & cell1 & -> & Hc1 & Hv1).
    unfold unwraps. cbn. rewrite Hcs, Hc1, Hold; [exact Hv1|].
    intros Hin. rewrite (Hnew _ Hin) in Hv1. discriminate. }
  destruct (destroy_list_run c ctx cells iso' Hc') as (iso'' & Hd & _ & _ & _ & Hg).
  exists iso''. split; [exact Hd|]. exact (released_cells cells _ _ _ Hnew Hold Hg).
Qed.

Lemma index_in_indices_below i length : (i < length)%N -> In i (indices_below length).
Proof.
  intros Hi. unfold indices_below. apply in_map_iff. exists (N.to_nat i).
  split; [apply N2Nat.id|]. apply in_seq. lia.
Qed.

Lemma Forall2_In_l {A B} (P : A -> B -> Prop) l k x :
  Forall2 P l k -> In x l -> exists y, P x y.
Proof.
  induction 1 as [|a b l k Hab _ IH]; intros Hin; [destruct Hin|].
  destruct Hin as [<-|Hin]; eauto.
Qed.

Lemma AsList_fails_run iso c ctx cell array i exn :
  V8.contexts iso !! c = Some ctx ->
  V8.global_handles iso !! cell = Some (V8.VObject array) ->
  V8.IsArray (V8.heap iso) (V8.VObject array) = true ->
  (i < V8.Array_Length (V8.heap iso) array)%N ->
  V8.Object_Get_index (V8.heap iso) array i = V8.Abrupt exn ->
  exists iso',
    AsList (handle c cell) (Some iso) = (Throws JsError_empty_value, Some iso')
    /\ same_runtime iso iso'.
Proof.
  intros Hc Hv Ha Hi Hexn.
  destruct (first_failure (V8.heap iso) array
              (indices_below (V8.Array_Length (V8.heap iso) array)))
    as [(items & Hall)|(good & items & bad & exn' & rest & Hsplit & Hgood & Hbad)].
  - destruct (Forall2_In_l _ _ _ i Hall (index_in_indices_below _ _ Hi)) as (item & Hitem).
    congruence.
  - apply (AsList_failure_run iso c ctx cell array good items bad exn' rest); assumption.
Qed.

(** X5.  When reading some element of the array throws, [AsList] fails with
    a conversion error, and the handles made for the elements before it
    are released on the way out: the cells and the contexts of the engine
    are as they were. *)
Theorem AsList_failure_releases_the_handles iso this array i exn :
  unwraps iso this = Some (V8.VObject array) ->
  array_object (V8.heap iso) (V8.VObject array) ->
  (i < V8.Array_Length (V8.heap iso) array)%N ->
  V8.Object_Get_index (V8.heap iso) array i = V8.Abrupt exn ->
  exists iso',
    AsList this (Some iso) = (Throws JsError_empty_value, Some iso')
    /\ error_kind JsError_empty_value = ConversionError
    /\ same_handles iso iso'
    /\ forall other, unwraps iso' other = unwraps iso other.
Proof.
  intros Hu Ha Hi Hexn. apply unwraps_inv in Hu as (c & ctx & cell & -> & Hc & Hv).
  change (mkJsValue (Some provider) (Some c) (Some cell)) with (handle c cell).
  apply array_object_IsArray in Ha.
  destruct (AsList_fails_run iso c ctx cell array i exn Hc Hv Ha Hi Hexn)
    as (iso' & Hrun & Hsame).
  exists iso'. split; [exact Hrun|]. split; [reflexivity|].
  split; [apply same_runtime_handles, Hsame|].
  intros other. apply same_runtime_unwraps, Hsame.
Qed.

(** X6.  On a handle for an object, [GetOwnPropertyNames] returns the text
    of each own key of the object, in the engine's order, and releases
    every temporary: the cells and the contexts are as before, and the
    objects of the heap are untouched (the heap has gained the array of
    names the engine built). *)
Theorem GetOwnPropertyNames_lists_the_own_keys iso this object o :
  unwraps iso this = Some (V8.VObject object) ->
  V8.heap iso !! object = Some o ->
  exists iso',
    GetOwnPropertyNames this (Some iso)
    = (Returns (map (FromV8String (V8.heap iso')) (V8.own_keys o)), Some iso')
    /\ same_handles iso iso'
    /\ (forall other, unwraps iso' other = unwraps iso other)
    /\ (forall a x, V8.heap iso !! a = Some x -> V8.heap iso' !! a = Some x).
Proof.
  intros Hu Ho. apply unwraps_inv in Hu as (c & ctx & cell & -> & Hc & Hv).
  change (mkJsValue (Some provider) (Some c) (Some cell)) with (handle c cell).
  destruct (GetOwnPropertyNames_run iso c ctx cell object Hc Hv)
    as (iso' & Hrun & Hh & Hcs & He & Hg). rewrite Ho in Hrun, Hh.
  exists iso'. split; [exact Hrun|]. split; [repeat split; assumption|].
  split; [intros other; unfold unwraps; rewrite Hcs, Hg; reflexivity|].
  intros a x Hax. rewrite Hh. rewrite lookup_insert_ne; [exact Hax|].
  intros <-. assert (Hfree : V8.heap iso !! fresh (dom (V8.heap iso)) = None)
    by apply not_elem_of_dom, is_fresh. congruence.
Qed.

(** X13.  [ToList] of the test harness: on a handle for an array whose
    elements can all be read it returns the text of each element, in
    order; on anything but an array it fails with the [TypeError] of
    [AsList]; when an element cannot be read, with a conversion error.
    Whether it returns or fails on an element, the handles of the list
    have been released: cells and contexts are as they were. *)
Theorem ToList_returns_the_strings iso value v :
  unwraps iso value = Some v ->
  (~ array_object (V8.heap iso) v -> raises TypeError (HarnessTest.ToList value (Some iso)))
  /\ (forall array items,
        v = V8.VObject array -> array_object (V8.heap iso) v ->
        array_elements (V8.heap iso) array items ->
        exists iso',
          HarnessTest.ToList value (Some iso)
          = (Returns (map (FromV8String (V8.heap iso)) items), Some iso')
          /\ same_handles iso iso')
  /\ (forall array i exn,
        v = V8.VObject array -> array_object (V8.heap iso) v ->
        (i < V8.Array_Length (V8.heap iso) array)%N ->
        V8.Object_Get_index (V8.heap iso) array i = V8.Abrupt exn ->
        exists iso',
          HarnessTest.ToList value (Some iso) = (Throws JsError_empty_value, Some iso')
          /\ same_handles iso iso').
Proof.
  intros Hu. apply unwraps_inv in Hu as (c & ctx & cell & -> & Hc & Hv).
  change (mkJsValue (Some provider) (Some c) (Some cell)) with (handle c cell).
  split; [|split].
  - intros Hn. unfold HarnessTest.ToList, bind at 1.
    rewrite (AsList_run iso c ctx cell v Hc Hv).
    destruct (V8.IsArray (V8.heap iso) v) eqn:Harr;
      [exfalso; apply Hn, IsArray_spec, Harr|].
    eexists. split; reflexivity.
  - intros array items -> Ha Hitems. apply array_object_IsArray in Ha.
    destruct (AsList_returns_run iso c ctx cell array items Hc Hv Ha Hitems)
      as (cells & iso1 & Hrun & Hh & Hcs & He & Hnd & Hnew & Hall & Hold).
    assert (Hc1 : V8.contexts iso1 !! c = Some ctx) by (rewrite Hcs; exact Hc).
    destruct (mapM_AsString_run c ctx cells items iso1 Hc1 Hall)
      as (iso2 & Hrun2 & Hh2 & Hcs2 & Hg2 & He2).
    destruct (destroy_list_run c ctx cells iso2) as (iso3 & Hrun3 & Hh3 & Hcs3 & He3 & Hg3).
    { rewrite Hcs2. exact Hc1. }
    unfold HarnessTest.ToList, bind at 1. rewrite Hrun.
    unfold bind at 1. unfold unwind. rewrite Hrun2.
    unfold bind at 1. rewrite Hrun3. rewrite Hh.
    exists iso3. split; [reflexivity|].
    unfold same_handles. rewrite Hcs3, Hcs2, Hcs, He3, He2, He. repeat split.
    apply (released_cells cells _ (V8.global_handles iso1)); [exact Hnew|exact Hold|].
    intros k. rewrite Hg3, Hg2. reflexivity.
  - intros array i exn -> Ha Hi Hexn. apply array_object_IsArray in Ha.
    destruct (AsList_fails_run iso c ctx cell array i exn Hc Hv Ha Hi Hexn)
      as (iso' & Hrun & (_ & Hcs & Hg & He)).
    unfold HarnessTest.ToList, bind at 1. rewrite Hrun.
    exists iso'. split; [reflexivity|]. repeat split; assumption.
Qed.

(** ** Listing what has been set *)

Lemma Object_Set_ordinary h obj o key val :
  h !! obj = Some o -> V8.kind o = V8.JSObject ->
  (forall g s, V8.lookup_property h obj key <> Some (V8.AccessorProperty g s)) ->
  V8.Object_Set StringToNumber h obj key val
  = (V8.Normal true, <[obj := V8.define_data o key val]> h).
Proof.
  intros Ho Hkind Hacc. unfold V8.Object_Set. rewrite Ho, Hkind. unfold V8.ordinary_set.
  destruct (V8.lookup_property h obj key) as [[x|g s]|] eqn:Hl; try reflexivity.
  exfalso. eapply Hacc. reflexivity.
Qed.

Lemma replace_property_key key p ps : In key (map fst (V8.replace_property key p ps)).
Proof.
  induction ps as [|[k q] rest IH]; cbn; [auto|].
  destruct (String.eqb_spec k key) as [->|Hne]; cbn; auto.
Qed.

Lemma own_keys_define_data o key val :
  V8.kind o = V8.JSObject -> V8.index_of_key key = None ->
  In (V8.VString key) (V8.own_keys (V8.define_data o key val)).
Proof.
  intros Hkind Hindex. unfold V8.own_keys. apply in_or_app. right.
  apply in_map, filter_In. split.
  - unfold V8.define_data. cbn [V8.properties]. apply replace_property_key.
  - unfold V8.is_index_key. rewrite Hindex. reflexivity.
Qed.

(** X9.  A property set on an ordinary object under a name that is not an
    array index, and not taken by an accessor, is among the names
    [GetOwnPropertyNames] returns afterwards, provided the conversion of
    the key back to text gives the name. *)
Theorem a_property_set_is_listed iso this obj o name key val :
  unwraps iso this = Some (V8.VObject obj) ->
  V8.heap iso !! obj = Some o -> V8.kind o = V8.JSObject ->
  ToV8String name = Some key -> V8.index_of_key key = None ->
  (forall g s, V8.lookup_property (V8.heap iso) obj key <> Some (V8.AccessorProperty g s)) ->
  (forall h, FromV8String h (V8.VString key) = name) ->
  exists iso1 names iso2,
    SetProperty this name val (Some iso) = (Returns tt, Some iso1)
    /\ GetOwnPropertyNames this (Some iso1) = (Returns names, Some iso2)
    /\ In name names.
Proof.
  intros Hu Ho Hkind Hk Hindex Hacc Hback.
  apply unwraps_inv in Hu as (c & ctx & cell & -> & Hc & Hv).
  change (mkJsValue (Some provider) (Some c) (Some cell)) with (handle c cell).
  rewrite (SetProperty_run iso c ctx cell obj name key val Hc Hv Hk).
  rewrite (Object_Set_ordinary _ obj o key val Ho Hkind Hacc). cbn [fst snd].
  set (iso1 := V8.exit _).
  assert (Hh1 : V8.heap iso1 = <[obj := V8.define_data o key val]> (V8.heap iso))
    by reflexivity.
  assert (Hc1 : V8.contexts iso1 !! c = Some ctx) by exact Hc.
  assert (Hv1 : V8.global_handles iso1 !! cell = Some (V8.VObject obj)) by exact Hv.
  clearbody iso1.
  destruct (GetOwnPropertyNames_run iso1 c ctx cell obj Hc1 Hv1) as (iso2 & Hrun & _).
  rewrite Hh1, lookup_insert_eq in Hrun.
  eexists iso1, _, iso2. split; [reflexivity|]. split; [exact Hrun|].
  rewrite <- (Hback (V8.heap iso2)). apply in_map, own_keys_define_data; assumption.
Qed.

(** ** Defined behaviour *)

Lemma keeps_handles_defined {A} iso (out : Outcome A * World) :
  keeps_handles iso out -> defined out.
Proof. intros (r & iso' & -> & Hr & _). exact Hr. Qed.

Lemma defined_JsContext {A} (body : M A) iso c ctx :
  V8.contexts iso !! c = Some ctx ->
  defined (body (Some (V8.enter c iso))) ->
  defined (JsContext (Some provider) (Some c) body (Some iso)).
Proof. intros Hc Hb. unfold defined. rewrite (JsContext_outcome body iso c ctx Hc). exact Hb. Qed.

Lemma keeps_handles_JsContext {A} (body : M A) iso c ctx :
  V8.contexts iso !! c = Some ctx ->
  keeps_handles (V8.enter c iso) (body (Some (V8.enter c iso))) ->
  keeps_handles iso (JsContext (Some provider) (Some c) body (Some iso)).
Proof.
  intros Hc (r & iso' & Hrun & Hr & Hcs & Hg & He).
  erewrite JsContext_run by exact Hc. rewrite Hrun.
  destruct (exit_fields iso') as (_ & Hxc & Hxg & Hxe).
  exists r, (V8.exit iso').
  split; [destruct r; [reflexivity|reflexivity|exfalso; apply Hr; reflexivity]|].
  split; [exact Hr|].
  unfold same_handles. rewrite Hxc, Hxg, Hxe, Hcs, Hg, He. repeat split.
Qed.

Lemma keeps_handles_scope {A} (r : Outcome A) iso c :
  r <> Undefined_behaviour -> keeps_handles iso (r, Some (scope c iso)).
Proof. intros Hr. exists r, (scope c iso). split; [reflexivity|]. split; [exact Hr|repeat split]. Qed.

Lemma SetProperty_keeps_handles iso c ctx cell v name val :
  V8.contexts iso !! c = Some ctx -> V8.global_handles iso !! cell = Some v ->
  keeps_handles iso (SetProperty (handle c cell) name val (Some iso)).
Proof.
  intros Hc Hv. destruct (V8.IsObject v) eqn:Hobj.
  - destruct v as [| | | | |obj]; try discriminate.
    destruct (ToV8String name) as [key|] eqn:Hk.
    + rewrite (SetProperty_run iso c ctx cell obj name key val Hc Hv Hk).
      eexists _, _. split; [reflexivity|]. split; [|repeat split].
      destruct (fst (V8.Object_Set StringToNumber (V8.heap iso) obj key val)); discriminate.
    + unfold SetProperty, bind at 1.
      rewrite (IsObject_run iso c ctx cell _ Hc Hv). cbn [V8.IsObject negb].
      cbn [handle isolate_ jsContext_ value_].
      erewrite JsContext_run by exact Hc. rewrite Hk.
      eexists _, _. split; [reflexivity|]. split; [discriminate|repeat split].
  - rewrite (SetProperty_non_object iso c ctx cell v name val Hc Hv)
      by (intros a ->; discriminate).
    apply keeps_handles_scope. discriminate.
Qed.

Lemma AsList_defined iso c ctx cell v :
  V8.contexts iso !! c = Some ctx -> V8.global_handles iso !! cell = Some v ->
  defined (AsList (handle c cell) (Some iso)).
Proof.
  intros Hc Hv. destruct (V8.IsArray (V8.heap iso) v) eqn:Harray.
  - assert (exists array, v = V8.VObject array) as (array & ->).
    { apply IsArray_spec in Harray as (a & o & -> & _). eauto. }
    destruct (first_failure (V8.heap iso) array
                (indices_below (V8.Array_Length (V8.heap iso) array)))
      as [(items & Hall)|(good & items & bad & exn & rest & Hsplit & Hgood & Hbad)].
    + destruct (AsList_returns_run iso c ctx cell array items Hc Hv Harray Hall)
        as (cells & iso' & -> & _). discriminate.
    + destruct (AsList_failure_run iso c ctx cell array good items bad exn rest
                  Hc Hv Harray Hsplit Hgood Hbad) as (iso' & -> & _). discriminate.
  - rewrite (AsList_run iso c ctx cell v Hc Hv), Harray. discriminate.
Qed.

Lemma GetProperty_defined iso c ctx cell v name :
  V8.contexts iso !! c = Some ctx -> V8.global_handles iso !! cell = Some v ->
  defined (GetProperty (handle c cell) name (Some iso)).
Proof.
  intros Hc Hv. destruct (V8.IsObject v) eqn:Hobj.
  - destruct v as [| | | | |obj]; try discriminate.
    destruct (ToV8String name) as [key|] eqn:Hk.
    + destruct (V8.Object_Get (V8.heap iso) obj key) as [r|exn] eqn:Hget.
      * destruct (GetProperty_returns_new_handle iso c ctx cell obj name key r Hc Hv Hk Hget)
          as (result & iso' & -> & _). discriminate.
      * destruct (GetProperty_fails iso c ctx cell obj name Hc Hv) as (iso' & -> & _);
          [rewrite Hk; eauto|]. discriminate.
    + destruct (GetProperty_fails iso c ctx cell obj name Hc Hv) as (iso' & -> & _);
        [rewrite Hk; exact I|]. discriminate.
  - rewrite (GetProperty_non_object iso c ctx cell v name Hc Hv)
      by (intros a ->; discriminate). discriminate.
Qed.

Lemma GetOwnPropertyNames_defined iso c ctx cell v :
  V8.contexts iso !! c = Some ctx -> V8.global_handles iso !! cell = Some v ->
  defined (GetOwnPropertyNames (handle c cell) (Some iso)).
Proof.
  intros Hc Hv. destruct (V8.IsObject v) eqn:Hobj.
  - destruct v as [| | | | |obj]; try discriminate.
    destruct (GetOwnPropertyNames_run iso c ctx cell obj Hc Hv) as (iso' & -> & _).
    discriminate.
  - rewrite (GetOwnPropertyNames_non_object iso c ctx cell v Hc Hv)
      by (intros a ->; discriminate). discriminate.
Qed.

Lemma Call_defined iso c ctx cell v args thisObj :
  V8.contexts iso !! c = Some ctx -> V8.global_handles iso !! cell = Some v ->
  defined (Call (handle c cell) args thisObj (Some iso)).
Proof.
  intros Hc Hv. destruct (V8.IsFunction (V8.heap iso) v) eqn:Hfun.
  - assert (exists func, v = V8.VObject func) as (func & ->).
    { apply IsFunction_spec in Hfun as (a & o & -> & _). eauto. }
    destruct (V8.IsObject thisObj) eqn:Hrecv.
    + destruct (V8.Function_Call (V8.heap iso) func thisObj args) as [r|exn] eqn:Hcall.
      * destruct (Call_returns iso c ctx cell func args thisObj r Hc Hv Hfun Hrecv Hcall)
          as (cell' & iso' & -> & _). discriminate.
      * rewrite (Call_raises iso c ctx cell func args thisObj exn Hc Hv Hfun Hrecv Hcall).
        discriminate.
    + rewrite (Call_bad_receiver iso c ctx cell _ args thisObj Hc Hv Hfun Hrecv). discriminate.
  - rewrite (Call_not_callable iso c ctx cell v args thisObj Hc Hv Hfun). discriminate.
Qed.

(** X15.  On a live handle, with live handles for arguments, no operation
    has undefined behaviour: each returns or throws.  The writes of
    properties and the conversions to numbers moreover leave the engine
    with the contexts and the cells it had, on either path. *)
Theorem live_handles_have_defined_behaviour iso this v :
  unwraps iso this = Some v ->
  (forall name val, keeps_handles iso (SetProperty this name val (Some iso)))
  /\ (forall name val, keeps_handles iso (SetProperty_string this name val (Some iso)))
  /\ (forall name val, keeps_handles iso (SetStringBufferProperty this name val (Some iso)))
  /\ (forall name val, keeps_handles iso (SetProperty_int64 this name val (Some iso)))
  /\ (forall name val, keeps_handles iso (SetProperty_chars this name val (Some iso)))
  /\ (forall name val, keeps_handles iso (SetProperty_bool this name val (Some iso)))
  /\ (forall name val v', unwraps iso val = Some v' ->
      keeps_handles iso (SetProperty_JsValue this name val (Some iso)))
  /\ keeps_handles iso (AsInt this (Some iso))
  /\ keeps_handles iso (AsDouble this (Some iso))
  /\ defined (AsList this (Some iso))
  /\ defined (GetOwnPropertyNames this (Some iso))
  /\ (forall name, defined (GetProperty this name (Some iso)))
  /\ (forall args thisObj, defined (Call this args thisObj (Some iso)))
  /\ (forall params argv, unwrap_all iso params = Some argv ->
      defined (Call_params this params (Some iso)))
  /\ (forall params argv thisValue receiver,
      unwrap_all iso params = Some argv -> unwraps iso thisValue = Some receiver ->
      defined (Call_params_this this params thisValue (Some iso)))
  /\ (forall arg local, unwraps iso arg = Some local ->
      defined (Call_arg this arg (Some iso)))
  /\ (forall dst, defined (assign dst this (Some iso)))
  /\ (forall dst, defined (move_assign dst this (Some iso)))
  /\ defined (JsValue_dtor this (Some iso)).
Proof.
  intros Hu. apply unwraps_inv in Hu as (c & ctx & cell & -> & Hc & Hv).
  change (mkJsValue (Some provider) (Some c) (Some cell)) with (handle c cell).
  assert (Hset : forall name val,
            keeps_handles (V8.enter c iso)
              (SetProperty (handle c cell) name val (Some (V8.enter c iso)))).
  { intros name val. apply (SetProperty_keeps_handles _ c ctx cell v); assumption. }
  assert (Hthrow : keeps_handles (V8.enter c iso)
                     (@Throws unit JsError_empty_value, Some (V8.enter c iso))).
  { eexists _, _. split; [reflexivity|]. split; [discriminate|repeat split]. }
  assert (Hcall : forall args thisObj,
            defined (Call (handle c cell) args thisObj (Some (V8.enter c iso)))).
  { intros args thisObj. apply (Call_defined _ c ctx cell v); assumption. }
  split; [intros name val; apply (SetProperty_keeps_handles iso c ctx cell v); assumption|].
  split.
  { intros name val. unfold SetProperty_string. cbn [handle isolate_ jsContext_ value_].
    apply (keeps_handles_JsContext _ iso c ctx Hc). unfold bind.
    destruct (ToV8String val) as [local|]; [apply Hset|exact Hthrow]. }
  split.
  { intros name val. unfold SetStringBufferProperty. cbn [handle isolate_ jsContext_ value_].
    apply (keeps_handles_JsContext _ iso c ctx Hc). unfold bind.
    destruct (StringBufferToV8String val) as [local|]; [apply Hset|exact Hthrow]. }
  split.
  { intros name val. unfold SetProperty_int64. cbn [handle isolate_ jsContext_ value_].
    apply (keeps_handles_JsContext _ iso c ctx Hc), Hset. }
  split.
  { intros name val. unfold SetProperty_chars. cbn [handle isolate_ jsContext_ value_].
    apply (keeps_handles_JsContext _ iso c ctx Hc). unfold bind.
    destruct (NewFromUtf8 val) as [local|]; [apply Hset|exact Hthrow]. }
  split.
  { intros name val. unfold SetProperty_bool. cbn [handle isolate_ jsContext_ value_].
    apply (keeps_handles_JsContext _ iso c ctx Hc), Hset. }
  split.
  { intros name val v' Hval. apply unwraps_inv in Hval as (c' & ctx' & cell' & -> & Hc' & Hv').
    unfold SetProperty_JsValue. cbn [handle isolate_ jsContext_ value_].
    apply (keeps_handles_JsContext _ iso c ctx Hc). unfold bind.
    change (mkJsValue (Some provider) (Some c') (Some cell')) with (handle c' cell').
    erewrite UnwrapValue_run by exact Hv'. apply Hset. }
  split.
  { rewrite (AsInt_run iso c ctx cell v Hc Hv). apply keeps_handles_scope.
    destruct (V8.to_maybe _); discriminate. }
  split.
  { unfold AsDouble. cbn [handle isolate_ jsContext_ value_].
    change (mkJsValue (Some provider) (Some c) (Some cell)) with (handle c cell).
    rewrite (checked_conversion_run
               (fun h x => V8.to_maybe (V8.NumberValue StringToNumber h x)) iso c ctx cell v Hc Hv).
    apply keeps_handles_scope. destruct (V8.to_maybe _); discriminate. }
  split; [apply (AsList_defined iso c ctx cell v); assumption|].
  split; [apply (GetOwnPropertyNames_defined iso c ctx cell v); assumption|].
  split; [intros name; apply (GetProperty_defined iso c ctx cell v); assumption|].
  split; [intros args thisObj; apply (Call_defined iso c ctx cell v); assumption|].
  split.
  { intros params argv Hp. unfold Call_params. cbn [handle isolate_ jsContext_ value_].
    apply (defined_JsContext _ iso c ctx Hc). unfold bind.
    erewrite (mapM_UnwrapValue_run iso) by first [exact Hp | reflexivity].
    erewrite context_Global_run by exact Hc. apply Hcall. }
  split.
  { intros params argv thisValue receiver Hp Ht.
    apply unwraps_inv in Ht as (c' & ctx' & cell' & -> & Hc' & Hv').
    unfold Call_params_this. cbn [handle isolate_ jsContext_ value_].
    apply (defined_JsContext _ iso c ctx Hc). unfold bind.
    change (mkJsValue (Some provider) (Some c') (Some cell')) with (handle c' cell').
    erewrite UnwrapValue_run by exact Hv'.
    erewrite (mapM_UnwrapValue_run iso) by first [exact Hp | reflexivity].
    apply Hcall. }
  split.
  { intros arg local Ha. apply unwraps_inv in Ha as (c' & ctx' & cell' & -> & Hc' & Hv').
    unfold Call_arg. cbn [handle isolate_ jsContext_ value_].
    apply (defined_JsContext _ iso c ctx Hc). unfold bind.
    change (mkJsValue (Some provider) (Some c') (Some cell')) with (handle c' cell').
    erewrite UnwrapValue_run by exact Hv'.
    erewrite context_Global_run by exact Hc. apply Hcall. }
  split; [intros dst; rewrite (assign_run iso dst c ctx cell v Hc Hv); discriminate|].
  split; [intros dst; rewrite (move_assign_run iso dst c ctx cell Hc); discriminate|].
  rewrite (JsValue_dtor_run iso c ctx cell Hc). discriminate.
Qed.

(** X16.  The overloads of [SetProperty] that take text convert the payload
    before the receiver is looked at: a payload that cannot be turned into
    a runtime string gives a conversion error whatever the handle holds,
    an object or not, and nothing is written. *)
Theorem payload_conversion_comes_first iso this v :
  unwraps iso this = Some v ->
  (forall name val, ToV8String val = None ->
     exists iso', SetProperty_string this name val (Some iso)
                  = (Throws JsError_empty_value, Some iso')
                  /\ same_runtime iso iso')
  /\ (forall name val, StringBufferToV8String val = None ->
        exists iso', SetStringBufferProperty this name val (Some iso)
                     = (Throws JsError_empty_value, Some iso')
                     /\ same_runtime iso iso')
  /\ (forall name val, NewFromUtf8 val = None ->
        exists iso', SetProperty_chars this name val (Some iso)
                     = (Throws JsError_empty_value, Some iso')
                     /\ same_runtime iso iso').
Proof.
  intros Hu. apply unwraps_inv in Hu as (c & ctx & cell & -> & Hc & Hv).
  split; [|split]; intros name val Hnone;
    unfold SetProperty_string, SetStringBufferProperty, SetProperty_chars;
    cbn [isolate_ jsContext_ value_]; erewrite JsContext_run by exact Hc;
    unfold bind; rewrite Hnone; (eexists; split; [reflexivity|repeat split]).
Qed.

End HandleOperations.

(* ===================================================================== *)
(** * Theorems: the statistics of the test harness                        *)
(* ===================================================================== *)

Section HarnessStatistics.

Lemma accumulate_int_stays_at_zero (op : V8.double -> V8.double -> V8.double) l :
  Forall (fun b => HarnessTest.int_of_double (op (S754_zero false) b) = Some 0%Z) l ->
  HarnessTest.accumulate_int op l 0 = Some 0%Z.
Proof.
  induction 1 as [|b l Hb _ IH]; [reflexivity|].
  cbn [HarnessTest.accumulate_int]. change (V8.double_of_Z 0) with (S754_zero false).
  rewrite Hb. exact IH.
Qed.

Lemma int_of_double_range d k :
  HarnessTest.int_of_double d = Some k -> (HarnessTest.INT_MIN <= k <= HarnessTest.INT_MAX)%Z.
Proof.
  destruct d as [s| | |s m e]; cbn; try discriminate.
  - intros [= <-]. unfold HarnessTest.INT_MIN, HarnessTest.INT_MAX. lia.
  - destruct (Z.leb_spec HarnessTest.INT_MIN (V8.double_trunc s m e));
      destruct (Z.leb_spec (V8.double_trunc s m e) HarnessTest.INT_MAX); cbn; try discriminate.
    intros [= <-]. lia.
Qed.

Lemma accumulate_int_range (op : V8.double -> V8.double -> V8.double) l : forall init k,
  (HarnessTest.INT_MIN <= init <= HarnessTest.INT_MAX)%Z ->
  HarnessTest.accumulate_int op l init = Some k ->
  (HarnessTest.INT_MIN <= k <= HarnessTest.INT_MAX)%Z.
Proof.
  induction l as [|b l IH]; intros init k Hinit; cbn [HarnessTest.accumulate_int].
  - intros [= <-]. exact Hinit.
  - destruct (HarnessTest.int_of_double (op (V8.double_of_Z init) b)) as [init'|] eqn:Hstep;
      [|discriminate].
    apply IH. eapply int_of_double_range, Hstep.
Qed.

Lemma double_of_size_finite n :
  (0 < n)%nat -> (Z.of_nat n < 2 ^ 53)%Z ->
  exists m e, HarnessTest.double_of_size n = S754_finite false m e.
Proof.
  intros Hpos Hn. unfold HarnessTest.double_of_size, V8.double_of_Z, binary_normalize.
  destruct (Z.of_nat n) as [|p|p] eqn:Hp; try lia.
  destruct (double_of_Z_pos false p Hn) as (mz & q & -> & _). eauto.
Qed.

(** X14.  [CallStats::StdDeviation] keeps the running sum of the squared
    deviations in an [int]: whenever it returns, what stands under the
    root is an integer divided by the size less one; and when every
    squared deviation, taken alone, truncates to zero, the deviation it
    reports is zero, whatever the measurements are. *)
Theorem StdDeviation_keeps_its_sum_in_an_int s :
  (2 <= length (HarnessTest.measurements s))%nat ->
  (forall r, HarnessTest.StdDeviation s = Some r ->
     exists k, (HarnessTest.INT_MIN <= k <= HarnessTest.INT_MAX)%Z
               /\ r = HarnessTest.double_sqrt
                        (HarnessTest.double_div (V8.double_of_Z k)
                           (HarnessTest.double_of_size
                              (length (HarnessTest.measurements s) - 1))))
  /\ ((Z.of_nat (length (HarnessTest.measurements s)) <= 2 ^ 53)%Z ->
      Forall (fun b =>
                let d := HarnessTest.double_sub b (HarnessTest.Mean s) in
                HarnessTest.int_of_double
                  (HarnessTest.double_add (HarnessTest.double_mul d d) (S754_zero false))
                = Some 0%Z) (HarnessTest.measurements s) ->
      HarnessTest.StdDeviation s = Some (S754_zero false)).
Proof.
  intros Hsize. unfold HarnessTest.StdDeviation.
  destruct (Nat.ltb_spec (length (HarnessTest.measurements s)) 2) as [Hlt|_]; [lia|]. split.
  - intros r.
    destruct (HarnessTest.accumulate_int _ (HarnessTest.measurements s) 0) as [k|] eqn:Hacc;
      [|discriminate].
    intros [= <-]. exists k. split; [|reflexivity].
    eapply accumulate_int_range; [|exact Hacc].
    unfold HarnessTest.INT_MIN, HarnessTest.INT_MAX. lia.
  - intros Hbound Hsmall.
    rewrite (accumulate_int_stays_at_zero
               (fun sum b =>
                  HarnessTest.double_add
                    (HarnessTest.double_mul (HarnessTest.double_sub b (HarnessTest.Mean s))
                                            (HarnessTest.double_sub b (HarnessTest.Mean s)))
                    sum)
               (HarnessTest.measurements s) Hsmall).
    destruct (double_of_size_finite (length (HarnessTest.measurements s) - 1)) as (m & e & ->);
      [lia|lia|]. reflexivity.
Qed.

End HarnessStatistics.

(* ===================================================================== *)
(** * The theorems at work on the sample engine                           *)
(* ===================================================================== *)

Section SampleRuns.

Import AdblockPlus.

Local Existing Instance Sample.externals.

(** The scenario of the specification: five callers before the
    construction finishes, one construction, five notifications with the
    one module. *)
Example five_callers_one_construction :
  let call cb := Platform.EvCreateFilterEngineAsync (Some cb) in
  let p := Platform.run (fun _ => true)
             [Platform.EvSetUp ["init.js"]; call 1; call 2; call 3; call 4; call 5;
              Platform.EvExecutorRuns ["init.js"; "filters.js"] (inl tt)]
             (Platform.create (IFilterEngine := unit) (Error := string) (Callback := nat)) in
  Platform.state p = Platform.ModuleReady
  /\ Platform.dispatches p = 1
  /\ Platform.notified p = [(1, inl tt); (2, inl tt); (3, inl tt); (4, inl tt); (5, inl tt)]
  /\ Platform.evaluations p = ["init.js"; "filters.js"].
Proof. vm_compute. repeat split. Qed.

(** A caller that arrives after the construction has failed is notified at
    once, with the error the others got. *)
Example late_caller_gets_the_same_error :
  let p := Platform.run (fun _ => true)
             [Platform.EvCreateFilterEngineAsync (Some 1);
              Platform.EvExecutorRuns [] (inr "no filters");
              Platform.EvCreateFilterEngineAsync (Some 2)]
             (Platform.create (IFilterEngine := unit) (Error := string) (Callback := nat)) in
  Platform.state p = Platform.ModuleFailed
  /\ Platform.dispatches p = 1
  /\ Platform.notified p = [(1, inr "no filters"); (2, inr "no filters")].
Proof. vm_compute. repeat split. Qed.

(** Cell 1 holds the array [["x", record]]: [AsList] gives two handles. *)
Example AsList_of_an_array :
  fst (AsList (handle 0 1) (Some Sample.isolate)) = Returns [handle 0 6; handle 0 7].
Proof. vm_compute. reflexivity. Qed.

(** Cell 0 holds [record]: its names, its property [answer] read as an
    integer, and its property [broken], whose getter throws. *)
Example GetOwnPropertyNames_of_an_object :
  fst (GetOwnPropertyNames (handle 0 0) (Some Sample.isolate)) = Returns ["answer"; "broken"].
Proof. vm_compute. reflexivity. Qed.

Example GetProperty_then_AsInt :
  match GetProperty (handle 0 0) "answer" (Some Sample.isolate) with
  | (Returns answer, w) => fst (AsInt answer w) = Returns 5%Z
  | _ => False
  end.
Proof. vm_compute. reflexivity. Qed.

Example GetProperty_of_a_throwing_getter :
  fst (GetProperty (handle 0 0) "broken" (Some Sample.isolate)) = Throws JsError_empty_value.
Proof. vm_compute. reflexivity. Qed.

(** A property found on the prototype is read through the heir, and the
    length of an array is read as a property. *)
Example GetProperty_of_an_inherited_property :
  match GetProperty (handle 0 5) "answer" (Some Sample.isolate) with
  | (Returns answer, w) => fst (AsInt answer w) = Returns 5%Z
  | _ => False
  end.
Proof. vm_compute. reflexivity. Qed.

Example GetProperty_of_the_length_of_an_array :
  match GetProperty (handle 0 1) "length" (Some Sample.isolate) with
  | (Returns length, w) => fst (AsInt length w) = Returns 2%Z
  | _ => False
  end.
Proof. vm_compute. reflexivity. Qed.

(** Writing through a handle and reading back. *)
Example SetProperty_then_GetProperty :
  match SetProperty_int64 (handle 0 0) "count" 42 (Some Sample.isolate) with
  | (Returns _, w1) =>
      match GetProperty (handle 0 0) "count" w1 with
      | (Returns read, w2) => fst (AsInt read w2) = Returns 42%Z
      | _ => False
      end
  | _ => False
  end.
Proof. vm_compute. reflexivity. Qed.


(** C10 at work: cell 3 holds the number 5. *)
Lemma predicates_accept_wrapper_objects_witness :
  unwraps Sample.isolate (handle 0 3) = Some (V8.VNumber Sample.five)
  /\ exists b, fst (IsNumber (handle 0 3) (Some Sample.isolate)) = Returns b
               /\ (b = true <-> number_primitive (V8.VNumber Sample.five)
                                \/ Number_wrapper (V8.heap Sample.isolate)
                                     (V8.VNumber Sample.five)).
Proof.
  split; [reflexivity|].
  exact (proj1 (proj2 (predicates_accept_wrapper_objects Sample.isolate (handle 0 3)
                         (V8.VNumber Sample.five) eq_refl))).
Defined.

(** C3 at work: cell 4 holds an object whose [valueOf] throws, and which is
    not an array; cell 3 holds the number 5. *)
Lemma conversions_fail_as_specified_witness :
  unwraps Sample.isolate (handle 0 4) = Some (V8.VObject 4)
  /\ raises ConversionError (AsInt (handle 0 4) (Some Sample.isolate))
  /\ raises TypeError (AsList (handle 0 4) (Some Sample.isolate))
  /\ unwraps Sample.isolate (handle 0 3) = Some (V8.VNumber Sample.five)
  /\ fst (AsInt (handle 0 3) (Some Sample.isolate)) = Returns 5%Z.
Proof.
  destruct (conversions_fail_as_specified Sample.isolate (handle 0 4) (V8.VObject 4) eq_refl)
    as (Hlist & Hint & _).
  destruct (conversions_fail_as_specified Sample.isolate (handle 0 3)
              (V8.VNumber Sample.five) eq_refl)
    as (_ & _ & Hfive & _).
  split; [reflexivity|]. split; [|split; [|split; [reflexivity|]]].
  - apply Hint. exists (V8.VString "boom"). vm_compute. reflexivity.
  - apply Hlist. intros (a & o & Ha & Ho & n & Hk).
    injection Ha as <-. vm_compute in Ho. injection Ho as <-. discriminate Hk.
  - apply Hfive. vm_compute. reflexivity.
Defined.

(** C4 at work: cell 3 holds a number, cell 0 an object without a property
    [missing]; then the same in an engine whose strings hold four
    characters at most. *)
Lemma property_access_as_specified_witness :
  unwraps Sample.isolate (handle 0 3) = Some (V8.VNumber Sample.five)
  /\ raises TypeError (GetProperty (handle 0 3) "answer" (Some Sample.isolate))
  /\ raises TypeError
       (@SetProperty_string Sample2.short_strings (handle 0 3) "note" "text"
          (Some Sample.isolate))
  /\ raises ConversionError
       (@SetProperty_string Sample2.short_strings (handle 0 3) "note" "a long text"
          (Some Sample.isolate))
  /\ unwraps Sample.isolate (handle 0 0) = Some (V8.VObject 1)
  /\ (exists result iso',
        GetProperty (handle 0 0) "missing" (Some Sample.isolate) = (Returns result, Some iso')
        /\ fst (IsUndefined result (Some iso')) = Returns true)
  /\ raises ConversionError
       (@GetProperty Sample2.short_strings (handle 0 0) "a long name" (Some Sample.isolate)).
Proof.
  destruct (property_access_as_specified Sample.isolate (handle 0 3)
              (V8.VNumber Sample.five) eq_refl) as (Hnon & _).
  destruct (property_access_as_specified Sample.isolate (handle 0 0)
              (V8.VObject 1) eq_refl) as (_ & Hmissing & _).
  destruct (@property_access_as_specified Sample2.short_strings Sample.isolate (handle 0 3)
              (V8.VNumber Sample.five) eq_refl) as (Hshort & _ & Hpayload & _).
  destruct (@property_access_as_specified Sample2.short_strings Sample.isolate (handle 0 0)
              (V8.VObject 1) eq_refl) as (_ & _ & _ & _ & _ & Hname).
  assert (Hn : not_an_object (V8.VNumber Sample.five)) by (intros a; discriminate).
  split; [reflexivity|]. split; [apply Hnon, Hn|].
  split; [destruct (Hshort Hn) as (_ & _ & _ & _ & _ & _ & Htext & _);
          apply (Htext "note" "text" "text"); reflexivity|].
  split; [apply Hpayload; reflexivity|].
  split; [reflexivity|].
  split; [apply (Hmissing 1 "missing" "missing"); reflexivity|].
  apply (Hname 1); reflexivity.
Defined.

(** Against C4 as the specification has it.  In an engine whose strings
    hold four characters at most, cell 3 holds a number, which is not an
    object, and [SetProperty] with a longer text on its handle does not
    raise a [TypeError]: the payload is converted first, and that raises a
    [ConversionError].  Cell 0 holds an object on which no property
    ["a long name"] was ever set, and [GetProperty] for that name does not
    return a handle: it raises a [ConversionError]. *)
Lemma property_access_counterexample :
  unwraps Sample.isolate (handle 0 3) = Some (V8.VNumber Sample.five)
  /\ not_an_object (V8.VNumber Sample.five)
  /\ @SetProperty_string Sample2.short_strings (handle 0 3) "note" "a long text"
       (Some Sample.isolate)
     = (Throws JsError_empty_value, Some (scope 0 Sample.isolate))
  /\ error_kind JsError_empty_value = ConversionError
  /\ ~ raises TypeError
         (@SetProperty_string Sample2.short_strings (handle 0 3) "note" "a long text"
            (Some Sample.isolate))
  /\ unwraps Sample.isolate (handle 0 0) = Some (V8.VObject 1)
  /\ V8.lookup_property (V8.heap Sample.isolate) 1 "a long name" = None
  /\ @GetProperty Sample2.short_strings (handle 0 0) "a long name" (Some Sample.isolate)
     = (Throws JsError_empty_value, Some (scope 0 (scope 0 Sample.isolate)))
  /\ ~ (exists result iso',
          @GetProperty Sample2.short_strings (handle 0 0) "a long name" (Some Sample.isolate)
          = (Returns result, Some iso')).
Proof.
  assert (Hset : @SetProperty_string Sample2.short_strings (handle 0 3) "note" "a long text"
                   (Some Sample.isolate)
                 = (Throws JsError_empty_value, Some (scope 0 Sample.isolate)))
    by (vm_compute; reflexivity).
  assert (Hget : @GetProperty Sample2.short_strings (handle 0 0) "a long name"
                   (Some Sample.isolate)
                 = (Throws JsError_empty_value, Some (scope 0 (scope 0 Sample.isolate))))
    by (vm_compute; reflexivity).
  split; [reflexivity|]. split; [intros a; discriminate|].
  split; [exact Hset|]. split; [reflexivity|].
  split; [intros (e & He & Hk); rewrite Hset in He; injection He as <-; discriminate Hk|].
  split; [reflexivity|]. split; [vm_compute; reflexivity|].
  split; [exact Hget|].
  intros (result & iso' & Hr). rewrite Hget in Hr. discriminate Hr.
Qed.

(** C5 at work: cell 2 holds a function that throws "boom", called with no
    argument and with the handle of cell 3 for its argument; cell 0 holds
    an object that is not a function. *)
Lemma Call_fails_as_specified_witness :
  unwraps Sample.isolate (handle 0 2) = Some (V8.VObject 3)
  /\ (exists iso', Call (handle 0 2) [] (V8.VObject 0) (Some Sample.isolate)
                   = (Throws (JsError_script "boom"), Some iso')
                   /\ same_runtime Sample.isolate iso')
  /\ (exists iso', Call_arg (handle 0 2) (handle 0 3) (Some Sample.isolate)
                   = (Throws (JsError_script "boom"), Some iso')
                   /\ same_runtime Sample.isolate iso')
  /\ raises TypeError (Call (handle 0 2) [] V8.VNull (Some Sample.isolate))
  /\ raises TypeError (Call (handle 0 0) [] (V8.VObject 0) (Some Sample.isolate)).
Proof.
  destruct (Call_fails_as_specified Sample.isolate (handle 0 2) (V8.VObject 3) eq_refl)
    as (_ & Hrecv & Hthrow).
  destruct (Call_fails_as_specified Sample.isolate (handle 0 0) (V8.VObject 1) eq_refl)
    as (Hnot & _).
  assert (Hfun : function_object (V8.heap Sample.isolate) (V8.VObject 3)).
  { exists 3, Sample.thrower. split; [reflexivity|]. split; [reflexivity|].
    eexists. reflexivity. }
  split; [reflexivity|]. split; [|split; [|split]].
  - destruct (Hthrow 3 [] 0 (V8.VString "boom") eq_refl Hfun eq_refl)
      as (_ & (iso' & Hcall & Hsame & _) & _).
    exists iso'. split; [exact Hcall|exact Hsame].
  - destruct (Hthrow 3 [V8.VNumber Sample.five] 0 (V8.VString "boom") eq_refl Hfun eq_refl)
      as (_ & _ & _ & _ & Harg).
    destruct (Harg (handle 0 3) (V8.VNumber Sample.five) 0 (V8.mkContext 0 None)
                eq_refl eq_refl eq_refl eq_refl eq_refl)
      as (iso' & Hcall & Hsame & _).
    exists iso'. split; [exact Hcall|exact Hsame].
  - apply (proj1 (Hrecv Hfun)). intros a. discriminate.
  - apply Hnot. intros (a & o & Ha & Ho & body & Hk).
    injection Ha as <-. vm_compute in Ho. injection Ho as <-. discriminate Hk.
Defined.

(** C6 at work: copying the handle of cell 0 into a blank handle, writing a
    property through the copy and reading it through the original, then
    destroying the copy. *)
Lemma copy_shares_the_value_witness :
  unwraps Sample.isolate (handle 0 0) = Some (V8.VObject 1)
  /\ destination_ok Sample.isolate blank (handle 0 0)
  /\ exists copy iso1,
       JsValue_copy (handle 0 0) (Some Sample.isolate) = (Returns copy, Some iso1)
       /\ value_ copy <> value_ (handle 0 0)
       /\ unwraps iso1 copy = Some (V8.VObject 1)
       /\ unwraps iso1 (handle 0 0) = Some (V8.VObject 1)
       /\ (exists iso2 read iso3,
             SetProperty copy "note" (V8.VString "hi") (Some iso1) = (Returns tt, Some iso2)
             /\ GetProperty (handle 0 0) "note" (Some iso2) = (Returns read, Some iso3)
             /\ unwraps iso3 read = Some (V8.VString "hi"))
       /\ (exists iso3, JsValue_dtor copy (Some iso1) = (Returns tt, Some iso3)
                        /\ unwraps iso3 (handle 0 0) = Some (V8.VObject 1)).
Proof.
  destruct (copy_shares_the_value Sample.isolate blank (handle 0 0) (V8.VObject 1) eq_refl I)
    as (copy & iso1 & Hrun & Hne & _ & _ & Hcopy & Hsrc & _ & _ & Hwrite & Hdtor & _).
  split; [reflexivity|]. split; [exact I|].
  exists copy, iso1.
  split; [exact Hrun|]. split; [exact Hne|]. split; [exact Hcopy|]. split; [exact Hsrc|].
  split; [|exact Hdtor].
  apply (Hwrite 1 Sample.record "note" "note" (V8.VString "hi"));
    try reflexivity.
  intros g s. vm_compute. discriminate.
Defined.

(** C7 at work: destroying the handle of cell 3, engine alive and engine
    gone, in the build that defines [MAKE_ISOLATE_IN_JS_VALUE_WEAK] and in
    the one that does not. *)
Lemma destruction_respects_the_runtime_witness :
  unwraps Sample.isolate (handle 0 3) = Some (V8.VNumber Sample.five)
  /\ (exists iso',
        JsValue_dtor (handle 0 3) (Some Sample.isolate) = (Returns tt, Some iso')
        /\ V8.trace iso' = [V8.ExitContext 0; V8.DisposeGlobal 3; V8.EnterContext 0])
  /\ JsValue_dtor (handle 0 3) None = (Returns tt, None)
  /\ @JsValue_dtor Sample2.strong_isolate (handle 0 3) None = (Undefined_behaviour, None).
Proof.
  destruct (destruction_respects_the_runtime (handle 0 3)) as (Halive & Hdead & _).
  destruct (@destruction_respects_the_runtime Sample2.strong_isolate (handle 0 3))
    as (_ & _ & Hstrong).
  split; [reflexivity|]. split; [|split].
  - destruct (Halive Sample.isolate (V8.VNumber Sample.five) 0 3 eq_refl eq_refl eq_refl)
      as (iso' & Hrun & Htrace & _).
    exists iso'. split; [exact Hrun|exact Htrace].
  - apply Hdead; [discriminate|reflexivity].
  - apply Hstrong; [discriminate|reflexivity|discriminate].
Defined.

(** Against C7 as the specification has it.  In the build that does not
    define [MAKE_ISOLATE_IN_JS_VALUE_WEAK], destroying the handle of cell 3
    after the engine has been torn down is not a silent return: the
    reference is still reset, on an engine that is no longer there. *)
Lemma destruction_counterexample :
  @MAKE_ISOLATE_IN_JS_VALUE_WEAK Sample2.strong_isolate = false
  /\ unwraps Sample.isolate (handle 0 3) = Some (V8.VNumber Sample.five)
  /\ @JsValue_dtor Sample2.strong_isolate (handle 0 3) None = (Undefined_behaviour, None)
  /\ @JsValue_dtor Sample2.strong_isolate (handle 0 3) None <> (Returns tt, None).
Proof.
  split; [reflexivity|]. split; [reflexivity|]. split; [reflexivity|]. discriminate.
Qed.

(** C8 at work: moving the handle of cell 0 into a blank handle, as values
    and as the objects at the addresses 1 and 0; then into itself. *)
Lemma move_leaves_an_empty_placeholder_witness :
  unwraps Sample.isolate (handle 0 0) = Some (V8.VObject 1)
  /\ value_ blank <> value_ (handle 0 0)
  /\ (exists iso',
        JsValue_move (handle 0 0) (Some Sample.isolate)
        = (Returns (handle 0 0, blank), Some iso')
        /\ move_assign_at 0 1 Sample2.two_objects (Some Sample.isolate)
           = (Returns (<[1 := blank]> (<[0 := handle 0 0]> Sample2.two_objects)), Some iso')
        /\ same_runtime Sample.isolate iso'
        /\ JsValue_dtor blank (Some iso') = (Returns tt, Some iso'))
  /\ (exists iso',
        move_assign_at 0 0 Sample2.one_object (Some Sample.isolate)
        = (Returns (<[0 := mkJsValue None None (Some 0)]> Sample2.one_object), Some iso')
        /\ same_runtime Sample.isolate iso').
Proof.
  assert (Hne : value_ blank <> value_ (handle 0 0)) by discriminate.
  destruct (move_leaves_an_empty_placeholder Sample.isolate (handle 0 0) (V8.VObject 1) eq_refl)
    as (Hmove & _ & _ & _ & Hdtor & _ & Hself).
  destruct (Hmove blank Hne) as (iso' & Hrun & Hat & _ & Hsame & _).
  split; [reflexivity|]. split; [exact Hne|]. split.
  - exists iso'. split; [exact Hrun|].
    split; [apply Hat; [discriminate|reflexivity|reflexivity]|].
    split; [apply Hsame; reflexivity|apply Hdtor].
  - destruct (Hself Sample2.one_object 0 eq_refl) as (iso2 & Hrun2 & Hsame2 & _).
    exists iso2. split; [exact Hrun2|exact Hsame2].
Defined.

(** Against C8 as the specification has it.  The object at address 0 is
    the handle of cell 0, which stands for an object of the engine.  Moved
    into itself it is both the destination and the moved-from handle: it is
    left with its isolate and context cleared, so that it stands for
    nothing and cannot be used, and with its cell, so that destroying it is
    not without effect: the cell is given back to the engine. *)
Lemma self_move_counterexample :
  let husk := mkJsValue None None (Some 0) in
  let iso' := scope 0 Sample.isolate in
  unwraps Sample.isolate (handle 0 0) = Some (V8.VObject 1)
  /\ Sample2.one_object !! 0 = Some (handle 0 0)
  /\ move_assign_at 0 0 Sample2.one_object (Some Sample.isolate)
     = (Returns {[ 0 := husk ]}, Some iso')
  /\ unwraps iso' husk = None
  /\ IsUndefined husk (Some iso') = (Undefined_behaviour, Some iso')
  /\ JsValue_dtor husk (Some iso') = (Returns tt, Some (V8.dispose_global 0 iso'))
  /\ JsValue_dtor husk (Some iso') <> (Returns tt, Some iso')
  /\ V8.global_handles iso' !! 0 = Some (V8.VObject 1)
  /\ V8.global_handles (V8.dispose_global 0 iso') !! 0 = None.
Proof.
  cbv zeta.
  split; [reflexivity|]. split; [reflexivity|].
  split; [rewrite (move_assign_at_self Sample2.one_object 0 Sample.isolate 0
                     (V8.mkContext 0 None) 0 eq_refl eq_refl);
          f_equal; f_equal; apply insert_singleton_eq|].
  split; [reflexivity|]. split; [reflexivity|]. split; [reflexivity|].
  split; [intros Heq;
          apply (f_equal (fun r => match snd r with
                                   | Some i => V8.trace i
                                   | None => []
                                   end)) in Heq;
          discriminate Heq|].
  split; [reflexivity|]. vm_compute. reflexivity.
Qed.

(** X1 at work: reading a property whose getter throws leaves the engine
    alive and outside every context. *)
Lemma contexts_are_left_as_found_witness :
  exists iso',
    snd (GetProperty (handle 0 0) "broken" (Some Sample.isolate)) = Some iso'
    /\ same_contexts Sample.isolate iso'.
Proof.
  destruct contexts_are_left_as_found as (_ & _ & _ & Hget & _).
  apply (Hget (handle 0 0) "broken" Sample.isolate
           (fst (GetProperty (handle 0 0) "broken" (Some Sample.isolate)))).
  - apply surjective_pairing.
  - vm_compute. discriminate.
Defined.

(** X2 at work: cell 1 holds an array. *)
Lemma predicates_answer_without_touching_the_engine_witness :
  unwraps Sample.isolate (handle 0 1) = Some (V8.VObject 2)
  /\ answers same_runtime Sample.isolate (IsArray (handle 0 1))
       (fun b => b = true <-> array_object (V8.heap Sample.isolate) (V8.VObject 2))
  /\ answers same_runtime Sample.isolate (AsBool (handle 0 1))
       (fun b => b = V8.BooleanValue (V8.VObject 2)).
Proof.
  destruct (predicates_answer_without_touching_the_engine Sample.isolate (handle 0 1)
              (V8.VObject 2) eq_refl) as (_ & _ & _ & _ & _ & _ & Harray & _ & Hbool).
  split; [reflexivity|]. split; [exact Harray|exact Hbool].
Defined.

(** X3 at work: cell 3 holds a number, cell 0 an object. *)
Lemma string_conversions_as_the_code_has_them_witness :
  unwraps Sample.isolate (handle 0 3) = Some (V8.VNumber Sample.five)
  /\ (exists iso',
        GetClass (handle 0 3) (Some Sample.isolate)
        = (Throws (runtime_error "Cannot get constructor of a non-object"), Some iso')
        /\ same_handles Sample.isolate iso')
  /\ unwraps Sample.isolate (handle 0 0) = Some (V8.VObject 1)
  /\ answers same_handles Sample.isolate (GetClass (handle 0 0)) (fun s => s = "Object").
Proof.
  destruct (string_conversions_as_the_code_has_them Sample.isolate (handle 0 3)
              (V8.VNumber Sample.five) eq_refl) as (Hnon & _).
  destruct (string_conversions_as_the_code_has_them Sample.isolate (handle 0 0)
              (V8.VObject 1) eq_refl) as (_ & Hobj & _).
  split; [reflexivity|]. split.
  - destruct Hnon as (iso' & Hrun & _ & Hsame); [intros a; discriminate|].
    exists iso'. split; [exact Hrun|exact Hsame].
  - split; [reflexivity|]. exact (Hobj 1 eq_refl).
Defined.

(** X4 at work: the list of the array in cell 1. *)
Lemma AsList_returns_the_elements_witness :
  unwraps Sample.isolate (handle 0 1) = Some (V8.VObject 2)
  /\ array_object (V8.heap Sample.isolate) (V8.VObject 2)
  /\ array_elements (V8.heap Sample.isolate) 2 [V8.VString "x"; V8.VObject 1]
  /\ exists result iso',
       AsList (handle 0 1) (Some Sample.isolate) = (Returns result, Some iso')
       /\ unwrap_all iso' result = Some [V8.VString "x"; V8.VObject 1]
       /\ exists iso'', destroy_list result (Some iso') = (Returns tt, Some iso'')
                        /\ V8.global_handles iso'' = V8.global_handles Sample.isolate.
Proof.
  assert (Harray : array_object (V8.heap Sample.isolate) (V8.VObject 2)).
  { exists 2, Sample.pair. split; [reflexivity|]. split; [reflexivity|].
    eexists. reflexivity. }
  assert (Hitems : array_elements (V8.heap Sample.isolate) 2 [V8.VString "x"; V8.VObject 1]).
  { unfold array_elements. change (indices_below _) with [0%N; 1%N].
    constructor; [vm_compute; reflexivity|].
    constructor; [vm_compute; reflexivity|constructor]. }
  destruct (AsList_returns_the_elements Sample.isolate (handle 0 1) 2
              [V8.VString "x"; V8.VObject 1] eq_refl Harray Hitems)
    as (result & iso' & Hrun & Hall & _ & _ & _ & _ & Hdestroy).
  split; [reflexivity|]. split; [exact Harray|]. split; [exact Hitems|].
  exists result, iso'. split; [exact Hrun|]. split; [exact Hall|exact Hdestroy].
Defined.

(** X5 at work: the second element of the array in cell 6 is a getter that
    throws. *)
Lemma AsList_failure_releases_the_handles_witness :
  unwraps Sample2.isolate (handle 0 6) = Some (V8.VObject 6)
  /\ exists iso',
       AsList (handle 0 6) (Some Sample2.isolate) = (Throws JsError_empty_value, Some iso')
       /\ same_handles Sample2.isolate iso'.
Proof.
  assert (Harray : array_object (V8.heap Sample2.isolate) (V8.VObject 6)).
  { exists 6, Sample2.trap. split; [reflexivity|]. split; [reflexivity|].
    eexists. reflexivity. }
  destruct (AsList_failure_releases_the_handles Sample2.isolate (handle 0 6) 6 1%N
              (V8.VString "boom") eq_refl Harray)
    as (iso' & Hrun & _ & Hsame & _).
  - vm_compute. reflexivity.
  - vm_compute. reflexivity.
  - split; [reflexivity|]. exists iso'. split; [exact Hrun|exact Hsame].
Defined.

(** X6 at work: the names of the object in cell 0. *)
Lemma GetOwnPropertyNames_lists_the_own_keys_witness :
  unwraps Sample.isolate (handle 0 0) = Some (V8.VObject 1)
  /\ exists iso',
       GetOwnPropertyNames (handle 0 0) (Some Sample.isolate)
       = (Returns ["answer"; "broken"], Some iso')
       /\ same_handles Sample.isolate iso'.
Proof.
  destruct (GetOwnPropertyNames_lists_the_own_keys Sample.isolate (handle 0 0) 1 Sample.record
              eq_refl eq_refl) as (iso' & Hrun & Hsame & _).
  split; [reflexivity|]. exists iso'. split; [exact Hrun|exact Hsame].
Defined.

(** X7 at work: [answer] is a data property of the object in cell 0,
    [broken] a getter that throws. *)
Lemma GetProperty_reads_through_the_engine_witness :
  unwraps Sample.isolate (handle 0 0) = Some (V8.VObject 1)
  /\ returns_new_handle Sample.isolate (V8.VNumber Sample.five)
       (GetProperty (handle 0 0) "answer" (Some Sample.isolate))
  /\ exists iso',
       GetProperty (handle 0 0) "broken" (Some Sample.isolate)
       = (Throws JsError_empty_value, Some iso')
       /\ same_handles Sample.isolate iso'.
Proof.
  split; [reflexivity|]. split.
  - exact (GetProperty_reads_through_the_engine Sample.isolate (handle 0 0) 1 "answer" eq_refl).
  - exact (GetProperty_reads_through_the_engine Sample.isolate (handle 0 0) 1 "broken" eq_refl).
Defined.

(** X8 at work: writing [note] on the object in cell 0. *)
Lemma typed_properties_are_read_back_witness :
  unwraps Sample.isolate (handle 0 0) = Some (V8.VObject 1)
  /\ (exists iso1 read iso2,
        SetProperty_bool (handle 0 0) "note" true (Some Sample.isolate) = (Returns tt, Some iso1)
        /\ GetProperty (handle 0 0) "note" (Some iso1) = (Returns read, Some iso2)
        /\ fst (AsBool read (Some iso2)) = Returns true)
  /\ (exists iso1 read iso2,
        SetProperty_int64 (handle 0 0) "note" 42 (Some Sample.isolate) = (Returns tt, Some iso1)
        /\ GetProperty (handle 0 0) "note" (Some iso1) = (Returns read, Some iso2)
        /\ fst (AsInt read (Some iso2)) = Returns 42%Z).
Proof.
  destruct (typed_properties_are_read_back Sample.isolate (handle 0 0) 1 Sample.record
              "note" "note") as (Hbool & Hint & _);
    [reflexivity|reflexivity|reflexivity|reflexivity| |].
  - intros g s. vm_compute. discriminate.
  - split; [reflexivity|]. split; [apply Hbool|apply Hint; lia].
Defined.

(** X9 at work: [note], once set on the object in cell 0, is listed. *)
Lemma a_property_set_is_listed_witness :
  unwraps Sample.isolate (handle 0 0) = Some (V8.VObject 1)
  /\ exists iso1 names iso2,
       SetProperty (handle 0 0) "note" V8.VNull (Some Sample.isolate) = (Returns tt, Some iso1)
       /\ GetOwnPropertyNames (handle 0 0) (Some iso1) = (Returns names, Some iso2)
       /\ In "note" names.
Proof.
  split; [reflexivity|].
  apply (a_property_set_is_listed Sample.isolate (handle 0 0) 1 Sample.record "note" "note");
    try reflexivity.
  intros g s. vm_compute. discriminate.
Defined.

(** X10 at work: cell 7 holds a function that returns its argument. *)
Lemma Call_returns_a_handle_for_the_result_witness :
  unwraps Sample2.isolate (handle 0 7) = Some (V8.VObject 7)
  /\ unwraps Sample2.isolate (handle 0 3) = Some (V8.VNumber Sample.five)
  /\ returns_new_handle Sample2.isolate (V8.VNumber Sample.five)
       (Call_arg (handle 0 7) (handle 0 3) (Some Sample2.isolate)).
Proof.
  assert (Hfun : function_object (V8.heap Sample2.isolate) (V8.VObject 7)).
  { exists 7, Sample2.identity. split; [reflexivity|]. split; [reflexivity|].
    eexists. reflexivity. }
  destruct (Call_returns_a_handle_for_the_result Sample2.isolate (handle 0 7) 7
              [V8.VNumber Sample.five] 0 (V8.VNumber Sample.five) eq_refl Hfun eq_refl)
    as (_ & _ & _ & Harg).
  split; [reflexivity|]. split; [reflexivity|].
  apply (Harg (handle 0 3) (V8.VNumber Sample.five) 0 (V8.mkContext 0 None)); reflexivity.
Defined.

(** X11 at work: on the object in cell 0 a getter that throws gives a
    conversion error, not a type error. *)
Lemma TypeError_only_from_the_kind_checks_witness :
  unwraps Sample.isolate (handle 0 0) = Some (V8.VObject 1)
  /\ raises ConversionError (GetProperty (handle 0 0) "broken" (Some Sample.isolate))
  /\ ~ raises TypeError (GetProperty (handle 0 0) "broken" (Some Sample.isolate)).
Proof.
  destruct (TypeError_only_from_the_kind_checks Sample.isolate (handle 0 0) 1 eq_refl)
    as (Hget & _).
  split; [reflexivity|]. split; [|apply Hget].
  exists JsError_empty_value. split; reflexivity.
Defined.

(** X12 at work: the handle of cell 0 assigned to itself. *)
Lemma self_assignment_keeps_the_value_witness :
  unwraps Sample.isolate (handle 0 0) = Some (V8.VObject 1)
  /\ exists this' iso',
       assign (handle 0 0) (handle 0 0) (Some Sample.isolate) = (Returns this', Some iso')
       /\ unwraps iso' this' = Some (V8.VObject 1)
       /\ size (V8.global_handles iso') = size (V8.global_handles Sample.isolate).
Proof.
  destruct (self_assignment_keeps_the_value Sample.isolate (handle 0 0) (V8.VObject 1) eq_refl)
    as (this' & iso' & Hrun & Hvalue & _ & _ & Hsize & _).
  split; [reflexivity|]. exists this', iso'. auto.
Defined.

(** X13 at work: the strings of the array in cell 1; the text of an object
    is empty in the sample conversion. *)
Lemma ToList_returns_the_strings_witness :
  unwraps Sample.isolate (handle 0 1) = Some (V8.VObject 2)
  /\ (exists iso',
        HarnessTest.ToList (handle 0 1) (Some Sample.isolate) = (Returns ["x"; ""], Some iso')
        /\ same_handles Sample.isolate iso')
  /\ unwraps Sample.isolate (handle 0 0) = Some (V8.VObject 1)
  /\ raises TypeError (HarnessTest.ToList (handle 0 0) (Some Sample.isolate)).
Proof.
  destruct (ToList_returns_the_strings Sample.isolate (handle 0 1) (V8.VObject 2) eq_refl)
    as (_ & Hlist & _).
  destruct (ToList_returns_the_strings Sample.isolate (handle 0 0) (V8.VObject 1) eq_refl)
    as (Hnon & _).
  split; [reflexivity|]. split; [|split; [reflexivity|]].
  - apply (Hlist 2 [V8.VString "x"; V8.VObject 1] eq_refl).
    + exists 2, Sample.pair. split; [reflexivity|]. split; [reflexivity|].
      eexists. reflexivity.
    + unfold array_elements. change (indices_below _) with [0%N; 1%N].
      constructor; [vm_compute; reflexivity|].
      constructor; [vm_compute; reflexivity|constructor].
  - apply Hnon. intros (a & o & Ha & Ho & n & Hk).
    injection Ha as <-. vm_compute in Ho. injection Ho as <-. discriminate Hk.
Defined.

(** X15 at work: on the object in cell 0. *)
Lemma live_handles_have_defined_behaviour_witness :
  unwraps Sample.isolate (handle 0 0) = Some (V8.VObject 1)
  /\ keeps_handles Sample.isolate
       (SetProperty (handle 0 0) "note" V8.VNull (Some Sample.isolate))
  /\ keeps_handles Sample.isolate (AsInt (handle 0 0) (Some Sample.isolate))
  /\ defined (AsList (handle 0 0) (Some Sample.isolate))
  /\ defined (Call_arg (handle 0 0) (handle 0 3) (Some Sample.isolate)).
Proof.
  destruct (live_handles_have_defined_behaviour Sample.isolate (handle 0 0) (V8.VObject 1)
              eq_refl)
    as (Hset & _ & _ & _ & _ & _ & _ & Hint & _ & Hlist & _ & _ & _ & _ & _ & Harg & _).
  split; [reflexivity|]. split; [apply Hset|]. split; [exact Hint|]. split; [exact Hlist|].
  apply (Harg (handle 0 3) (V8.VNumber Sample.five)). reflexivity.
Defined.

(** X16 at work: the text is too long for the engine of
    [Sample2.short_strings], and cell 3 holds a number. *)
Lemma payload_conversion_comes_first_witness :
  unwraps Sample.isolate (handle 0 3) = Some (V8.VNumber Sample.five)
  /\ @ToV8String Sample2.short_strings "a long text" = None
  /\ exists iso',
       @SetProperty_string Sample2.short_strings (handle 0 3) "note" "a long text"
         (Some Sample.isolate)
       = (Throws JsError_empty_value, Some iso')
       /\ same_runtime Sample.isolate iso'.
Proof.
  split; [reflexivity|]. split; [reflexivity|].
  apply (proj1 (@payload_conversion_comes_first Sample2.short_strings Sample.isolate
                  (handle 0 3) (V8.VNumber Sample.five) eq_refl)).
  reflexivity.
Defined.

(** X14 at work: the measurements 1 and 2 have the mean 1.5 and squared
    deviations of a quarter each; the deviation reported is zero. *)
Lemma StdDeviation_keeps_its_sum_in_an_int_witness :
  let s := HarnessTest.Add (V8.double_of_Z 2)
             (HarnessTest.Add (V8.double_of_Z 1) (HarnessTest.mkCallStats [])) in
  (2 <= length (HarnessTest.measurements s))%nat
  /\ HarnessTest.Mean s = HarnessTest.double_div (V8.double_of_Z 3) (V8.double_of_Z 2)
  /\ HarnessTest.StdDeviation s = Some (S754_zero false).
Proof.
  split; [vm_compute; lia|]. split; [vm_compute; reflexivity|].
  apply (StdDeviation_keeps_its_sum_in_an_int
           (HarnessTest.Add (V8.double_of_Z 2)
              (HarnessTest.Add (V8.double_of_Z 1) (HarnessTest.mkCallStats [])))).
  - vm_compute. lia.
  - vm_compute. discriminate.
  - repeat constructor.
Defined.

End SampleRuns.

